(** * GripMMI: telemetry ingestion, force/pose derivation and recursive filters

    A shallow embedding of the parts of GripMMI that decode cached telemetry
    packets into the plotting buffers:

    - [VectorsMixin]   : Useful/VectorsMixin.cpp (vectors, quaternions,
                         matrices, rigid-body pose);
    - [DexAnalogMixin] : Grip/DexAnalogMixin.cpp (center of pressure, grip and
                         load force, one-pole recursive filters);
    - [GripPackets]    : Grip/GripPackets.h (constants and decoded structures);
    - [GripMMI]        : GripMMI/GripMMIData.cpp (GetGripRT, GetLatestGripHK,
                         UpdateStatus).

    C [double] values are kept abstract: every function is written over a
    carrier [D] with the operations of [DoubleOps] (the arithmetic the C code
    applies to doubles) and of [Libm] (the <math.h> calls).  Properties of the
    control flow are proved for every carrier.  Algebraic properties are proved
    for the carrier [R], in which each operation is exact: the rounding of
    binary64 and of the [(float)] casts is outside that instance. *)

From Stdlib Require Import ZArith List String QArith Reals Lra Lia Bool.
From Stdlib Require SpecFloat.
Import ListNotations.

Set Implicit Arguments.
Local Open Scope Z_scope.

(* ================================================================== *)
(** * Arithmetic on C doubles *)

(** The operations the sources apply to [double] values.  [dlit q] is the
    value of a decimal literal, [of_int] the conversion of an integer,
    [to_float] the cast [(float)] followed by the promotion back to double,
    [dlt a b] the test [a < b], [dle a b] the test [a <= b], and [_finite]
    the C runtime predicate of the same name. *)
Class DoubleOps (D : Type) : Type := {
  dlit : Q -> D;
  of_int : Z -> D;
  dadd : D -> D -> D;
  dsub : D -> D -> D;
  dmul : D -> D -> D;
  ddiv : D -> D -> D;
  dneg : D -> D;
  dsqrt : D -> D;
  dfabs : D -> D;
  dlt : D -> D -> bool;
  dle : D -> D -> bool;
  to_float : D -> D;
  _finite : D -> bool
}.

(** The <math.h> functions called by the sources. *)
Class Libm (D : Type) : Type := {
  dsin : D -> D;
  dcos : D -> D;
  datan2 : D -> D -> D
}.

Arguments dlit {D _} q%_Q.
Arguments of_int {D _} z%_Z.

Declare Scope double_scope.
Delimit Scope double_scope with dbl.
Infix "+" := dadd : double_scope.
Infix "-" := dsub : double_scope.
Infix "*" := dmul : double_scope.
Infix "/" := ddiv : double_scope.
Notation "- x" := (dneg x) : double_scope.
(** [a >? b] is the C test [a > b]; [a >=? b] is [a >= b]. *)
Notation "a >? b" := (dlt b a) (at level 70, no associativity) : double_scope.
Notation "a >=? b" := (dle b a) (at level 70, no associativity) : double_scope.

(** [for ( i = start; i < start + count; i++ ) s = body i s;] *)
Fixpoint for_range {S : Type} (count : nat) (i : Z) (body : Z -> S -> S) (s : S) : S :=
  match count with
  | O => s
  | Datatypes.S n => for_range n (i + 1)%Z body (body i s)
  end.

(** A C array used through a pointer: a total map from index to element. *)
Definition array (A : Type) : Type := Z -> A.

Definition array_set {A : Type} (a : array A) (i : Z) (v : A) : array A :=
  fun j => if (j =? i)%Z then v else a j.

(* ================================================================== *)
(** * Useful/VectorsMixin.cpp *)

Module VectorsMixin.
Section WithDouble.
Context {D : Type} {ops : DoubleOps D} {libm : Libm D}.
Local Open Scope double_scope.

(** [typedef double Vector3[3]], indexed by X, Y, Z. *)
Record Vector3 : Type := mkVector3 { vX : D; vY : D; vZ : D }.

(** [typedef double Quaternion[4]], indexed by X, Y, Z, M. *)
Record Quaternion : Type := mkQuaternion { qX : D; qY : D; qZ : D; qM : D }.

(** [typedef double Matrix3x3[3][3]]: an array of three row vectors. *)
Record Matrix3x3 : Type := mkMatrix3x3 { rX : Vector3; rY : Vector3; rZ : Vector3 }.

(** [MAX_RIGID_BODY_MARKERS] is defined in VectorsMixin.h, which is not among
    the sources: it is a parameter of the pose computation. *)
Variable MAX_RIGID_BODY_MARKERS : Z.

Definition pi : D := dlit 3.14159265358979.

Definition zeroVector : Vector3 := mkVector3 (dlit 0.0) (dlit 0.0) (dlit 0.0).
Definition iVector : Vector3 := mkVector3 (dlit 1.0) (dlit 0.0) (dlit 0.0).
Definition jVector : Vector3 := mkVector3 (dlit 0.0) (dlit 1.0) (dlit 0.0).
Definition kVector : Vector3 := mkVector3 (dlit 0.0) (dlit 0.0) (dlit 1.0).

Definition nullQuaternion : Quaternion :=
  mkQuaternion (dlit 0.0) (dlit 0.0) (dlit 0.0) (dlit 1.0).

Definition identityMatrix : Matrix3x3 :=
  mkMatrix3x3 (mkVector3 (dlit 1.0) (dlit 0.0) (dlit 0.0))
              (mkVector3 (dlit 0.0) (dlit 1.0) (dlit 0.0))
              (mkVector3 (dlit 0.0) (dlit 0.0) (dlit 1.0)).
Definition zeroMatrix : Matrix3x3 :=
  mkMatrix3x3 (mkVector3 (dlit 0.0) (dlit 0.0) (dlit 0.0))
              (mkVector3 (dlit 0.0) (dlit 0.0) (dlit 0.0))
              (mkVector3 (dlit 0.0) (dlit 0.0) (dlit 0.0)).

Definition ToDegrees (radians : D) : D := radians * dlit 180.0 / pi.
Definition ToRadians (degrees : D) : D := degrees * pi / dlit 180.0.

(** Out-parameters become results: [CopyVector( destination, source )]
    yields the new content of [destination]. *)
Definition CopyVector (source : Vector3) : Vector3 :=
  mkVector3 (vX source) (vY source) (vZ source).

Definition CopyQuaternion (source : Quaternion) : Quaternion :=
  mkQuaternion (qX source) (qY source) (qZ source) (qM source).

Definition AddVectors (a b : Vector3) : Vector3 :=
  mkVector3 (vX a + vX b) (vY a + vY b) (vZ a + vZ b).

Definition SubtractVectors (a b : Vector3) : Vector3 :=
  mkVector3 (vX a - vX b) (vY a - vY b) (vZ a - vZ b).

(** The overload on two [Vector3]: each component is cast to [float] before
    the multiplication, as the source writes it. *)
Definition ScaleVector (a : Vector3) (scaling : D) : Vector3 :=
  mkVector3 (to_float (vX a) * scaling)
            (to_float (vY a) * scaling)
            (to_float (vZ a) * scaling).

Definition VectorNorm (vector : Vector3) : D :=
  dsqrt (vX vector * vX vector + vY vector * vY vector + vZ vector * vZ vector).

Definition NormalizeVector (v : Vector3) : Vector3 :=
  ScaleVector v (dlit 1.0 / VectorNorm v).

Definition DotProduct (v1 v2 : Vector3) : D :=
  vX v1 * vX v2 + vY v1 * vY v2 + vZ v1 * vZ v2.

Definition ComputeCrossProduct (v1 v2 : Vector3) : Vector3 :=
  mkVector3 (vY v1 * vZ v2 - vZ v1 * vY v2)
            (vZ v1 * vX v2 - vX v1 * vZ v2)
            (vX v1 * vY v2 - vY v1 * vX v2).

(** [v[i]] and [m[i][j]] for integer indices 0, 1, 2 (any other index is
    outside the array; the model reads the last component). *)
Definition vidx (v : Vector3) (i : Z) : D :=
  if (i =? 0)%Z then vX v else if (i =? 1)%Z then vY v else vZ v.

Definition row (m : Matrix3x3) (i : Z) : Vector3 :=
  if (i =? 0)%Z then rX m else if (i =? 1)%Z then rY m else rZ m.

Definition midx (m : Matrix3x3) (i j : Z) : D := vidx (row m i) j.

Local Notation "m [[ i , j ]]" := (midx m i%Z j%Z) (at level 1, format "m [[ i , j ]]").

(** A matrix given entry by entry. *)
Definition matrix_of (f : Z -> Z -> D) : Matrix3x3 :=
  mkMatrix3x3 (mkVector3 (f 0%Z 0%Z) (f 0%Z 1%Z) (f 0%Z 2%Z))
              (mkVector3 (f 1%Z 0%Z) (f 1%Z 1%Z) (f 1%Z 2%Z))
              (mkVector3 (f 2%Z 0%Z) (f 2%Z 1%Z) (f 2%Z 2%Z)).

Definition CopyMatrix (source : Matrix3x3) : Matrix3x3 :=
  matrix_of (fun i j => source[[i,j]]).

Definition TransposeMatrix (source : Matrix3x3) : Matrix3x3 :=
  matrix_of (fun j i => source[[i,j]]).

Definition ScaleMatrix (source : Matrix3x3) (scaling : D) : Matrix3x3 :=
  matrix_of (fun i j => scaling * source[[i,j]]).

(** [result[i][j] = 0.0; for k: result[i][j] += left[i][k] * right[k][j]]. *)
Definition MultiplyMatrices (left right : Matrix3x3) : Matrix3x3 :=
  matrix_of (fun i j =>
    for_range 3 0 (fun k acc => acc + left[[i,k]] * right[[k,j]]) (dlit 0.0)).

Definition OrthonormalizeMatrix (m : Matrix3x3) : Matrix3x3 :=
  let resultX := CopyVector (rX m) in
  let resultZ := ComputeCrossProduct (rX m) (rY m) in
  let resultY := ComputeCrossProduct resultZ (rX m) in
  mkMatrix3x3 (NormalizeVector resultX) (NormalizeVector resultY) (NormalizeVector resultZ).

Definition MultiplyVector (v : Vector3) (m : Matrix3x3) : Vector3 :=
  let entry i := for_range 3 0 (fun j acc => acc + vidx v j * m[[j,i]]) (dlit 0.0) in
  mkVector3 (entry 0%Z) (entry 1%Z) (entry 2%Z).

(** transpose(left) * right over [rows] row vectors, divided by [rows]. *)
Definition CrossVectors (left right : array Vector3) (rows : Z) : Matrix3x3 :=
  let r i j :=
    for_range (Z.to_nat rows) 0
      (fun k acc => acc + vidx (left k) i * vidx (right k) j) (dlit 0.0) in
  matrix_of (fun i j => r i j / of_int rows).

Definition Determinant (m : Matrix3x3) : D :=
  m[[0,0]] * (m[[2,2]] * m[[1,1]] - m[[2,1]] * m[[1,2]])
  - m[[1,0]] * (m[[2,2]] * m[[0,1]] - m[[2,1]] * m[[0,2]])
  + m[[2,0]] * (m[[1,2]] * m[[0,1]] - m[[1,1]] * m[[0,2]]).

(** Returns the inverse and the determinant. *)
Definition InvertMatrix (m : Matrix3x3) : Matrix3x3 * D :=
  let det := Determinant m in
  let r := mkMatrix3x3
    (mkVector3 (m[[2,2]] * m[[1,1]] - m[[2,1]] * m[[1,2]])
               (m[[2,1]] * m[[0,2]] - m[[2,2]] * m[[0,1]])
               (m[[1,2]] * m[[0,1]] - m[[1,1]] * m[[0,2]]))
    (mkVector3 (m[[2,0]] * m[[1,2]] - m[[2,2]] * m[[1,0]])
               (m[[2,2]] * m[[0,0]] - m[[2,0]] * m[[0,2]])
               (m[[1,0]] * m[[0,2]] - m[[1,2]] * m[[0,0]]))
    (mkVector3 (m[[2,1]] * m[[1,0]] - m[[2,0]] * m[[1,1]])
               (m[[2,0]] * m[[0,1]] - m[[2,1]] * m[[0,0]])
               (m[[1,1]] * m[[0,0]] - m[[1,0]] * m[[0,1]])) in
  (ScaleMatrix r (dlit 1.0 / det), det).

(** The Moore-Penrose pseudo-inverse fit. *)
Definition BestFitTransformation (input output : array Vector3) (rows : Z) : Matrix3x3 :=
  let right := CrossVectors input output rows in
  let left := CrossVectors input input rows in
  let left_inverse := fst (InvertMatrix left) in
  MultiplyMatrices left_inverse right.

Definition NormalizeQuaternion (q : Quaternion) : Quaternion :=
  let norm := dsqrt (qM q * qM q + qX q * qX q + qY q * qY q + qZ q * qZ q) in
  mkQuaternion (qX q / norm) (qY q / norm) (qZ q / norm) (qM q / norm).

Definition MultiplyQuaternions (q1 q2 : Quaternion) : Quaternion :=
  mkQuaternion
    (qM q1 * qX q2 + qX q1 * qM q2 + qY q1 * qZ q2 - qZ q1 * qY q2)
    (qM q1 * qY q2 - qX q1 * qZ q2 + qY q1 * qM q2 + qZ q1 * qX q2)
    (qM q1 * qZ q2 + qX q1 * qY q2 - qY q1 * qX q2 + qZ q1 * qM q2)
    (qM q1 * qM q2 - qX q1 * qX q2 - qY q1 * qY q2 - qZ q1 * qZ q2).

(** The first three components of a quaternion, read as a vector, and a
    quaternion whose first three components are overwritten by a vector: the
    source calls CopyVector and ScaleVector on quaternions in this way. *)
Definition vector_part (q : Quaternion) : Vector3 := mkVector3 (qX q) (qY q) (qZ q).

Definition with_vector_part (q : Quaternion) (v : Vector3) : Quaternion :=
  mkQuaternion (vX v) (vY v) (vZ v) (qM q).

Definition RotateVector (q : Quaternion) (v : Vector3) : Vector3 :=
  (* vq[M] = 0.0;  CopyVector( vq, v ); *)
  let vq := mkQuaternion (vX v) (vY v) (vZ v) (dlit 0.0) in
  (* conjugate[M] = q[M]; ScaleVector( conjugate, q, -1.0 ); *)
  let conjugate :=
    with_vector_part q (ScaleVector (vector_part q) (dlit (-1.0))) in
  let interim := MultiplyQuaternions q vq in
  let rq := MultiplyQuaternions interim conjugate in
  CopyVector (vector_part rq).

Definition SetQuaternion (radians : D) (axis : Vector3) : Quaternion :=
  let m := to_float (dcos (dlit 0.5 * radians)) in
  let v := ScaleVector axis (dsin (dlit 0.5 * radians) / VectorNorm axis) in
  mkQuaternion (vX v) (vY v) (vZ v) m.

(** The branch compiled when DEX_IMPLEMENTATION is not defined. *)
Definition MatrixToQuaternion (m : Matrix3x3) : Quaternion :=
  let ortho := OrthonormalizeMatrix m in
  let oXX := vX (rX ortho) in let oXY := vY (rX ortho) in let oXZ := vZ (rX ortho) in
  let oYX := vX (rY ortho) in let oYY := vY (rY ortho) in let oYZ := vZ (rY ortho) in
  let oZX := vX (rZ ortho) in let oZY := vY (rZ ortho) in let oZZ := vZ (rZ ortho) in
  let t := oXX + oYY + oZZ in
  if t >? dlit 0.0 then
    let r := dsqrt (dlit 1.0 + oXX + oYY + oZZ) in
    let s := dlit 0.5 / r in
    mkQuaternion ((oYZ - oZY) * s) ((oZX - oXZ) * s) ((oXY - oYX) * s) (dlit 0.5 * r)
  else if (oXX >? oYY) && (oXX >? oZZ) then
    let r := dsqrt (dlit 1.0 + oXX - oYY - oZZ) in
    let s := dlit 0.5 / r in
    mkQuaternion (dlit 0.5 * r) ((oYX + oXY) * s) ((oZX + oXZ) * s) ((oYZ - oZY) * s)
  else if oYY >? oZZ then
    let r := dsqrt (dlit 1.0 + oYY - oXX - oZZ) in
    let s := dlit 0.5 / r in
    mkQuaternion ((oYX + oXY) * s) (dlit 0.5 * r) ((oZY + oYZ) * s) ((oZX - oXZ) * s)
  else
    let r := dsqrt (dlit 1.0 + oZZ - oXX - oYY) in
    let s := dlit 0.5 / r in
    mkQuaternion ((oZX + oXZ) * s) ((oZY + oYZ) * s) (dlit 0.5 * r) ((oXY - oYX) * s).

Definition SetQuaterniond (degrees : D) (axis : Vector3) : Quaternion :=
  SetQuaternion (degrees * pi / dlit 180.0) axis.

Definition AngleBetween (q1 q2 : Quaternion) : D :=
  let conjugate := with_vector_part q2 (ScaleVector (vector_part q2) (dlit (-1.0))) in
  let interim := MultiplyQuaternions q1 conjugate in
  dlit 2.0 * datan2 (VectorNorm (vector_part interim)) (qM interim).

Definition QuaternionToCannonicalRotations (q : Quaternion) : Vector3 :=
  mkVector3
    (datan2 (of_int 2 * (qM q * qX q + qY q * qZ q)) (dlit 1.0 - (qX q * qX q + qY q * qY q)))
    (datan2 (of_int 2 * (qM q * qY q + qX q * qZ q)) (dlit 1.0 - (qY q * qY q + qZ q * qZ q)))
    (datan2 (of_int 2 * (qM q * qZ q + qX q * qY q)) (dlit 1.0 - (qX q * qX q + qZ q * qZ q))).

(** [ComputeRigidBodyPose( position, orientation, model, actual, N,
    default_orientation )].  [position] and [orientation] are written on every
    path, so the result is the returned flag with their new contents.  A null
    [default_orientation] pointer is [None].  Local arrays are indeterminate
    until written; they are read only at indices written before. *)
Definition ComputeRigidBodyPose (model actual : array Vector3) (N : Z)
    (default_orientation : option Quaternion) : bool * Vector3 * Quaternion :=
  let N := if (N >? MAX_RIGID_BODY_MARKERS)%Z then MAX_RIGID_BODY_MARKERS else N in
  let no_default := match default_orientation with None => true | Some _ => false end in
  if (N <? 3)%Z && no_default then
    let position :=
      mkVector3 (dlit (-999.999)) (dlit (-999.999)) (dlit (-999.999)) in
    let orientation :=
      mkQuaternion (dlit (-999.999)) (dlit (-999.999)) (dlit (-999.999)) (dlit (-999.999)) in
    (false, position, orientation)
  else
    let orientation :=
      if (N >? 3)%Z then
        let '(model_centroid, actual_centroid) :=
          for_range (Z.to_nat N) 0
            (fun i '(mc, ac) => (AddVectors mc (model i), AddVectors ac (actual i)))
            (CopyVector zeroVector, CopyVector zeroVector) in
        let model_centroid := ScaleVector model_centroid (dlit 1.0 / of_int N) in
        let actual_centroid := ScaleVector actual_centroid (dlit 1.0 / of_int N) in
        let '(model_delta, actual_delta) :=
          for_range (Z.to_nat N) 0
            (fun i '(md, ad) =>
               (array_set md i (SubtractVectors (model i) model_centroid),
                array_set ad i (SubtractVectors (actual i) actual_centroid)))
            (fun _ => zeroVector, fun _ => zeroVector) in
        let model_center_of_rotation :=
          ComputeCrossProduct (model_delta 0%Z) (model_delta 1%Z) in
        let model_center_of_rotation :=
          ScaleVector model_center_of_rotation
            (VectorNorm (model_delta 0%Z) / VectorNorm (model_delta 0%Z)
               / VectorNorm (model_delta 1%Z)) in
        let actual_center_of_rotation :=
          ComputeCrossProduct (actual_delta 0%Z) (actual_delta 1%Z) in
        let actual_center_of_rotation :=
          ScaleVector actual_center_of_rotation
            (VectorNorm (model_delta 0%Z) / VectorNorm (actual_delta 0%Z)
               / VectorNorm (actual_delta 1%Z)) in
        let '(model_delta, actual_delta) :=
          for_range (Z.to_nat N) 0
            (fun i '(md, ad) =>
               (array_set md i (SubtractVectors (md i) model_center_of_rotation),
                array_set ad i (SubtractVectors (ad i) actual_center_of_rotation)))
            (model_delta, actual_delta) in
        let best := BestFitTransformation model_delta actual_delta N in
        MatrixToQuaternion best
      else if (N =? 3)%Z then
        let frame (pts : array Vector3) : Matrix3x3 :=
          let localX := NormalizeVector (SubtractVectors (pts 1%Z) (pts 0%Z)) in
          let temp := SubtractVectors (pts 2%Z) (pts 0%Z) in
          let localZ := NormalizeVector (ComputeCrossProduct localX temp) in
          let localY := NormalizeVector (ComputeCrossProduct localZ localX) in
          mkMatrix3x3 localX localY localZ in
        let model_local := frame model in
        let actual_local := frame actual in
        let inverse := fst (InvertMatrix model_local) in
        let exact := MultiplyMatrices inverse actual_local in
        MatrixToQuaternion exact
      else
        match default_orientation with
        | Some q => CopyQuaternion q
        | None => nullQuaternion (* excluded by the test above *)
        end in
    let position :=
      for_range (Z.to_nat N) 0
        (fun i position =>
           let rotated_model := RotateVector orientation (model i) in
           let offset := SubtractVectors (actual i) rotated_model in
           AddVectors position offset)
        (CopyVector zeroVector) in
    let position := ScaleVector position (dlit 1.0 / of_int N) in
    (true, position, orientation).

End WithDouble.
Arguments Vector3 D : clear implicits.
Arguments Quaternion D : clear implicits.
Arguments Matrix3x3 D : clear implicits.
End VectorsMixin.

(* ================================================================== *)
(** * Headers that are not among the sources *)

(** Constants of Useful.h and DexAnalogMixin.h.  These headers are not among
    the sources, so their values are parameters: [MISSING_DOUBLE] is the
    sentinel for unavailable data, [N_FORCE_TRANSDUCERS] the number of ATI
    sensors, [LEFT_ATI] and [RIGHT_ATI] their indices. *)
Class Constants (D : Type) : Type := {
  MISSING_DOUBLE : D;
  N_FORCE_TRANSDUCERS : Z;
  LEFT_ATI : Z;
  RIGHT_ATI : Z;
  LEFT_ATI_ROTATION : D;
  RIGHT_ATI_ROTATION : D
}.

(** [TRUE] and [FALSE] of <Windows.h>. *)
Definition TRUE : Z := 1.
Definition FALSE : Z := 0.

(* ================================================================== *)
(** * Grip/DexAnalogMixin.cpp *)

Module DexAnalogMixin.
Import VectorsMixin.
Section WithDouble.
Context {D : Type} {ops : DoubleOps D} {libm : Libm D} {consts : Constants D}.
Local Open Scope double_scope.

(** The instance variables of the class. *)
Record t : Type := mk {
  ATIRotationAngle : array D;
  ftAlignmentQuaternion : array (Quaternion D);
  filterConstant : D;
  filteredManipulandumPosition : Vector3 D;
  filteredManipulandumRotations : Vector3 D;
  filteredLoadForce : Vector3 D;
  filteredAcceleration : Vector3 D;
  filteredCoP : array (Vector3 D);
  filteredGripForce : D;
  filteredNormalForce : array D
}.

Definition set_ATIRotationAngle (v : array D) (d : t) : t :=
  mk v (ftAlignmentQuaternion d) (filterConstant d) (filteredManipulandumPosition d)
     (filteredManipulandumRotations d) (filteredLoadForce d) (filteredAcceleration d)
     (filteredCoP d) (filteredGripForce d) (filteredNormalForce d).

Definition set_ftAlignmentQuaternion (v : array (Quaternion D)) (d : t) : t :=
  mk (ATIRotationAngle d) v (filterConstant d) (filteredManipulandumPosition d)
     (filteredManipulandumRotations d) (filteredLoadForce d) (filteredAcceleration d)
     (filteredCoP d) (filteredGripForce d) (filteredNormalForce d).

Definition set_filterConstant (v : D) (d : t) : t :=
  mk (ATIRotationAngle d) (ftAlignmentQuaternion d) v (filteredManipulandumPosition d)
     (filteredManipulandumRotations d) (filteredLoadForce d) (filteredAcceleration d)
     (filteredCoP d) (filteredGripForce d) (filteredNormalForce d).

Definition set_filteredManipulandumPosition (v : Vector3 D) (d : t) : t :=
  mk (ATIRotationAngle d) (ftAlignmentQuaternion d) (filterConstant d) v
     (filteredManipulandumRotations d) (filteredLoadForce d) (filteredAcceleration d)
     (filteredCoP d) (filteredGripForce d) (filteredNormalForce d).

Definition set_filteredManipulandumRotations (v : Vector3 D) (d : t) : t :=
  mk (ATIRotationAngle d) (ftAlignmentQuaternion d) (filterConstant d)
     (filteredManipulandumPosition d) v (filteredLoadForce d) (filteredAcceleration d)
     (filteredCoP d) (filteredGripForce d) (filteredNormalForce d).

Definition set_filteredLoadForce (v : Vector3 D) (d : t) : t :=
  mk (ATIRotationAngle d) (ftAlignmentQuaternion d) (filterConstant d)
     (filteredManipulandumPosition d) (filteredManipulandumRotations d) v
     (filteredAcceleration d) (filteredCoP d) (filteredGripForce d) (filteredNormalForce d).

Definition set_filteredAcceleration (v : Vector3 D) (d : t) : t :=
  mk (ATIRotationAngle d) (ftAlignmentQuaternion d) (filterConstant d)
     (filteredManipulandumPosition d) (filteredManipulandumRotations d)
     (filteredLoadForce d) v (filteredCoP d) (filteredGripForce d) (filteredNormalForce d).

Definition set_filteredCoP (v : array (Vector3 D)) (d : t) : t :=
  mk (ATIRotationAngle d) (ftAlignmentQuaternion d) (filterConstant d)
     (filteredManipulandumPosition d) (filteredManipulandumRotations d)
     (filteredLoadForce d) (filteredAcceleration d) v (filteredGripForce d)
     (filteredNormalForce d).

Definition set_filteredGripForce (v : D) (d : t) : t :=
  mk (ATIRotationAngle d) (ftAlignmentQuaternion d) (filterConstant d)
     (filteredManipulandumPosition d) (filteredManipulandumRotations d)
     (filteredLoadForce d) (filteredAcceleration d) (filteredCoP d) v
     (filteredNormalForce d).

Definition set_filteredNormalForce (v : array D) (d : t) : t :=
  mk (ATIRotationAngle d) (ftAlignmentQuaternion d) (filterConstant d)
     (filteredManipulandumPosition d) (filteredManipulandumRotations d)
     (filteredLoadForce d) (filteredAcceleration d) (filteredCoP d)
     (filteredGripForce d) v.

Definition SetFilterConstant (filter_constant : D) (d : t) : t :=
  set_filterConstant filter_constant d.

Definition GetFilterConstant (d : t) : D := filterConstant d.

(** The constructor, applied to the storage of the object ([raw]): the
    members it does not assign ([filteredNormalForce]) keep what the storage
    held. *)
Definition constructor (raw : t) : t :=
  let d := raw in
  let d := set_ATIRotationAngle
             (array_set (ATIRotationAngle d) LEFT_ATI LEFT_ATI_ROTATION) d in
  let d := set_ATIRotationAngle
             (array_set (ATIRotationAngle d) RIGHT_ATI RIGHT_ATI_ROTATION) d in
  let d := set_ftAlignmentQuaternion
             (array_set (ftAlignmentQuaternion d) 0
                (SetQuaterniond (ATIRotationAngle d 0%Z) kVector)) d in
  let align := SetQuaterniond (ATIRotationAngle d 1%Z) kVector in
  let flip := SetQuaterniond (dlit 180.0) iVector in
  let d := set_ftAlignmentQuaternion
             (array_set (ftAlignmentQuaternion d) 1 (MultiplyQuaternions flip align)) d in
  let d := SetFilterConstant (dlit 100.0) d in
  let d := set_filteredManipulandumPosition (CopyVector zeroVector) d in
  let d := set_filteredManipulandumRotations (CopyVector zeroVector) d in
  let d := set_filteredLoadForce (CopyVector zeroVector) d in
  let d := set_filteredAcceleration (CopyVector zeroVector) d in
  let d := for_range (Z.to_nat N_FORCE_TRANSDUCERS) 0
             (fun ati d =>
                set_filteredCoP (array_set (filteredCoP d) ati (CopyVector zeroVector)) d)
             d in
  set_filteredGripForce (dlit 0.0) d.

(** [ComputeCoP( cop, force, torque, threshold )]: the new content of [cop]
    and the returned distance. *)
Definition ComputeCoP (force torque : Vector3 D) (threshold : D) : Vector3 D * D :=
  if dfabs (vX force) >? threshold then
    let copY := (- vZ torque) / vX force in
    let copZ := (- vY torque) / vX force in
    let copX := dlit 0.0 in
    (mkVector3 copX copY copZ, dsqrt (copZ * copZ + copY * copY))
  else
    (mkVector3 MISSING_DOUBLE MISSING_DOUBLE MISSING_DOUBLE, of_int (-1)).

Definition ComputeGripForce (force1 force2 : Vector3 D) : D :=
  (vX force2 - vX force1) / dlit 2.0.

(** [ComputeLoadForce( load, force1, force2 )]: the new [load] and its norm. *)
Definition ComputeLoadForce (force1 force2 : Vector3 D) : Vector3 D * D :=
  let load := mkVector3 (vX force1 + vX force2) (vY force1 + vY force2)
                        (vZ force1 + vZ force2) in
  (load, VectorNorm load).

Definition ComputePlanarLoadForce (force1 force2 : Vector3 D) : Vector3 D * D :=
  let load := fst (ComputeLoadForce force1 force2) in
  let load := mkVector3 (dlit 0.0) (vY load) (vZ load) in
  (load, VectorNorm load).

(** The three steps every vector filter applies to its accumulator. *)
Definition filter_vector (k : D) (filtered sample : Vector3 D) : Vector3 D :=
  let filtered := ScaleVector filtered k in
  let filtered := AddVectors filtered sample in
  ScaleVector filtered (dlit 1.0 / (dlit 1.0 + k)).

(** Vector filters work in place: the result is the new object state, the new
    content of the argument vector, and the returned norm. *)
Definition FilterLoadForce (d : t) (load_force : Vector3 D) : t * Vector3 D * D :=
  let d := set_filteredLoadForce
             (filter_vector (filterConstant d) (filteredLoadForce d) load_force) d in
  let load_force := CopyVector (filteredLoadForce d) in
  (d, load_force, VectorNorm (filteredLoadForce d)).

Definition FilterCoP (d : t) (which_ati : Z) (center_of_pressure : Vector3 D)
    : t * Vector3 D * D :=
  let d := set_filteredCoP
             (array_set (filteredCoP d) which_ati
                (filter_vector (filterConstant d) (filteredCoP d which_ati)
                   center_of_pressure)) d in
  let center_of_pressure := CopyVector (filteredCoP d which_ati) in
  (d, center_of_pressure, VectorNorm (filteredCoP d which_ati)).

Definition FilterManipulandumPosition (d : t) (position : Vector3 D) : t * Vector3 D * D :=
  let d := set_filteredManipulandumPosition
             (filter_vector (filterConstant d) (filteredManipulandumPosition d) position) d in
  let position := CopyVector (filteredManipulandumPosition d) in
  (d, position, VectorNorm position).

Definition FilterManipulandumRotations (d : t) (rotations : Vector3 D) : t * Vector3 D * D :=
  let d := set_filteredManipulandumRotations
             (filter_vector (filterConstant d) (filteredManipulandumRotations d) rotations) d in
  let rotations := CopyVector (filteredManipulandumRotations d) in
  (d, rotations, VectorNorm rotations).

Definition FilterAcceleration (d : t) (acceleration : Vector3 D) : t * Vector3 D * D :=
  let d := set_filteredAcceleration
             (filter_vector (filterConstant d) (filteredAcceleration d) acceleration) d in
  let acceleration := CopyVector (filteredAcceleration d) in
  (d, acceleration, VectorNorm acceleration).

(** Scalar filters: the new object state and the returned value. *)
Definition FilterGripForce (d : t) (grip_force : D) : t * D :=
  let d := set_filteredGripForce
             ((grip_force + filterConstant d * filteredGripForce d)
                / (dlit 1.0 + filterConstant d)) d in
  (d, filteredGripForce d).

Definition FilterNormalForce (d : t) (normal_force : D) (ati : Z) : t * D :=
  if (ati >=? N_FORCE_TRANSDUCERS)%Z || (ati <? 0)%Z then
    (d, MISSING_DOUBLE)
  else
    let d := set_filteredNormalForce
               (array_set (filteredNormalForce d) ati
                  ((normal_force + filterConstant d * filteredNormalForce d ati)
                     / (dlit 1.0 + filterConstant d))) d in
    (d, filteredNormalForce d ati).

End WithDouble.
Arguments t D : clear implicits.
End DexAnalogMixin.

(* ================================================================== *)
(** * Grip/GripPackets.h *)

Module GripPackets.
Import VectorsMixin.

Definition EPM_BUFFER_LENGTH : Z := 1412.
Definition EPM_TRANSFER_FRAME_HEADER_LENGTH : Z := 12.
Definition EPM_TELEMETRY_HEADER_LENGTH : Z := 30.

Definition EPM_TRANSFER_FRAME_SYNC_VALUE : Z := 0xAA49DBFF.
Definition TRANSFER_FRAME_CONNECT : Z := 0x0001.
Definition TRANSFER_FRAME_ALIVE : Z := 0x0002.
Definition TRANSFER_FRAME_TELECOMMAND : Z := 0x1154.
Definition TRANSFER_FRAME_TELEMETRY : Z := 0x1153.

(** Also defined, with the same values, at the head of GripMMIData.cpp. *)
Definition MAX_OPEN_CACHE_RETRIES : Z := 5.
Definition RETRY_PAUSE : Z := 20.
Definition ERROR_CACHE_NOT_FOUND : Z := -1000.

Definition PACKET_STREAM_BREAK_THRESHOLD : Q := 1.0.
Definition PACKET_STREAM_BREAK_INSERT_SAMPLES : Z := 10.

Definition EPM_TELEMETRY_SYNC_VALUE : Z := 0xFFDB544D.
Definition GRIP_HK_ID : Z := 0x0301.
Definition GRIP_RT_ID : Z := 0x1001.

Definition RT_SLICES_PER_PACKET : Z := 10.

Definition BULK_HK_BYTES : Z := 158.
Definition hkPacketLengthInBytes : Z := BULK_HK_BYTES.
Definition RT_SCIENCE_BYTES : Z := 802.
Definition rtPacketLengthInBytes : Z := RT_SCIENCE_BYTES.

Record EPMTransferFrameHeaderInfo : Type := mkEPMTransferFrameHeaderInfo {
  epmLanSyncMarker : Z;
  spare1 : Z;
  softwareUnitID : Z;
  packetType : Z;
  spare2 : Z;
  tf_numberOfWords : Z
}.

Record EPMTelemetryHeaderInfo : Type := mkEPMTelemetryHeaderInfo {
  transferFrameInfo : EPMTransferFrameHeaderInfo;
  epmSyncMarker : Z;
  subsystemMode : Z;
  subsystemID : Z;
  destination : Z;
  subsystemUnitID : Z;
  TMIdentifier : Z;
  TMCounter : Z;
  model : Z;
  taskID : Z;
  subsystemUnitVersion : Z;
  coarseTime : Z;
  fineTime : Z;
  timerStatus : Z;
  experimentMode : Z;
  checksumIndicator : Z;
  receiverSubsystemID : Z;
  receiverSubsystemUnitID : Z;
  numberOfWords : Z
}.

Section WithDouble.
Variable D : Type.

Record ForceTorque : Type := mkForceTorque { force : Vector3 D; torque : Vector3 D }.

Record ManipulandumPacket : Type := mkManipulandumPacket {
  poseTick : Z;
  position : Vector3 D;
  quaternion : Quaternion D;
  markerVisibility : array Z;
  manipulandumVisibility : Z;
  analogTick : Z;
  ft : array ForceTorque;
  acceleration : Vector3 D;
  bestGuessPoseTimestamp : D;
  bestGuessAnalogTimestamp : D
}.

Record GripRealtimeDataInfo : Type := mkGripRealtimeDataInfo {
  packetTimestamp : D;
  acquisitionID : Z;
  rtPacketCount : Z;
  dataSlice : array ManipulandumPacket
}.

End WithDouble.

Record GripHealthAndStatusInfo : Type := mkGripHealthAndStatusInfo {
  horizontalTargetFeedback : Z;
  verticalTargetFeedback : Z;
  toneFeedback : Z;
  cradleDetectors : Z;
  user : Z;
  protocol : Z;
  task : Z;
  step : Z;
  scriptEngineStatusEnum : Z;
  iochannelStatusEnum : Z;
  motionTrackerStatusEnum : Z;
  crewCameraStatusEnum : Z;
  crewCameraRate : Z;
  runningBits : Z;
  cpuUsage : Z;
  memoryUsage : Z;
  freeDiskSpaceC : Z;
  freeDiskSpaceD : Z;
  freeDiskSpaceE : Z;
  crc : Z
}.

Inductive GripPacketType : Type :=
  | GRIP_RT_SCIENCE_PACKET
  | GRIP_HK_BULK_PACKET
  | GRIP_UNKNOWN_PACKET.

(** The functions declared in GripPackets.h whose definitions (GripPackets.cpp)
    are not among the sources.  [EPMTelemetryPacket] is the raw 1412-byte
    buffer; it is only read through the Extract functions, each of which
    receives the previous content of the structure it fills. *)
Class Codec (D : Type) : Type := {
  EPMTelemetryPacket : Type;
  ExtractEPMTelemetryHeaderInfo :
    EPMTelemetryHeaderInfo -> EPMTelemetryPacket -> EPMTelemetryHeaderInfo;
  ExtractGripRealtimeDataInfo :
    GripRealtimeDataInfo D -> EPMTelemetryPacket -> GripRealtimeDataInfo D;
  ExtractGripHealthAndStatusInfo :
    GripHealthAndStatusInfo -> EPMTelemetryPacket -> GripHealthAndStatusInfo;
  CreateGripPacketCacheFilename : GripPacketType -> string -> string
}.

End GripPackets.

(* ================================================================== *)
(** * GripMMI/GripMMIGlobals.h and GripMMI/GripMMIData.cpp *)

Module GripMMI.
Import VectorsMixin GripPackets.
Section WithDouble.
Context {D : Type} {ops : DoubleOps D} {libm : Libm D} {consts : Constants D}
        {codec : Codec D}.
Local Open Scope double_scope.
Local Open Scope Z_scope.

(** ** GripMMIGlobals.h *)

Definition MAX_FRAMES : Z := 12 * 60 * 60 * 20.
Definition CODA_MARKERS : Z := 20.
Definition CODA_UNITS : Z := 2.
Definition N_VERTICAL_TARGETS : Z := 13.
Definition N_HORIZONTAL_TARGETS : Z := 10.
Definition MANIPULANDUM_FIRST_MARKER : Z := 0.
Definition MANIPULANDUM_LAST_MARKER : Z := 7.
Definition FRAME_FIRST_MARKER : Z := 8.
Definition FRAME_LAST_MARKER : Z := 11.
Definition WRIST_FIRST_MARKER : Z := 12.
Definition WRIST_LAST_MARKER : Z := 19.
Definition MAX_PLOT_STEP : Z := 8.
Definition MAX_PLOT_SAMPLES : Z := 30 * 60 * 20.

(** [COP_MIN_GRIP] of GripMMIData.cpp. *)
Definition COP_MIN_GRIP : Q := 0.5.

(** The global data buffers, one array per channel, indexed by frame.
    [NormalForce] and [CenterOfPressure] are indexed by sensor, then frame;
    [MarkerVisibility] by frame, then marker. *)

Record Buffers : Type := mkBuffers {
  ManipulandumRotations : array (Vector3 D);
  ManipulandumPosition : array (Vector3 D);
  Acceleration : array (Vector3 D);
  GripForce : array D;
  LoadForce : array (Vector3 D);
  NormalForce : array (array D);
  LoadForceMagnitude : array D;
  CenterOfPressure : array (array (Vector3 D));
  RealMarkerTime : array D;
  CompressedMarkerTime : array D;
  RealAnalogTime : array D;
  CompressedAnalogTime : array D;
  MarkerVisibility : array (array D);
  ManipulandumVisibility : array D;
  FrameVisibility : array D;
  WristVisibility : array D;
  PacketReceived : array D
}.

Definition set_ManipulandumRotations (v : array (Vector3 D)) (b : Buffers) : Buffers :=
  mkBuffers v (ManipulandumPosition b) (Acceleration b) (GripForce b) (LoadForce b)
    (NormalForce b) (LoadForceMagnitude b) (CenterOfPressure b) (RealMarkerTime b)
    (CompressedMarkerTime b) (RealAnalogTime b) (CompressedAnalogTime b)
    (MarkerVisibility b) (ManipulandumVisibility b) (FrameVisibility b)
    (WristVisibility b) (PacketReceived b).

Definition set_ManipulandumPosition (v : array (Vector3 D)) (b : Buffers) : Buffers :=
  mkBuffers (ManipulandumRotations b) v (Acceleration b) (GripForce b) (LoadForce b)
    (NormalForce b) (LoadForceMagnitude b) (CenterOfPressure b) (RealMarkerTime b)
    (CompressedMarkerTime b) (RealAnalogTime b) (CompressedAnalogTime b)
    (MarkerVisibility b) (ManipulandumVisibility b) (FrameVisibility b)
    (WristVisibility b) (PacketReceived b).

Definition set_Acceleration (v : array (Vector3 D)) (b : Buffers) : Buffers :=
  mkBuffers (ManipulandumRotations b) (ManipulandumPosition b) v (GripForce b)
    (LoadForce b) (NormalForce b) (LoadForceMagnitude b) (CenterOfPressure b)
    (RealMarkerTime b) (CompressedMarkerTime b) (RealAnalogTime b)
    (CompressedAnalogTime b) (MarkerVisibility b) (ManipulandumVisibility b)
    (FrameVisibility b) (WristVisibility b) (PacketReceived b).

Definition set_GripForce (v : array D) (b : Buffers) : Buffers :=
  mkBuffers (ManipulandumRotations b) (ManipulandumPosition b) (Acceleration b) v
    (LoadForce b) (NormalForce b) (LoadForceMagnitude b) (CenterOfPressure b)
    (RealMarkerTime b) (CompressedMarkerTime b) (RealAnalogTime b)
    (CompressedAnalogTime b) (MarkerVisibility b) (ManipulandumVisibility b)
    (FrameVisibility b) (WristVisibility b) (PacketReceived b).

Definition set_LoadForce (v : array (Vector3 D)) (b : Buffers) : Buffers :=
  mkBuffers (ManipulandumRotations b) (ManipulandumPosition b) (Acceleration b)
    (GripForce b) v (NormalForce b) (LoadForceMagnitude b) (CenterOfPressure b)
    (RealMarkerTime b) (CompressedMarkerTime b) (RealAnalogTime b)
    (CompressedAnalogTime b) (MarkerVisibility b) (ManipulandumVisibility b)
    (FrameVisibility b) (WristVisibility b) (PacketReceived b).

Definition set_NormalForce (v : array (array D)) (b : Buffers) : Buffers :=
  mkBuffers (ManipulandumRotations b) (ManipulandumPosition b) (Acceleration b)
    (GripForce b) (LoadForce b) v (LoadForceMagnitude b) (CenterOfPressure b)
    (RealMarkerTime b) (CompressedMarkerTime b) (RealAnalogTime b)
    (CompressedAnalogTime b) (MarkerVisibility b) (ManipulandumVisibility b)
    (FrameVisibility b) (WristVisibility b) (PacketReceived b).

Definition set_LoadForceMagnitude (v : array D) (b : Buffers) : Buffers :=
  mkBuffers (ManipulandumRotations b) (ManipulandumPosition b) (Acceleration b)
    (GripForce b) (LoadForce b) (NormalForce b) v (CenterOfPressure b)
    (RealMarkerTime b) (CompressedMarkerTime b) (RealAnalogTime b)
    (CompressedAnalogTime b) (MarkerVisibility b) (ManipulandumVisibility b)
    (FrameVisibility b) (WristVisibility b) (PacketReceived b).

Definition set_CenterOfPressure (v : array (array (Vector3 D))) (b : Buffers) : Buffers :=
  mkBuffers (ManipulandumRotations b) (ManipulandumPosition b) (Acceleration b)
    (GripForce b) (LoadForce b) (NormalForce b) (LoadForceMagnitude b) v
    (RealMarkerTime b) (CompressedMarkerTime b) (RealAnalogTime b)
    (CompressedAnalogTime b) (MarkerVisibility b) (ManipulandumVisibility b)
    (FrameVisibility b) (WristVisibility b) (PacketReceived b).

Definition set_RealMarkerTime (v : array D) (b : Buffers) : Buffers :=
  mkBuffers (ManipulandumRotations b) (ManipulandumPosition b) (Acceleration b)
    (GripForce b) (LoadForce b) (NormalForce b) (LoadForceMagnitude b)
    (CenterOfPressure b) v (CompressedMarkerTime b) (RealAnalogTime b)
    (CompressedAnalogTime b) (MarkerVisibility b) (ManipulandumVisibility b)
    (FrameVisibility b) (WristVisibility b) (PacketReceived b).

Definition set_CompressedMarkerTime (v : array D) (b : Buffers) : Buffers :=
  mkBuffers (ManipulandumRotations b) (ManipulandumPosition b) (Acceleration b)
    (GripForce b) (LoadForce b) (NormalForce b) (LoadForceMagnitude b)
    (CenterOfPressure b) (RealMarkerTime b) v (RealAnalogTime b)
    (CompressedAnalogTime b) (MarkerVisibility b) (ManipulandumVisibility b)
    (FrameVisibility b) (WristVisibility b) (PacketReceived b).

Definition set_RealAnalogTime (v : array D) (b : Buffers) : Buffers :=
  mkBuffers (ManipulandumRotations b) (ManipulandumPosition b) (Acceleration b)
    (GripForce b) (LoadForce b) (NormalForce b) (LoadForceMagnitude b)
    (CenterOfPressure b) (RealMarkerTime b) (CompressedMarkerTime b) v
    (CompressedAnalogTime b) (MarkerVisibility b) (ManipulandumVisibility b)
    (FrameVisibility b) (WristVisibility b) (PacketReceived b).

Definition set_CompressedAnalogTime (v : array D) (b : Buffers) : Buffers :=
  mkBuffers (ManipulandumRotations b) (ManipulandumPosition b) (Acceleration b)
    (GripForce b) (LoadForce b) (NormalForce b) (LoadForceMagnitude b)
    (CenterOfPressure b) (RealMarkerTime b) (CompressedMarkerTime b) (RealAnalogTime b)
    v (MarkerVisibility b) (ManipulandumVisibility b) (FrameVisibility b)
    (WristVisibility b) (PacketReceived b).

Definition set_MarkerVisibility (v : array (array D)) (b : Buffers) : Buffers :=
  mkBuffers (ManipulandumRotations b) (ManipulandumPosition b) (Acceleration b)
    (GripForce b) (LoadForce b) (NormalForce b) (LoadForceMagnitude b)
    (CenterOfPressure b) (RealMarkerTime b) (CompressedMarkerTime b) (RealAnalogTime b)
    (CompressedAnalogTime b) v (ManipulandumVisibility b) (FrameVisibility b)
    (WristVisibility b) (PacketReceived b).

Definition set_ManipulandumVisibility (v : array D) (b : Buffers) : Buffers :=
  mkBuffers (ManipulandumRotations b) (ManipulandumPosition b) (Acceleration b)
    (GripForce b) (LoadForce b) (NormalForce b) (LoadForceMagnitude b)
    (CenterOfPressure b) (RealMarkerTime b) (CompressedMarkerTime b) (RealAnalogTime b)
    (CompressedAnalogTime b) (MarkerVisibility b) v (FrameVisibility b)
    (WristVisibility b) (PacketReceived b).

Definition set_FrameVisibility (v : array D) (b : Buffers) : Buffers :=
  mkBuffers (ManipulandumRotations b) (ManipulandumPosition b) (Acceleration b)
    (GripForce b) (LoadForce b) (NormalForce b) (LoadForceMagnitude b)
    (CenterOfPressure b) (RealMarkerTime b) (CompressedMarkerTime b) (RealAnalogTime b)
    (CompressedAnalogTime b) (MarkerVisibility b) (ManipulandumVisibility b) v
    (WristVisibility b) (PacketReceived b).

Definition set_WristVisibility (v : array D) (b : Buffers) : Buffers :=
  mkBuffers (ManipulandumRotations b) (ManipulandumPosition b) (Acceleration b)
    (GripForce b) (LoadForce b) (NormalForce b) (LoadForceMagnitude b)
    (CenterOfPressure b) (RealMarkerTime b) (CompressedMarkerTime b) (RealAnalogTime b)
    (CompressedAnalogTime b) (MarkerVisibility b) (ManipulandumVisibility b)
    (FrameVisibility b) v (PacketReceived b).

Definition set_PacketReceived (v : array D) (b : Buffers) : Buffers :=
  mkBuffers (ManipulandumRotations b) (ManipulandumPosition b) (Acceleration b)
    (GripForce b) (LoadForce b) (NormalForce b) (LoadForceMagnitude b)
    (CenterOfPressure b) (RealMarkerTime b) (CompressedMarkerTime b) (RealAnalogTime b)
    (CompressedAnalogTime b) (MarkerVisibility b) (ManipulandumVisibility b)
    (FrameVisibility b) (WristVisibility b) v.

(** The controls of the form that the modelled methods touch. *)

Record Form : Type := mkForm {
  dataLiveCheckbox_Checked : bool;
  dataLiveCheckbox_Enabled : bool;
  scriptErrorCheckbox_Checked : bool;
  targetsTextBox : string;
  tonesTextBox : string;
  cradlesTextBox : string;
  markersTextBox : string;
  acquisitionTextBox : string
}.

Definition set_dataLiveCheckbox_Checked (v : bool) (f : Form) : Form :=
  mkForm v (dataLiveCheckbox_Enabled f) (scriptErrorCheckbox_Checked f)
    (targetsTextBox f) (tonesTextBox f) (cradlesTextBox f) (markersTextBox f)
    (acquisitionTextBox f).

Definition set_dataLiveCheckbox_Enabled (v : bool) (f : Form) : Form :=
  mkForm (dataLiveCheckbox_Checked f) v (scriptErrorCheckbox_Checked f)
    (targetsTextBox f) (tonesTextBox f) (cradlesTextBox f) (markersTextBox f)
    (acquisitionTextBox f).

Definition set_scriptErrorCheckbox_Checked (v : bool) (f : Form) : Form :=
  mkForm (dataLiveCheckbox_Checked f) (dataLiveCheckbox_Enabled f) v (targetsTextBox f)
    (tonesTextBox f) (cradlesTextBox f) (markersTextBox f) (acquisitionTextBox f).

Definition set_targetsTextBox (v : string) (f : Form) : Form :=
  mkForm (dataLiveCheckbox_Checked f) (dataLiveCheckbox_Enabled f)
    (scriptErrorCheckbox_Checked f) v (tonesTextBox f) (cradlesTextBox f)
    (markersTextBox f) (acquisitionTextBox f).

Definition set_tonesTextBox (v : string) (f : Form) : Form :=
  mkForm (dataLiveCheckbox_Checked f) (dataLiveCheckbox_Enabled f)
    (scriptErrorCheckbox_Checked f) (targetsTextBox f) v (cradlesTextBox f)
    (markersTextBox f) (acquisitionTextBox f).

Definition set_cradlesTextBox (v : string) (f : Form) : Form :=
  mkForm (dataLiveCheckbox_Checked f) (dataLiveCheckbox_Enabled f)
    (scriptErrorCheckbox_Checked f) (targetsTextBox f) (tonesTextBox f) v
    (markersTextBox f) (acquisitionTextBox f).

Definition set_markersTextBox (v : string) (f : Form) : Form :=
  mkForm (dataLiveCheckbox_Checked f) (dataLiveCheckbox_Enabled f)
    (scriptErrorCheckbox_Checked f) (targetsTextBox f) (tonesTextBox f)
    (cradlesTextBox f) v (acquisitionTextBox f).

Definition set_acquisitionTextBox (v : string) (f : Form) : Form :=
  mkForm (dataLiveCheckbox_Checked f) (dataLiveCheckbox_Enabled f)
    (scriptErrorCheckbox_Checked f) (targetsTextBox f) (tonesTextBox f)
    (cradlesTextBox f) (markersTextBox f) v.

(** The globals, the [static] locals of GetGripRT ([rt_previousTMCounter],
    [buffers_full_alert]) and of GetLatestGripHK ([hk_previousTMCounter]), and
    the form. *)

Record State : Type := mkState {
  nFrames : Z;
  buf : Buffers;
  markerVisibilityString : array string;
  dex : DexAnalogMixin.t D;
  packetBufferPathRoot : string;
  rt_previousTMCounter : Z;
  buffers_full_alert : bool;
  hk_previousTMCounter : Z;
  form : Form
}.

Definition set_nFrames (v : Z) (s : State) : State :=
  mkState v (buf s) (markerVisibilityString s) (dex s) (packetBufferPathRoot s)
    (rt_previousTMCounter s) (buffers_full_alert s) (hk_previousTMCounter s) (form s).

Definition set_buf (v : Buffers) (s : State) : State :=
  mkState (nFrames s) v (markerVisibilityString s) (dex s) (packetBufferPathRoot s)
    (rt_previousTMCounter s) (buffers_full_alert s) (hk_previousTMCounter s) (form s).

Definition set_markerVisibilityString (v : array string) (s : State) : State :=
  mkState (nFrames s) (buf s) v (dex s) (packetBufferPathRoot s)
    (rt_previousTMCounter s) (buffers_full_alert s) (hk_previousTMCounter s) (form s).

Definition set_dex (v : DexAnalogMixin.t D) (s : State) : State :=
  mkState (nFrames s) (buf s) (markerVisibilityString s) v (packetBufferPathRoot s)
    (rt_previousTMCounter s) (buffers_full_alert s) (hk_previousTMCounter s) (form s).

Definition set_packetBufferPathRoot (v : string) (s : State) : State :=
  mkState (nFrames s) (buf s) (markerVisibilityString s) (dex s) v
    (rt_previousTMCounter s) (buffers_full_alert s) (hk_previousTMCounter s) (form s).

Definition set_rt_previousTMCounter (v : Z) (s : State) : State :=
  mkState (nFrames s) (buf s) (markerVisibilityString s) (dex s)
    (packetBufferPathRoot s) v (buffers_full_alert s) (hk_previousTMCounter s) (form s).

Definition set_buffers_full_alert (v : bool) (s : State) : State :=
  mkState (nFrames s) (buf s) (markerVisibilityString s) (dex s)
    (packetBufferPathRoot s) (rt_previousTMCounter s) v (hk_previousTMCounter s)
    (form s).

Definition set_hk_previousTMCounter (v : Z) (s : State) : State :=
  mkState (nFrames s) (buf s) (markerVisibilityString s) (dex s)
    (packetBufferPathRoot s) (rt_previousTMCounter s) (buffers_full_alert s) v (form s).

Definition set_form (v : Form) (s : State) : State :=
  mkState (nFrames s) (buf s) (markerVisibilityString s) (dex s)
    (packetBufferPathRoot s) (rt_previousTMCounter s) (buffers_full_alert s)
    (hk_previousTMCounter s) v.
Definition upd_buf (f : Buffers -> Buffers) (s : State) : State := set_buf (f (buf s)) s.
Definition upd_form (f : Form -> Form) (s : State) : State := set_form (f (form s)) s.

(** [Channel[i] = v;] for each channel, and [Channel[i][j] = v;] for the
    channels with two indices. *)

Definition store_ManipulandumRotations (i : Z) (v : Vector3 D) (s : State) : State :=
  upd_buf (fun b => set_ManipulandumRotations (array_set (ManipulandumRotations b) i v) b) s.

Definition store_ManipulandumPosition (i : Z) (v : Vector3 D) (s : State) : State :=
  upd_buf (fun b => set_ManipulandumPosition (array_set (ManipulandumPosition b) i v) b) s.

Definition store_Acceleration (i : Z) (v : Vector3 D) (s : State) : State :=
  upd_buf (fun b => set_Acceleration (array_set (Acceleration b) i v) b) s.

Definition store_GripForce (i : Z) (v : D) (s : State) : State :=
  upd_buf (fun b => set_GripForce (array_set (GripForce b) i v) b) s.

Definition store_LoadForce (i : Z) (v : Vector3 D) (s : State) : State :=
  upd_buf (fun b => set_LoadForce (array_set (LoadForce b) i v) b) s.

Definition store_NormalForce (i j : Z) (v : D) (s : State) : State :=
  upd_buf (fun b =>
    set_NormalForce (array_set (NormalForce b) i (array_set (NormalForce b i) j v)) b) s.

Definition store_LoadForceMagnitude (i : Z) (v : D) (s : State) : State :=
  upd_buf (fun b => set_LoadForceMagnitude (array_set (LoadForceMagnitude b) i v) b) s.

Definition store_CenterOfPressure (i j : Z) (v : Vector3 D) (s : State) : State :=
  upd_buf (fun b =>
    set_CenterOfPressure (array_set (CenterOfPressure b) i (array_set (CenterOfPressure b i) j v)) b) s.

Definition store_RealMarkerTime (i : Z) (v : D) (s : State) : State :=
  upd_buf (fun b => set_RealMarkerTime (array_set (RealMarkerTime b) i v) b) s.

Definition store_RealAnalogTime (i : Z) (v : D) (s : State) : State :=
  upd_buf (fun b => set_RealAnalogTime (array_set (RealAnalogTime b) i v) b) s.

Definition store_MarkerVisibility (i j : Z) (v : D) (s : State) : State :=
  upd_buf (fun b =>
    set_MarkerVisibility (array_set (MarkerVisibility b) i (array_set (MarkerVisibility b i) j v)) b) s.

Definition store_ManipulandumVisibility (i : Z) (v : D) (s : State) : State :=
  upd_buf (fun b => set_ManipulandumVisibility (array_set (ManipulandumVisibility b) i v) b) s.

Definition store_FrameVisibility (i : Z) (v : D) (s : State) : State :=
  upd_buf (fun b => set_FrameVisibility (array_set (FrameVisibility b) i v) b) s.

Definition store_WristVisibility (i : Z) (v : D) (s : State) : State :=
  upd_buf (fun b => set_WristVisibility (array_set (WristVisibility b) i v) b) s.

Definition store_PacketReceived (i : Z) (v : D) (s : State) : State :=
  upd_buf (fun b => set_PacketReceived (array_set (PacketReceived b) i v) b) s.
(** ** The decoder: GripMMIData.cpp *)

Definition missingVector : Vector3 D :=
  mkVector3 MISSING_DOUBLE MISSING_DOUBLE MISSING_DOUBLE.

(** [x & bit] as a condition, with [bit = 0x01 << mrk]. *)
Definition marker_bit (visibility : Z) (mrk : Z) : bool :=
  negb (Z.land visibility (Z.shiftl 1 mrk) =? 0).

Definition ResetBuffers (s : State) : State := set_nFrames 0 s.

(** The body of the loop that marks a break in the packet stream
    (GetGripRT, the [for ( int count ...)] loop): one blank frame. *)
Definition insert_blank_frame (s : State) : State :=
  let n := nFrames s in
  let s := store_ManipulandumPosition n missingVector s in
  let s := store_ManipulandumRotations n missingVector s in
  let s := store_GripForce n MISSING_DOUBLE s in
  let s := store_GripForce n MISSING_DOUBLE s in
  let s := store_NormalForce LEFT_ATI n MISSING_DOUBLE s in
  let s := store_NormalForce LEFT_ATI n MISSING_DOUBLE s in
  let s := store_NormalForce RIGHT_ATI n MISSING_DOUBLE s in
  let s := store_NormalForce RIGHT_ATI n MISSING_DOUBLE s in
  let s := store_Acceleration n missingVector s in
  let s := for_range (Z.to_nat CODA_MARKERS) 0
             (fun mrk s => store_MarkerVisibility n mrk MISSING_DOUBLE s) s in
  let s := store_ManipulandumVisibility n MISSING_DOUBLE s in
  let s := store_FrameVisibility n MISSING_DOUBLE s in
  let s := store_WristVisibility n MISSING_DOUBLE s in
  let s := store_PacketReceived n MISSING_DOUBLE s in
  let s := store_RealMarkerTime n MISSING_DOUBLE s in
  set_nFrames (nFrames s + 1) s.

(** [for ( int count = 0; count < MAX_PLOT_STEP && nFrames < MAX_FRAMES - 1;
    count++ )], entered with [MAX_PLOT_STEP - count = remaining]. *)
Fixpoint insert_stream_break (remaining : nat) (s : State) : State :=
  match remaining with
  | O => s
  | S remaining' =>
      if nFrames s <? MAX_FRAMES - 1
      then insert_stream_break remaining' (insert_blank_frame s)
      else s
  end.

(** The marker loops of a slice: [offset] is what is added to the marker
    number to give the plotted value; the result counts the visible markers. *)
Definition mark_markers (sl : ManipulandumPacket D) (first last offset : Z)
    (s : State) : State * Z :=
  for_range (Z.to_nat (last - first + 1)) first
    (fun mrk '(s, count) =>
       if marker_bit (markerVisibility sl 0) mrk || marker_bit (markerVisibility sl 1) mrk
       then (store_MarkerVisibility (nFrames s) mrk (of_int (mrk + offset)) s, count + 1)
       else (store_MarkerVisibility (nFrames s) mrk MISSING_DOUBLE s, count))
    (s, 0).

(** The body of the loop over the slices of a packet, block by block in the
    order of the source.  Every block writes frame [nFrames s]. *)

(** The time of the slice, then position and rotations: scaled, converted
    and filtered when the manipulandum is visible, missing otherwise. *)
Definition slice_pose (sl : ManipulandumPacket D) (s : State) : State :=
  let n := nFrames s in
  let s := store_RealMarkerTime n (bestGuessPoseTimestamp sl) s in
  let s := store_RealAnalogTime n (bestGuessAnalogTimestamp sl) s in
  if negb (manipulandumVisibility sl =? 0) then
    let s := store_ManipulandumPosition n
               (mkVector3 (vX (position sl) / dlit 10.0)
                          (vY (position sl) / dlit 10.0)
                          (vZ (position sl) / dlit 10.0))%dbl s in
    let s := store_ManipulandumRotations n
               (QuaternionToCannonicalRotations (quaternion sl)) s in
    let '(d, filtered, _) :=
      DexAnalogMixin.FilterManipulandumPosition (dex s)
        (ManipulandumPosition (buf s) n) in
    let s := store_ManipulandumPosition n filtered (set_dex d s) in
    if _finite (vX (ManipulandumRotations (buf s) n)) then
      let '(d, filtered, _) :=
        DexAnalogMixin.FilterManipulandumRotations (dex s)
          (ManipulandumRotations (buf s) n) in
      store_ManipulandumRotations n filtered (set_dex d s)
    else s
  else
    let s := store_ManipulandumPosition n missingVector s in
    store_ManipulandumRotations n missingVector s.

Definition slice_grip_force (sl : ManipulandumPacket D) (s : State) : State :=
  let n := nFrames s in
  let s := store_GripForce n
             (to_float (DexAnalogMixin.ComputeGripForce
                          (force (ft sl LEFT_ATI)) (force (ft sl RIGHT_ATI)))) s in
  let '(d, filtered) := DexAnalogMixin.FilterGripForce (dex s) (GripForce (buf s) n) in
  store_GripForce n (to_float filtered) (set_dex d s).

Definition slice_normal_forces (sl : ManipulandumPacket D) (s : State) : State :=
  let n := nFrames s in
  let s := store_NormalForce LEFT_ATI n
             (- to_float (vX (force (ft sl LEFT_ATI))))%dbl s in
  let '(d, filtered) :=
    DexAnalogMixin.FilterNormalForce (dex s) (NormalForce (buf s) LEFT_ATI n) LEFT_ATI in
  let s := store_NormalForce LEFT_ATI n (to_float filtered) (set_dex d s) in
  let s := store_NormalForce RIGHT_ATI n (to_float (vX (force (ft sl RIGHT_ATI)))) s in
  let '(d, filtered) :=
    DexAnalogMixin.FilterNormalForce (dex s) (NormalForce (buf s) RIGHT_ATI n) RIGHT_ATI in
  store_NormalForce RIGHT_ATI n (to_float filtered) (set_dex d s).

Definition slice_load_force (sl : ManipulandumPacket D) (s : State) : State :=
  let n := nFrames s in
  let s := store_LoadForce n
             (fst (DexAnalogMixin.ComputeLoadForce (force (ft sl 0)) (force (ft sl 1)))) s in
  let '(d, filtered, magnitude) :=
    DexAnalogMixin.FilterLoadForce (dex s) (LoadForce (buf s) n) in
  let s := store_LoadForce n filtered (set_dex d s) in
  store_LoadForceMagnitude n magnitude s.

Definition slice_center_of_pressure (sl : ManipulandumPacket D) (s : State) : State :=
  let n := nFrames s in
  for_range (Z.to_nat N_FORCE_TRANSDUCERS) 0
    (fun ati s =>
       let '(cop, cop_distance) :=
         DexAnalogMixin.ComputeCoP (force (ft sl ati)) (torque (ft sl ati))
           (dlit COP_MIN_GRIP) in
       let s := store_CenterOfPressure ati n cop s in
       if (cop_distance >=? dlit 0.0)%dbl then
         let '(d, filtered, _) :=
           DexAnalogMixin.FilterCoP (dex s) ati (CenterOfPressure (buf s) ati n) in
         store_CenterOfPressure ati n filtered (set_dex d s)
       else s)
    s.

Definition slice_acceleration (sl : ManipulandumPacket D) (s : State) : State :=
  let n := nFrames s in
  let s := store_Acceleration n
             (mkVector3 (to_float (vX (acceleration sl)))
                        (to_float (vY (acceleration sl)))
                        (to_float (vZ (acceleration sl)))) s in
  let '(d, filtered, _) :=
    DexAnalogMixin.FilterAcceleration (dex s) (Acceleration (buf s) n) in
  store_Acceleration n filtered (set_dex d s).

Definition slice_visibility (sl : ManipulandumPacket D) (s : State) : State :=
  let n := nFrames s in
  let s := fst (mark_markers sl MANIPULANDUM_FIRST_MARKER MANIPULANDUM_LAST_MARKER 1 s) in
  let s := store_ManipulandumVisibility n
             (if negb (Z.land (manipulandumVisibility sl) 1 =? 0)
              then of_int 10 else MISSING_DOUBLE) s in
  let '(s, count) := mark_markers sl FRAME_FIRST_MARKER FRAME_LAST_MARKER 3 s in
  let s := store_FrameVisibility n
             (if count =? 4 then of_int 30 else MISSING_DOUBLE) s in
  let '(s, count) := mark_markers sl WRIST_FIRST_MARKER WRIST_LAST_MARKER 5 s in
  store_WristVisibility n (if count >=? 3 then of_int 50 else MISSING_DOUBLE) s.

Definition decode_slice (rt : GripRealtimeDataInfo D) (slice : Z) (s : State) : State :=
  let sl := dataSlice rt slice in
  let s := slice_pose sl s in
  let s := slice_grip_force sl s in
  let s := slice_normal_forces sl s in
  let s := slice_load_force sl s in
  let s := slice_center_of_pressure sl s in
  let s := slice_acceleration sl s in
  let s := slice_visibility sl s in
  let s := store_PacketReceived (nFrames s) (dlit (-10.0)) s in
  set_nFrames (nFrames s + 1) s.

(** [for ( int slice = 0; slice < RT_SLICES_PER_PACKET && nFrames < MAX_FRAMES;
    slice++ )], entered with [RT_SLICES_PER_PACKET - slice = remaining]. *)
Fixpoint decode_slices (rt : GripRealtimeDataInfo D) (remaining : nat) (slice : Z)
    (s : State) : State :=
  match remaining with
  | O => s
  | S remaining' =>
      if nFrames s <? MAX_FRAMES
      then decode_slices rt remaining' (slice + 1) (decode_slice rt slice s)
      else s
  end.

(** The test for a break in the arrival of the packets, and the blank frames
    it inserts. *)
Definition stream_break (rt : GripRealtimeDataInfo D) (previous_packet_timestamp : D)
    (s : State) : State :=
  if ((packetTimestamp rt - previous_packet_timestamp)
        >? dlit PACKET_STREAM_BREAK_THRESHOLD)%dbl
  then insert_stream_break (Z.to_nat MAX_PLOT_STEP) s
  else s.

(** What GetGripRT does with one extracted packet: the stream-break test,
    then the slices.  The caller then sets [previous_packet_timestamp] to the
    timestamp of the packet. *)
Definition ingest_packet (rt : GripRealtimeDataInfo D) (previous_packet_timestamp : D)
    (s : State) : State :=
  let s := stream_break rt previous_packet_timestamp s in
  decode_slices rt (Z.to_nat RT_SLICES_PER_PACKET) 0 s.

(** The visibility strings computed from the last slice of [rt]. *)
Definition visibility_string (visibility : Z) : string :=
  for_range (Z.to_nat CODA_MARKERS) 0
    (fun mrk str =>
       let str := if (mrk =? 8) || (mrk =? 12) then (str ++ "  ")%string else str in
       if marker_bit visibility mrk then (str ++ "u")%string else (str ++ "m")%string)
    ""%string.

Definition update_markerVisibilityString (rt : GripRealtimeDataInfo D) (s : State) : State :=
  for_range (Z.to_nat CODA_UNITS) 0
    (fun coda s =>
       set_markerVisibilityString
         (array_set (markerVisibilityString s) coda
            (visibility_string
               (markerVisibility (dataSlice rt (RT_SLICES_PER_PACKET - 1)) coda))) s)
    s.

(** Two views of the state, used to say what a step leaves alone: what is
    outside the data buffers, the filters and the frame count; and the
    position and rotation channels with their filter accumulators. *)
Definition static_part (s : State) :=
  (markerVisibilityString s, packetBufferPathRoot s, rt_previousTMCounter s,
   buffers_full_alert s, hk_previousTMCounter s, form s).

Definition pose_part (s : State) :=
  (ManipulandumPosition (buf s), ManipulandumRotations (buf s),
   DexAnalogMixin.filteredManipulandumPosition (dex s),
   DexAnalogMixin.filteredManipulandumRotations (dex s),
   DexAnalogMixin.filterConstant (dex s)).

(** The channels that the stream-break loop does not write. *)
Definition unwritten_part (s : State) :=
  (LoadForce (buf s), LoadForceMagnitude (buf s), CenterOfPressure (buf s),
   RealAnalogTime (buf s), CompressedMarkerTime (buf s), CompressedAnalogTime (buf s)).

(** Frame [i] is blank: each channel written by the stream-break loop holds
    the missing sentinel there. *)
Definition blank_frame (b : Buffers) (i : Z) : Prop :=
  ManipulandumPosition b i = missingVector
  /\ ManipulandumRotations b i = missingVector
  /\ GripForce b i = MISSING_DOUBLE
  /\ NormalForce b LEFT_ATI i = MISSING_DOUBLE
  /\ NormalForce b RIGHT_ATI i = MISSING_DOUBLE
  /\ Acceleration b i = missingVector
  /\ (forall mrk, 0 <= mrk < CODA_MARKERS -> MarkerVisibility b i mrk = MISSING_DOUBLE)
  /\ ManipulandumVisibility b i = MISSING_DOUBLE
  /\ FrameVisibility b i = MISSING_DOUBLE
  /\ WristVisibility b i = MISSING_DOUBLE
  /\ PacketReceived b i = MISSING_DOUBLE
  /\ RealMarkerTime b i = MISSING_DOUBLE.

(** Frame [i] holds the same values in [b] and [b'], channel by channel. *)
Definition same_frame (b b' : Buffers) (i : Z) : Prop :=
  ManipulandumRotations b' i = ManipulandumRotations b i
  /\ ManipulandumPosition b' i = ManipulandumPosition b i
  /\ Acceleration b' i = Acceleration b i
  /\ GripForce b' i = GripForce b i
  /\ LoadForce b' i = LoadForce b i
  /\ (forall ati, NormalForce b' ati i = NormalForce b ati i)
  /\ LoadForceMagnitude b' i = LoadForceMagnitude b i
  /\ (forall ati, CenterOfPressure b' ati i = CenterOfPressure b ati i)
  /\ RealMarkerTime b' i = RealMarkerTime b i
  /\ CompressedMarkerTime b' i = CompressedMarkerTime b i
  /\ RealAnalogTime b' i = RealAnalogTime b i
  /\ CompressedAnalogTime b' i = CompressedAnalogTime b i
  /\ (forall mrk, MarkerVisibility b' i mrk = MarkerVisibility b i mrk)
  /\ ManipulandumVisibility b' i = ManipulandumVisibility b i
  /\ FrameVisibility b' i = FrameVisibility b i
  /\ WristVisibility b' i = WristVisibility b i
  /\ PacketReceived b' i = PacketReceived b i.

(** The groups of cells that make a blank frame, one per conjunct of
    [blank_frame]. *)
Inductive Cell : Type :=
  | cPosition | cRotations | cGripForce | cNormalLeft | cNormalRight
  | cAcceleration | cMarkers | cManipulandumVisibility | cFrameVisibility
  | cWristVisibility | cPacketReceived | cRealMarkerTime.

Definition cell_blank (c : Cell) (b : Buffers) (i : Z) : Prop :=
  match c with
  | cPosition => ManipulandumPosition b i = missingVector
  | cRotations => ManipulandumRotations b i = missingVector
  | cGripForce => GripForce b i = MISSING_DOUBLE
  | cNormalLeft => NormalForce b LEFT_ATI i = MISSING_DOUBLE
  | cNormalRight => NormalForce b RIGHT_ATI i = MISSING_DOUBLE
  | cAcceleration => Acceleration b i = missingVector
  | cMarkers =>
      forall mrk, 0 <= mrk < CODA_MARKERS -> MarkerVisibility b i mrk = MISSING_DOUBLE
  | cManipulandumVisibility => ManipulandumVisibility b i = MISSING_DOUBLE
  | cFrameVisibility => FrameVisibility b i = MISSING_DOUBLE
  | cWristVisibility => WristVisibility b i = MISSING_DOUBLE
  | cPacketReceived => PacketReceived b i = MISSING_DOUBLE
  | cRealMarkerTime => RealMarkerTime b i = MISSING_DOUBLE
  end.

(** [s'] comes from [s] by writes to frame [n] that left the cells of
    [cells] blank: nothing else differs. *)
Definition blanked (n : Z) (s s' : State) (cells : list Cell) : Prop :=
  nFrames s' = nFrames s
  /\ static_part s' = static_part s
  /\ dex s' = dex s
  /\ (forall i, i <> n -> same_frame (buf s) (buf s') i)
  /\ (forall c, In c cells -> cell_blank c (buf s') n).

(** [f] is a write to frame [n] that blanks the cells of [c0] and keeps
    blank cells blank. *)
Definition blanking_step (n : Z) (c0 : Cell) (f : State -> State) : Prop :=
  forall s,
    nFrames (f s) = nFrames s
    /\ static_part (f s) = static_part s
    /\ dex (f s) = dex s
    /\ (forall i, i <> n -> same_frame (buf s) (buf (f s)) i)
    /\ (forall c, cell_blank c (buf s) n -> cell_blank c (buf (f s)) n)
    /\ cell_blank c0 (buf (f s)) n.

(** ** Calls to the C runtime and to Windows *)

(** What a call of GetGripRT or GetLatestGripHK finds outside the program:
    the descriptor returned by each attempt to open the cache file (attempts
    are numbered from 0 within the call), the result of each [_read] in turn
    (byte count and the buffer content it leaves; past the end of the list
    [_read] returns 0), the result of [_close], and the indeterminate initial
    content of the automatic variables that the code reads before, or
    without, assigning them. *)
Record Env : Type := mkEnv {
  open_result : Z -> Z;
  read_results : list (Z * EPMTelemetryPacket);
  close_result : Z;
  fid0 : Z;
  epmHeader0 : EPMTelemetryHeaderInfo;
  rt0 : GripRealtimeDataInfo D;
  hk_info0 : GripHealthAndStatusInfo
}.

(** An argument of a printf-style format. *)
Inductive Arg : Type :=
  | ArgString (str : string)
  | ArgInt (z : Z).

(** The calls that are visible from outside, in the order they are made. *)
Inductive Event : Type :=
  | Ev_sopen (filename : string) (fid : Z)
  | Ev_open (filename : string) (fid : Z)
  | EvSleep (milliseconds : Z)
  | Ev_read (fid : Z) (count : Z) (bytes_read : Z)
  | Ev_close (fid : Z) (return_code : Z)
  | EvMessageBox (caption : string) (format : string) (arguments : list Arg)
  | EvOutputDebugString (format : string) (arguments : list Arg).

(** A call either returns a value or ends the process through [exit]. *)
Inductive Result (A : Type) : Type :=
  | Normal (a : A)
  | Exited (code : Z).
Arguments Normal {A} a.
Arguments Exited {A} code.

(** Computations over the program state that log their events and may exit. *)
Definition M (A : Type) : Type := State -> Result A * State * list Event.

Definition ret {A : Type} (a : A) : M A := fun s => (Normal a, s, []).

Definition bind {A B : Type} (m : M A) (f : A -> M B) : M B :=
  fun s =>
    match m s with
    | (Normal a, s1, t1) => let '(r, s2, t2) := f a s1 in (r, s2, (t1 ++ t2)%list)
    | (Exited code, s1, t1) => (Exited code, s1, t1)
    end.

Definition get : M State := fun s => (Normal s, s, []).
Definition modify (f : State -> State) : M unit := fun s => (Normal tt, f s, []).
Definition emit (e : Event) : M unit := fun s => (Normal tt, s, [e]).
Definition exit {A : Type} (code : Z) : M A := fun s => (Exited code, s, []).

Notation "x <- m ;; k" := (bind m (fun x => k))
  (at level 61, m at next level, right associativity).
Notation "m ;; k" := (bind m (fun _ => k))
  (at level 61, right associativity).

Definition _sopen (env : Env) (filename : string) (attempt : Z) : M Z :=
  emit (Ev_sopen filename (open_result env attempt)) ;; ret (open_result env attempt).

Definition _open (env : Env) (filename : string) (attempt : Z) : M Z :=
  emit (Ev_open filename (open_result env attempt)) ;; ret (open_result env attempt).

Definition Sleep (milliseconds : Z) : M unit := emit (EvSleep milliseconds).

Definition _close (env : Env) (fid : Z) : M Z :=
  emit (Ev_close fid (close_result env)) ;; ret (close_result env).

(** The value of a C string literal written with the escapes of the
    source: a backslash (character 92) followed by n is the line feed,
    followed by r the carriage return, and followed by a backslash one
    backslash. *)
Fixpoint c_literal (s : string) : string :=
  match s with
  | EmptyString => EmptyString
  | String c rest =>
      match rest with
      | EmptyString => String c EmptyString
      | String e rest' =>
          if Ascii.eqb c (Ascii.ascii_of_nat 92) then
            if Ascii.eqb e (Ascii.ascii_of_nat 110)
            then String (Ascii.ascii_of_nat 10) (c_literal rest')
            else if Ascii.eqb e (Ascii.ascii_of_nat 114)
            then String (Ascii.ascii_of_nat 13) (c_literal rest')
            else if Ascii.eqb e (Ascii.ascii_of_nat 92)
            then String c (c_literal rest')
            else String c (c_literal rest)
          else String c (c_literal rest)
      end
  end.

Definition fMessageBox (caption format : string) (arguments : list Arg) : M unit :=
  emit (EvMessageBox caption format arguments).

Definition fOutputDebugString (format : string) (arguments : list Arg) : M unit :=
  emit (EvOutputDebugString format arguments).

Definition restart_hint : string :=
  (c_literal "This is a fatal error.\n\nTry restarting just the graphical interface using the RestartGripMMI.YYYY.MM.DD.bat file\nthat has been createdd in the cache or executables directory.\n\nIf that fails, kill GripGroundMonitorClient.exe, rename or copy to a safe location the cache files\nand execute RunGripMMI.bat again to restart.\n").

(** ** GetGripRT *)

(** [for ( int retry_count = 0; retry_count < MAX_OPEN_CACHE_RETRIES;
    retry_count ++ )], entered with [MAX_OPEN_CACHE_RETRIES - retry_count =
    remaining]; [open] is [_sopen] in GetGripRT and [_open] in
    GetLatestGripHK.  The result is [fid] when the loop is left. *)
Fixpoint open_cache_loop (open : Z -> M Z) (remaining : nat) (retry_count : Z) (fid : Z)
    : M Z :=
  match remaining with
  | O => ret fid
  | S remaining' =>
      fid <- open retry_count ;;
      if fid >=? 0 then ret fid
      else Sleep RETRY_PAUSE ;; open_cache_loop open remaining' (retry_count + 1) fid
  end.

(** The events of [n] failed attempts in a row, the first being attempt
    [first]: each open is followed by the pause. *)
Fixpoint failed_attempts (open_event : Z -> Event) (n : nat) (first : Z) : list Event :=
  match n with
  | O => []
  | S n' =>
      open_event first :: EvSleep RETRY_PAUSE
        :: failed_attempts open_event n' (first + 1)
  end.

Definition is_open (e : Event) : bool :=
  match e with
  | Ev_sopen _ _ | Ev_open _ _ => true
  | _ => false
  end.

Definition is_message (e : Event) : bool :=
  match e with
  | EvMessageBox _ _ _ => true
  | _ => false
  end.

(** The automatic variables of GetGripRT that live across the read loop. *)
Record Locals : Type := mkLocals {
  epmHeader : EPMTelemetryHeaderInfo;
  rt : GripRealtimeDataInfo D;
  previous_packet_timestamp : D;
  packets_read : Z
}.

(** [while ( nFrames < MAX_FRAMES )], over what the successive [_read] calls
    return.  Each record that passes the checks is handed to [ingest_packet]. *)
Fixpoint rt_read_loop (filename : string) (fid : Z) (reads : list (Z * EPMTelemetryPacket))
    (l : Locals) : M Locals :=
  s <- get ;;
  if negb (nFrames s <? MAX_FRAMES) then ret l
  else
    match reads with
    | [] =>
        (* end of file: _read returns 0, which is not the record length *)
        emit (Ev_read fid rtPacketLengthInBytes 0) ;; ret l
    | (bytes_read, content) :: reads' =>
        emit (Ev_read fid rtPacketLengthInBytes bytes_read) ;;
        if bytes_read <? 0 then
          fMessageBox "GripMMI" (c_literal "Error reading from %s.\n\n%s")
            [ArgString filename; ArgString restart_hint] ;;
          exit (-1)
        else if negb (rtPacketLengthInBytes =? bytes_read) then ret l
        else
          let packets_read := packets_read l + 1 in
          let epmHeader := ExtractEPMTelemetryHeaderInfo (epmHeader l) content in
          if negb (epmSyncMarker epmHeader =? EPM_TELEMETRY_SYNC_VALUE)
             || negb (TMIdentifier epmHeader =? GRIP_RT_ID) then
            fMessageBox "GripMMIlite" (c_literal "Unrecognized packet from %s.\n\n%s")
              [ArgString filename; ArgString restart_hint] ;;
            exit (-1)
          else
            let rt := ExtractGripRealtimeDataInfo (rt l) content in
            modify (ingest_packet rt (previous_packet_timestamp l)) ;;
            rt_read_loop filename fid reads'
              (mkLocals epmHeader rt (packetTimestamp rt) packets_read)
    end.

Definition buffers_full_message : string :=
  (c_literal "Internal buffers are full.\n\nYou can continue plotting existing data.\nTracking of script progress will also continue.\n\nTo resume following new data transmissions:\n\n1) Halt GripMMI.exe (this program).\n2) Halt GripGroundMonitorClient.exe.\n3) Rename or move:\n      %s\n      %s\n4) Restart using RunGripMMI.bat.").

(** GetGripRT from the point where the cache file is open: the read loop,
    the close, the visibility strings, the buffer-full alert and the report
    of new data. *)
Definition rt_ingest (env : Env) (filename : string) (fid : Z) : M Z :=
  l <- rt_read_loop filename fid (read_results env)
         (mkLocals (epmHeader0 env) (rt0 env) (dlit 0.0) 0) ;;
  return_code <- _close env fid ;;
  if negb (return_code =? 0) then
    fMessageBox "GripMMI" (c_literal "Error closing %s after binary read.\nError code: %s\n\n%s")
      [ArgString filename; ArgInt return_code; ArgString restart_hint] ;;
    exit return_code
  else
    modify (update_markerVisibilityString (rt l)) ;;
    s <- get ;;
    fOutputDebugString (c_literal "Acquired Frames (max %d): %d\n")
      [ArgInt MAX_FRAMES; ArgInt (nFrames s)] ;;
    (if nFrames s >=? MAX_FRAMES then
       let filename2 :=
         CreateGripPacketCacheFilename GRIP_HK_BULK_PACKET (packetBufferPathRoot s) in
       fMessageBox "GripMMI" buffers_full_message
         [ArgString filename; ArgString filename2] ;;
       modify (set_buffers_full_alert true)
     else ret tt) ;;
    s <- get ;;
    if negb (rt_previousTMCounter s =? TMCounter (epmHeader l)) then
      modify (set_rt_previousTMCounter (TMCounter (epmHeader l))) ;;
      ret TRUE
    else ret FALSE.

(** [int GripMMIDesktop::GetGripRT( void )]. *)
Definition GetGripRT (env : Env) : M Z :=
  s <- get ;;
  if buffers_full_alert s then
    modify (upd_form (set_dataLiveCheckbox_Checked false)) ;;
    modify (upd_form (set_dataLiveCheckbox_Enabled false)) ;;
    ret FALSE
  else
    let filename :=
      CreateGripPacketCacheFilename GRIP_RT_SCIENCE_PACKET (packetBufferPathRoot s) in
    modify ResetBuffers ;;
    fid <- open_cache_loop (_sopen env filename) (Z.to_nat MAX_OPEN_CACHE_RETRIES) 0
             (fid0 env) ;;
    if fid <? 0 then
      fMessageBox "GripMMI" (c_literal "Error opening packet file %s.\n\n%s")
        [ArgString filename; ArgString restart_hint] ;;
      exit (-1)
    else rt_ingest env filename fid.

(** Successive calls of GetGripRT, one per environment, each from the state
    the previous call left, until a call exits: the result, state and events
    of every call. *)
Fixpoint GetGripRT_calls (envs : list Env) (s : State)
    : list (Result Z * State * list Event) :=
  match envs with
  | [] => []
  | env :: envs' =>
      let '(r, s', t) := GetGripRT env s in
      match r with
      | Normal _ => (r, s', t) :: GetGripRT_calls envs' s'
      | Exited _ => [(r, s', t)]
      end
  end.

(** ** GetLatestGripHK *)

(** [while ( true )] of GetLatestGripHK, over what the successive [_read]
    calls return: the header and the structure pointed to by [hk] when the
    loop is left. *)
Fixpoint hk_read_loop (filename : string) (fid : Z) (reads : list (Z * EPMTelemetryPacket))
    (epmHeader : EPMTelemetryHeaderInfo) (hk : GripHealthAndStatusInfo)
    : M (EPMTelemetryHeaderInfo * GripHealthAndStatusInfo) :=
  match reads with
  | [] =>
      (* end of file: _read returns 0, less than the record length *)
      emit (Ev_read fid hkPacketLengthInBytes 0) ;; ret (epmHeader, hk)
  | (bytes_read, content) :: reads' =>
      emit (Ev_read fid hkPacketLengthInBytes bytes_read) ;;
      if bytes_read <? 0 then
        fMessageBox "GripMMI" (c_literal "Error reading from %s.\n\n%s")
            [ArgString filename; ArgString restart_hint] ;;
        exit (-1)
      else if bytes_read <? hkPacketLengthInBytes then ret (epmHeader, hk)
      else
        let epmHeader := ExtractEPMTelemetryHeaderInfo epmHeader content in
        if negb (epmSyncMarker epmHeader =? EPM_TELEMETRY_SYNC_VALUE)
           || negb (TMIdentifier epmHeader =? GRIP_HK_ID) then
          fMessageBox "GripMMI" (c_literal "Unrecognized packet from %s.\n\n%s")
            [ArgString filename; ArgString restart_hint] ;;
          exit (-1)
        else
          let hk := ExtractGripHealthAndStatusInfo hk content in
          hk_read_loop filename fid reads' epmHeader hk
  end.

(** [int GripMMIDesktop::GetLatestGripHK( GripHealthAndStatusInfo *hk )]: the
    returned value and the final content of [*hk]. *)
Definition GetLatestGripHK (env : Env) (hk : GripHealthAndStatusInfo)
    : M (Z * GripHealthAndStatusInfo) :=
  s <- get ;;
  let filename :=
    CreateGripPacketCacheFilename GRIP_HK_BULK_PACKET (packetBufferPathRoot s) in
  fid <- open_cache_loop (_open env filename) (Z.to_nat MAX_OPEN_CACHE_RETRIES) 0
           (fid0 env) ;;
  if fid <? 0 then
    fMessageBox "GripMMI" (c_literal "Error reading from %s.\n\n*s")
      [ArgString filename; ArgString restart_hint] ;;
    exit (-1)
  else
    r <- hk_read_loop filename fid (read_results env) (epmHeader0 env) hk ;;
    let '(epmHeader, hk) := r in
    return_code <- _close env fid ;;
    if negb (return_code =? 0) then
      fMessageBox "GripMMI" (c_literal "Error closing %s after binary read.\nError code: %s\n\n%s")
        [ArgString filename; ArgInt return_code; ArgString restart_hint] ;;
      exit return_code
    else
      s <- get ;;
      if negb (hk_previousTMCounter s =? TMCounter epmHeader) then
        modify (set_hk_previousTMCounter (TMCounter epmHeader)) ;;
        ret (TRUE, hk)
      else ret (FALSE, hk).

(** ** UpdateStatus *)

(** [GoToSpecifiedIDs] and the tables [soundBar] and [massDecoder] are
    defined outside the sources: parameters. *)
Variable GoToSpecifiedIDs : Z -> Z -> Z -> Z -> State -> State.
Variable soundBar : array string.
Variable massDecoder : array string.

(** [for ( i = 0, bit = 0x01; i < n; i++, bit = bit << 1 )]: one character
    per target. *)
Definition target_string (n : Z) (feedback : Z) (str : string) : string :=
  fst (for_range (Z.to_nat n) 0
         (fun _ '(str, bit) =>
            (if negb (Z.land bit feedback =? 0)
             then (str ++ "u")%string else (str ++ "m")%string,
             Z.shiftl bit 1))
         (str, 1)).

(** The carriage return and line feed of the string literal "\r\n". *)
Definition crlf : string :=
  String (Ascii.ascii_of_nat 13) (String (Ascii.ascii_of_nat 10) EmptyString).

(** The refresh of the status indicators from a housekeeping record. *)
Definition show_status (hk_info : GripHealthAndStatusInfo) (s : State) : State :=
  let s := upd_form (set_scriptErrorCheckbox_Checked
                       (negb (task hk_info =? 0)
                        && (scriptEngineStatusEnum hk_info =? 0x1000))) s in
  let s := GoToSpecifiedIDs (user hk_info) (protocol hk_info) (task hk_info)
             (step hk_info) s in
  let target_state_string := ""%string in
  let target_state_string :=
    target_string 10 (horizontalTargetFeedback hk_info) target_state_string in
  let target_state_string := (target_state_string ++ crlf)%string in
  let target_state_string :=
    target_string 13 (verticalTargetFeedback hk_info) target_state_string in
  let s := upd_form (set_targetsTextBox target_state_string) s in
  let s := upd_form (set_tonesTextBox (soundBar (toneFeedback hk_info))) s in
  let mass_state_string :=
    (massDecoder (Z.land (Z.shiftr (cradleDetectors hk_info) 0) 3) ++ " "
     ++ massDecoder (Z.land (Z.shiftr (cradleDetectors hk_info) 2) 3) ++ " "
     ++ massDecoder (Z.land (Z.shiftr (cradleDetectors hk_info) 4) 3))%string in
  let s := upd_form (set_cradlesTextBox mass_state_string) s in
  let coda_state_string :=
    (markerVisibilityString s 0 ++ crlf ++ markerVisibilityString s 1)%string in
  let s := upd_form (set_markersTextBox coda_state_string) s in
  let acquisition_state_string :=
    ((if (motionTrackerStatusEnum hk_info =? 2)%Z then "A" else " ")
     ++ (if (crewCameraStatusEnum hk_info =? 2)%Z then " F" else " "))%string in
  upd_form (set_acquisitionTextBox acquisition_state_string) s.

(** Which branch of UpdateStatus a return code selects. *)
Inductive StatusBranch : Type :=
  | CacheNotFound   (* ERROR_CACHE_NOT_FOUND == return_code: return at once *)
  | Refresh         (* return_code == TRUE || force *)
  | NoChange.

Definition status_branch (return_code : Z) (force : bool) : StatusBranch :=
  if ERROR_CACHE_NOT_FOUND =? return_code then CacheNotFound
  else if (return_code =? TRUE) || force then Refresh
  else NoChange.

(** [void GripMMIDesktop::UpdateStatus( bool force )]: the branch taken is
    returned with the effect. *)
Definition UpdateStatus (env : Env) (force : bool) : M StatusBranch :=
  r <- GetLatestGripHK env (hk_info0 env) ;;
  let '(return_code, hk_info) := r in
  match status_branch return_code force with
  | CacheNotFound => ret CacheNotFound
  | Refresh => modify (show_status hk_info) ;; ret Refresh
  | NoChange => ret NoChange
  end.

End WithDouble.
Arguments Buffers D : clear implicits.
Arguments State D : clear implicits.
Arguments Env D {codec}.
Arguments Locals D : clear implicits.
Arguments M D A : clear implicits.
Arguments Normal {A} a.
Arguments Exited {A} code.
Notation "x <- m ;; k" := (bind m (fun x => k))
  (at level 61, m at next level, right associativity).
Notation "m ;; k" := (bind m (fun _ => k))
  (at level 61, right associativity).
End GripMMI.

(* ================================================================== *)
(** * Exact arithmetic *)

(** The carrier [R]: every operation is the exact one, [(float)] changes
    nothing, and every value is finite.  The properties of the functions
    that go through a cast are stated with [cast_DoubleOps] instead, which
    keeps it. *)
Module ExactReal.
Local Open Scope R_scope.

Definition atan2 (y x : R) : R :=
  if Rlt_dec 0 x then atan (y / x)
  else if Rlt_dec x 0 then
    if Rle_dec 0 y then atan (y / x) + PI else atan (y / x) - PI
  else if Rlt_dec 0 y then PI / 2
  else if Rlt_dec y 0 then - (PI / 2)
  else 0.

#[global] Instance R_DoubleOps : DoubleOps R := {|
  dlit := Q2R;
  of_int := IZR;
  dadd := Rplus;
  dsub := Rminus;
  dmul := Rmult;
  ddiv := Rdiv;
  dneg := Ropp;
  dsqrt := sqrt;
  dfabs := Rabs;
  dlt := fun a b => if Rlt_dec a b then true else false;
  dle := fun a b => if Rle_dec a b then true else false;
  to_float := fun x => x;
  _finite := fun _ => true
|}.

#[global] Instance R_Libm : Libm R := {|
  dsin := sin;
  dcos := cos;
  datan2 := atan2
|}.

(** The carrier [R] with the cast [(float)] kept: every other operation is
    the exact one, and the cast is a function [cast] of which nothing is
    assumed.  A property proved for every [cast] holds for the rounding to
    single precision. *)
Definition cast_DoubleOps (cast : R -> R) : DoubleOps R := {|
  dlit := Q2R;
  of_int := IZR;
  dadd := Rplus;
  dsub := Rminus;
  dmul := Rmult;
  ddiv := Rdiv;
  dneg := Ropp;
  dsqrt := sqrt;
  dfabs := Rabs;
  dlt := fun a b => if Rlt_dec a b then true else false;
  dle := fun a b => if Rle_dec a b then true else false;
  to_float := cast;
  _finite := fun _ => true
|}.

(** The one-pole filter map of the scalar filters, and [n] updates of the
    grip-force filter, and of the normal-force filter of one sensor, with the
    same sample. *)
Definition one_pole (k x y : R) : R := (x + k * y) / (1 + k).



End ExactReal.

(** The carrier of the doubles themselves: IEEE 754 binary64 numbers as the
    Standard Library specifies them ([SpecFloat], precision 53, infinities at
    exponent 1024, rounding to nearest even), with rounding, overflow, signed
    zeros and NaN.  The cast [(float)] rounds to binary32 (precision 24,
    infinities at exponent 128); the result, promoted back, is the same
    number written in binary64.  The <math.h> functions are not part of it:
    it serves the functions that do not call them. *)
Module Binary64.

Definition prec : Z := 53.
Definition emax : Z := 1024.

(** The conversion of an integer, rounded to nearest even. *)
Definition of_Z (z : Z) : SpecFloat.spec_float :=
  SpecFloat.binary_normalize prec emax z 0 false.

(** A decimal literal: the quotient of two integers that binary64 holds
    exactly, rounded once by the division. *)
Definition of_Q (q : Q) : SpecFloat.spec_float :=
  SpecFloat.SFdiv prec emax (of_Z (Qnum q)) (of_Z (Zpos (Qden q))).

Definition to_single (x : SpecFloat.spec_float) : SpecFloat.spec_float :=
  match x with
  | SpecFloat.S754_finite s m e =>
      match SpecFloat.binary_round 24 128 s m e with
      | SpecFloat.S754_finite s' m' e' => SpecFloat.binary_round prec emax s' m' e'
      | y => y
      end
  | _ => x
  end.

Definition is_finite (x : SpecFloat.spec_float) : bool :=
  match x with
  | SpecFloat.S754_zero _ | SpecFloat.S754_finite _ _ _ => true
  | _ => false
  end.

#[global] Instance binary64_DoubleOps : DoubleOps SpecFloat.spec_float := {|
  dlit := of_Q;
  of_int := of_Z;
  dadd := SpecFloat.SFadd prec emax;
  dsub := SpecFloat.SFsub prec emax;
  dmul := SpecFloat.SFmul prec emax;
  ddiv := SpecFloat.SFdiv prec emax;
  dneg := SpecFloat.SFopp;
  dsqrt := SpecFloat.SFsqrt prec emax;
  dfabs := SpecFloat.SFabs;
  dlt := SpecFloat.SFltb;
  dle := SpecFloat.SFleb;
  to_float := to_single;
  _finite := is_finite
|}.

(** Values for the constants of the absent headers: two sensors, numbered 0
    and 1. *)
#[global] Instance binary64_constants : Constants SpecFloat.spec_float := {|
  MISSING_DOUBLE := of_Q 999999.999999;
  N_FORCE_TRANSDUCERS := 2;
  LEFT_ATI := 0;
  RIGHT_ATI := 1;
  LEFT_ATI_ROTATION := of_Z 0;
  RIGHT_ATI_ROTATION := of_Z 0
|}.


End Binary64.

(** Sample values for the constants of the absent headers, used where a
    property is exercised on concrete data: two sensors, numbered 0 and 1. *)
Module Sample.
Import ExactReal.

#[global] Instance sample_constants : Constants R := {|
  MISSING_DOUBLE := Q2R 999999.999999;
  N_FORCE_TRANSDUCERS := 2;
  LEFT_ATI := 0;
  RIGHT_ATI := 1;
  LEFT_ATI_ROTATION := 0%R;
  RIGHT_ATI_ROTATION := 0%R
|}.

(** A cast that changes values: rounding down to an integer. *)
Definition sample_cast (x : R) : R := IZR (Int_part x).

(** A filter object with smoothing constant 100 and all accumulators at 0,
    as the constructor leaves it. *)
Definition sample_dex : DexAnalogMixin.t R :=
  let zero := VectorsMixin.mkVector3 0%R 0%R 0%R in
  DexAnalogMixin.mk (fun _ => 0%R) (fun _ => VectorsMixin.mkQuaternion 0%R 0%R 0%R 1%R)
    100%R zero zero zero zero (fun _ => zero) 0%R (fun _ => 0%R).

(** A stand-in for the codec of GripPackets.cpp: a packet carries the three
    structures already decoded, and each Extract function returns its own. *)
Record sample_packet : Type := mkSamplePacket {
  sp_header : GripPackets.EPMTelemetryHeaderInfo;
  sp_rt : GripPackets.GripRealtimeDataInfo R;
  sp_hk : GripPackets.GripHealthAndStatusInfo
}.

#[global] Instance sample_codec : GripPackets.Codec R := {|
  GripPackets.EPMTelemetryPacket := sample_packet;
  GripPackets.ExtractEPMTelemetryHeaderInfo := fun _ p => sp_header p;
  GripPackets.ExtractGripRealtimeDataInfo := fun _ p => sp_rt p;
  GripPackets.ExtractGripHealthAndStatusInfo := fun _ p => sp_hk p;
  GripPackets.CreateGripPacketCacheFilename := fun type root =>
    match type with
    | GripPackets.GRIP_RT_SCIENCE_PACKET => (root ++ ".rt.gpk")%string
    | GripPackets.GRIP_HK_BULK_PACKET => (root ++ ".hk.gpk")%string
    | GripPackets.GRIP_UNKNOWN_PACKET => (root ++ ".any.gpk")%string
    end
|}.

(** A telemetry header with the given identifier and counter. *)
Definition sample_header (identifier counter : Z) : GripPackets.EPMTelemetryHeaderInfo :=
  GripPackets.mkEPMTelemetryHeaderInfo
    (GripPackets.mkEPMTransferFrameHeaderInfo
       GripPackets.EPM_TRANSFER_FRAME_SYNC_VALUE 0 43
       GripPackets.TRANSFER_FRAME_TELEMETRY 0 401)
    GripPackets.EPM_TELEMETRY_SYNC_VALUE 0 0x21 0 0 identifier counter
    0 0 0 0 0 0 0 0 0 0 0.

(** A slice with raw position (10, 20, 30), the null orientation, a force of
    2 along X on each sensor, and the given visibility flag. *)
Definition sample_slice (visible : Z) : GripPackets.ManipulandumPacket R :=
  GripPackets.mkManipulandumPacket 0
    (VectorsMixin.mkVector3 10%R 20%R 30%R)
    (VectorsMixin.mkQuaternion 0%R 0%R 0%R 1%R)
    (fun _ => 0) visible 0
    (fun _ => GripPackets.mkForceTorque (VectorsMixin.mkVector3 2%R 0%R 0%R)
                (VectorsMixin.mkVector3 0%R 6%R (-8)%R))
    (VectorsMixin.mkVector3 0%R 0%R 0%R) 0%R 0%R.

Definition sample_rt (timestamp : R) (visible : Z) : GripPackets.GripRealtimeDataInfo R :=
  GripPackets.mkGripRealtimeDataInfo timestamp 0 0 (fun _ => sample_slice visible).

Definition sample_hk : GripPackets.GripHealthAndStatusInfo :=
  GripPackets.mkGripHealthAndStatusInfo 0 0 0 0 0 0 0 0 0 0 0 0 0 0 0 0 0 0 0 0.

(** A realtime record with the given counter and packet timestamp. *)
Definition sample_record (counter : Z) (timestamp : R) : sample_packet :=
  mkSamplePacket (sample_header GripPackets.GRIP_RT_ID counter)
    (sample_rt timestamp 1) sample_hk.

(** Buffers holding 0 in every channel, and a program state with [n] frames
    over them: counters at 0, no alert. *)
Definition sample_buffers : GripMMI.Buffers R :=
  let zero := VectorsMixin.mkVector3 0%R 0%R 0%R in
  GripMMI.mkBuffers (fun _ => zero) (fun _ => zero) (fun _ => zero) (fun _ => 0%R)
    (fun _ => zero) (fun _ _ => 0%R) (fun _ => 0%R) (fun _ _ => zero) (fun _ => 0%R)
    (fun _ => 0%R) (fun _ => 0%R) (fun _ => 0%R) (fun _ _ => 0%R) (fun _ => 0%R)
    (fun _ => 0%R) (fun _ => 0%R) (fun _ => 0%R).

Definition sample_form : GripMMI.Form :=
  GripMMI.mkForm true true false "" "" "" "" "".

Definition sample_state (n : Z) : GripMMI.State R :=
  GripMMI.mkState n sample_buffers (fun _ => ""%string) sample_dex "cache"
    0 false 0 sample_form.

(** An environment: what the open attempts return, what the reads return;
    [_close] succeeds. *)
Definition sample_env (opens : Z -> Z) (reads : list (Z * sample_packet)) : GripMMI.Env R :=
  GripMMI.mkEnv opens reads 0 (-1) (sample_header 0 0) (sample_rt 0%R 0) sample_hk.

End Sample.

(* ================================================================== *)
(** * Properties of DexAnalogMixin *)

Section DexAnalogMixinFacts.
Context {D : Type} {ops : DoubleOps D} {consts : Constants D}.
Import DexAnalogMixin.
Local Open Scope Z_scope.

(** C9.  FilterNormalForce with a sensor index outside
    [0, N_FORCE_TRANSDUCERS) returns the missing-value sentinel and leaves
    the whole filter object, hence every per-sensor accumulator, unchanged.
    With an index inside the range it stores the one-pole update in the
    accumulator of that sensor, returns that accumulator, and changes no
    other accumulator and no other member of the object. *)
Theorem FilterNormalForce_index (d : t D) (normal_force : D) (ati : Z) :
  (~ (0 <= ati < N_FORCE_TRANSDUCERS) ->
     FilterNormalForce d normal_force ati = (d, MISSING_DOUBLE))
  /\ (0 <= ati < N_FORCE_TRANSDUCERS ->
      let d' := fst (FilterNormalForce d normal_force ati) in
      snd (FilterNormalForce d normal_force ati) = filteredNormalForce d' ati
      /\ filteredNormalForce d' ati
         = ((normal_force + filterConstant d * filteredNormalForce d ati)
              / (dlit 1.0 + filterConstant d))%dbl
      /\ (forall j, j <> ati -> filteredNormalForce d' j = filteredNormalForce d j)
      /\ d' = set_filteredNormalForce (filteredNormalForce d') d).
Proof.
  unfold FilterNormalForce. split.
  - intros Hout.
    destruct (ati >=? N_FORCE_TRANSDUCERS) eqn:Hge; [reflexivity|].
    destruct (ati <? 0) eqn:Hlt; [reflexivity|].
    exfalso. apply Hout. rewrite Z.geb_leb in Hge.
    apply Z.leb_gt in Hge. apply Z.ltb_ge in Hlt. lia.
  - intros [Hlo Hhi].
    assert (Hge : (ati >=? N_FORCE_TRANSDUCERS) = false)
      by (rewrite Z.geb_leb; apply Z.leb_gt; lia).
    assert (Hlt : (ati <? 0) = false) by (apply Z.ltb_ge; lia).
    rewrite Hge, Hlt. cbn [orb fst snd]. cbn. unfold array_set.
    rewrite Z.eqb_refl. repeat split.
    intros j Hj. apply Z.eqb_neq in Hj. rewrite Hj. reflexivity.
Qed.

End DexAnalogMixinFacts.

(** The index cases of C9 on the sample object: index 5 is outside the range
    of the two sensors, index 1 is inside. *)
Lemma FilterNormalForce_index_witness :
  DexAnalogMixin.FilterNormalForce Sample.sample_dex 3%R 5
    = (Sample.sample_dex, MISSING_DOUBLE)
  /\ DexAnalogMixin.filteredNormalForce
       (fst (DexAnalogMixin.FilterNormalForce Sample.sample_dex 3%R 1)) 0
     = DexAnalogMixin.filteredNormalForce Sample.sample_dex 0.
Proof.
  split.
  - apply (proj1 (FilterNormalForce_index Sample.sample_dex 3%R 5)). cbn. lia.
  - destruct (proj2 (FilterNormalForce_index Sample.sample_dex 3%R 1)) as (_ & _ & H & _).
    + cbn. lia.
    + apply H. discriminate.
Defined.

(* ================================================================== *)
(** * Properties of the rigid-body pose *)

Section PoseFacts.
Context {D : Type} {ops : DoubleOps D}.
Import VectorsMixin.
Local Open Scope Z_scope.

(** The truncation of the marker count keeps a count below 3 below 3. *)
Lemma truncated_count_lt_3 (MAX_RIGID_BODY_MARKERS N : Z) :
  N < 3 ->
  ((if N >? MAX_RIGID_BODY_MARKERS then MAX_RIGID_BODY_MARKERS else N) <? 3) = true.
Proof.
  intros HN. destruct (N >? MAX_RIGID_BODY_MARKERS) eqn:Hgt; apply Z.ltb_lt.
  - rewrite Z.gtb_ltb in Hgt. apply Z.ltb_lt in Hgt. lia.
  - exact HN.
Qed.

(** C7.  ComputeRigidBodyPose called with fewer than 3 markers and a null
    default orientation returns [false] and writes -999.999 into the three
    components of the position and the four components of the orientation. *)
Theorem ComputeRigidBodyPose_too_few_markers
    (MAX_RIGID_BODY_MARKERS : Z) (model actual : array (Vector3 D)) (N : Z) :
  N < 3 ->
  ComputeRigidBodyPose MAX_RIGID_BODY_MARKERS model actual N None
  = (false,
     mkVector3 (dlit (-999.999)) (dlit (-999.999)) (dlit (-999.999)),
     mkQuaternion (dlit (-999.999)) (dlit (-999.999)) (dlit (-999.999))
                  (dlit (-999.999))).
Proof.
  intros HN. unfold ComputeRigidBodyPose.
  rewrite (truncated_count_lt_3 MAX_RIGID_BODY_MARKERS HN). reflexivity.
Qed.

End PoseFacts.

(** C7 at two markers, eight markers allowed, over exact reals. *)
Lemma ComputeRigidBodyPose_too_few_markers_witness :
  (2 < 3)%Z
  /\ fst (fst (VectorsMixin.ComputeRigidBodyPose (D := R) 8
                 (fun _ => VectorsMixin.mkVector3 1%R 2%R 3%R)
                 (fun _ => VectorsMixin.mkVector3 4%R 5%R 6%R) 2 None))
     = false.
Proof.
  split; [lia|].
  rewrite (ComputeRigidBodyPose_too_few_markers (D := R) 8
             (fun _ => VectorsMixin.mkVector3 1%R 2%R 3%R)
             (fun _ => VectorsMixin.mkVector3 4%R 5%R 6%R) (N := 2)).
  - reflexivity.
  - lia.
Defined.

(* ================================================================== *)
(** * Properties over exact reals *)

Section ExactRealFacts.
Import VectorsMixin DexAnalogMixin ExactReal.
Local Open Scope R_scope.

(** Unfolds the operations of the instance [R_DoubleOps]. *)
Ltac exact_ops :=
  cbv [dadd dsub dmul ddiv dneg dsqrt dfabs dlt dle to_float of_int dlit
       R_DoubleOps] in *.

Lemma Q2R_0 : Q2R 0.0 = 0.
Proof. unfold Q2R. cbn. lra. Qed.

Lemma Q2R_1 : Q2R 1.0 = 1.
Proof. unfold Q2R. cbn. lra. Qed.

Lemma dlt_true (a b : R) : a < b -> dlt a b = true.
Proof. intros H. exact_ops. destruct (Rlt_dec a b); [reflexivity | contradiction]. Qed.

Lemma dlt_false (a b : R) : b <= a -> dlt a b = false.
Proof. intros H. exact_ops. destruct (Rlt_dec a b); [lra | reflexivity]. Qed.



(** ** The recursive filter *)




Lemma FilterGripForce_one_pole (d : t R) (x : R) :
  filteredGripForce (fst (FilterGripForce d x))
    = one_pole (filterConstant d) x (filteredGripForce d)
  /\ snd (FilterGripForce d x) = one_pole (filterConstant d) x (filteredGripForce d)
  /\ filterConstant (fst (FilterGripForce d x)) = filterConstant d.
Proof. unfold FilterGripForce, one_pole. cbn. rewrite Q2R_1. auto. Qed.


Lemma FilterNormalForce_one_pole {consts : Constants R} (d : t R) (x : R) (ati : Z) :
  (0 <= ati < N_FORCE_TRANSDUCERS)%Z ->
  filteredNormalForce (fst (FilterNormalForce d x ati)) ati
    = one_pole (filterConstant d) x (filteredNormalForce d ati)
  /\ snd (FilterNormalForce d x ati)
     = one_pole (filterConstant d) x (filteredNormalForce d ati)
  /\ filterConstant (fst (FilterNormalForce d x ati)) = filterConstant d.
Proof.
  intros Hati. unfold FilterNormalForce.
  destruct (ati >=? N_FORCE_TRANSDUCERS)%Z eqn:Hge.
  { rewrite Z.geb_leb in Hge. apply Z.leb_le in Hge. lia. }
  destruct (ati <? 0)%Z eqn:Hlt.
  { apply Z.ltb_lt in Hlt. lia. }
  cbn. unfold array_set, one_pole. rewrite Z.eqb_refl. exact_ops. rewrite Q2R_1. auto.
Qed.



End ExactRealFacts.

(* ================================================================== *)
(** * The same functions on the doubles themselves *)

Section Binary64Runs.
Import VectorsMixin DexAnalogMixin Binary64.
Local Open Scope Z_scope.



End Binary64Runs.

(* ================================================================== *)
(** * Properties of the ingestion: GetGripRT, GetLatestGripHK, UpdateStatus *)

Section IngestionFacts.
Context {D : Type} {ops : DoubleOps D} {libm : Libm D} {consts : Constants D}
        {codec : GripPackets.Codec D}.
Import VectorsMixin GripPackets GripMMI.
Local Open Scope Z_scope.

(** ** The monad *)

Lemma bind_normal {A B : Type} (m : M D A) (f : A -> M D B) s a s1 t1 :
  m s = (Normal a, s1, t1) ->
  bind m f s = (let '(r, s2, t2) := f a s1 in (r, s2, (t1 ++ t2)%list)).
Proof. intros H. unfold bind. rewrite H. reflexivity. Qed.

Lemma bind_exited {A B : Type} (m : M D A) (f : A -> M D B) s code s1 t1 :
  m s = (Exited code, s1, t1) -> bind m f s = (Exited code, s1, t1).
Proof. intros H. unfold bind. rewrite H. reflexivity. Qed.

Lemma bind_inv_normal {A B : Type} (m : M D A) (f : A -> M D B) s b s2 t :
  bind m f s = (Normal b, s2, t) ->
  exists a s1 t1 t2,
    m s = (Normal a, s1, t1) /\ f a s1 = (Normal b, s2, t2) /\ t = (t1 ++ t2)%list.
Proof.
  unfold bind. destruct (m s) as [[[a | code] s1] t1]; [|discriminate].
  destruct (f a s1) as [[r s2'] t2] eqn:Hf. intros H. inversion H; subst.
  exists a, s1, t1, t2. auto.
Qed.

Lemma bind_get {B : Type} (f : State D -> M D B) s : bind get f s = f s s.
Proof. unfold bind, get. destruct (f s s) as [[r s2] t2]. reflexivity. Qed.

Lemma bind_modify {B : Type} (g : State D -> State D) (f : unit -> M D B) s :
  bind (modify g) f s = f tt (g s).
Proof. unfold bind, modify. destruct (f tt (g s)) as [[r s2] t2]. reflexivity. Qed.

Lemma bind_ret {A B : Type} (a : A) (f : A -> M D B) s : bind (ret a) f s = f a s.
Proof. unfold bind, ret. destruct (f a s) as [[r s2] t2]. reflexivity. Qed.

Lemma bind_emit {B : Type} (e : Event) (f : unit -> M D B) s :
  bind (emit e) f s = (let '(r, s2, t2) := f tt s in (r, s2, e :: t2)).
Proof. unfold bind, emit. destruct (f tt s) as [[r s2] t2]. reflexivity. Qed.

(** ** Opening the cache file *)

(** All attempts fail: the loop ends with the last descriptor, after one
    pause per attempt. *)
Lemma open_cache_loop_all_fail (env : Env D) (open_event : Z -> Event)
    (n : nat) (first fid : Z) (s : State D) :
  (forall k, first <= k < first + Z.of_nat n -> open_result env k < 0) ->
  open_cache_loop (fun k => emit (open_event k) ;; ret (open_result env k)) n first fid s
  = (Normal (if Nat.eqb n 0 then fid else open_result env (first + Z.of_nat n - 1)),
     s, failed_attempts open_event n first).
Proof.
  revert first fid. induction n as [|n IH]; intros first fid Hfail.
  - reflexivity.
  - cbn [open_cache_loop failed_attempts Nat.eqb].
    replace (first + Z.of_nat (S n) - 1) with (first + 1 + Z.of_nat n - 1) by lia.
    assert (H0 : open_result env first < 0) by (apply Hfail; lia).
    assert (Hge : (open_result env first >=? 0) = false)
      by (rewrite Z.geb_leb; apply Z.leb_gt; exact H0).
    unfold bind at 1. cbn. rewrite Hge.
    unfold bind at 1. cbn.
    rewrite IH by (intros k Hk; apply Hfail; lia).
    destruct n; [|reflexivity].
    replace (first + 1 + Z.of_nat 0 - 1) with first by lia. reflexivity.
Qed.

(** Attempt [first + j] is the first to succeed: the loop ends there. *)
Lemma open_cache_loop_success (env : Env D) (open_event : Z -> Event)
    (n j : nat) (first fid : Z) (s : State D) :
  (j < n)%nat ->
  (forall k, first <= k < first + Z.of_nat j -> open_result env k < 0) ->
  0 <= open_result env (first + Z.of_nat j) ->
  open_cache_loop (fun k => emit (open_event k) ;; ret (open_result env k)) n first fid s
  = (Normal (open_result env (first + Z.of_nat j)), s,
     (failed_attempts open_event j first ++ [open_event (first + Z.of_nat j)])%list).
Proof.
  revert j first fid. induction n as [|n IH]; intros j first fid Hj Hfail Hok; [lia|].
  cbn [open_cache_loop]. destruct j as [|j].
  - replace (first + Z.of_nat 0) with first in * by lia.
    assert (Hge : (open_result env first >=? 0) = true)
      by (rewrite Z.geb_leb; apply Z.leb_le; exact Hok).
    unfold bind at 1. cbn. rewrite Hge. reflexivity.
  - assert (H0 : open_result env first < 0) by (apply Hfail; lia).
    assert (Hge : (open_result env first >=? 0) = false)
      by (rewrite Z.geb_leb; apply Z.leb_gt; exact H0).
    replace (first + Z.of_nat (S j)) with (first + 1 + Z.of_nat j) in * by lia.
    unfold bind at 1. cbn. rewrite Hge.
    unfold bind at 1. cbn.
    rewrite (IH j (first + 1) (open_result env first)).
    + reflexivity.
    + lia.
    + intros k Hk. apply Hfail. lia.
    + exact Hok.
Qed.

(** GetGripRT when the buffers were not full: the buffers are reset, then the
    cache is opened and ingested. *)
Lemma GetGripRT_not_full (env : Env D) (s : State D) :
  buffers_full_alert s = false ->
  let filename :=
    CreateGripPacketCacheFilename GRIP_RT_SCIENCE_PACKET (packetBufferPathRoot s) in
  GetGripRT env s
  = (fid <- open_cache_loop
              (fun k => emit (Ev_sopen filename (open_result env k)) ;;
                        ret (open_result env k))
              (Z.to_nat MAX_OPEN_CACHE_RETRIES) 0 (fid0 env) ;;
     if fid <? 0 then
       fMessageBox "GripMMI" (c_literal "Error opening packet file %s.\n\n%s")
         [ArgString filename; ArgString restart_hint] ;;
       exit (-1)
     else rt_ingest env filename fid) (ResetBuffers s).
Proof.
  intros Halert filename. unfold GetGripRT.
  rewrite bind_get, Halert, bind_modify. reflexivity.
Qed.

(** C8.  A call of GetGripRT made while the buffers are not full.  When the
    first MAX_OPEN_CACHE_RETRIES (5) attempts to open the cache file all
    fail, the call makes exactly these 5 attempts, pauses RETRY_PAUSE
    milliseconds after each, then shows the error box and exits with code -1.
    When attempt j (one of the 5) is the first to succeed, the call makes the
    j failed attempts, each followed by its pause, then the successful one,
    and goes on with the ingestion on the descriptor obtained: no error box
    for the open and no exit come from the open phase. *)
Theorem GetGripRT_open_retries (env : Env D) (s : State D) :
  buffers_full_alert s = false ->
  let filename :=
    CreateGripPacketCacheFilename GRIP_RT_SCIENCE_PACKET (packetBufferPathRoot s) in
  let attempt := fun k => Ev_sopen filename (open_result env k) in
  ((forall k, 0 <= k < MAX_OPEN_CACHE_RETRIES -> open_result env k < 0) ->
   exists trace,
     GetGripRT env s = (Exited (-1), ResetBuffers s, trace)
     /\ trace
        = (failed_attempts attempt (Z.to_nat MAX_OPEN_CACHE_RETRIES) 0
           ++ [EvMessageBox "GripMMI" (c_literal "Error opening packet file %s.\n\n%s")
                 [ArgString filename; ArgString restart_hint]])%list
     /\ Z.of_nat (List.length (filter is_open trace)) = MAX_OPEN_CACHE_RETRIES)
  /\ (forall j, 0 <= j < MAX_OPEN_CACHE_RETRIES ->
      (forall k, 0 <= k < j -> open_result env k < 0) ->
      0 <= open_result env j ->
      GetGripRT env s
      = (let '(r, s', t) :=
           rt_ingest env filename (open_result env j) (ResetBuffers s) in
         (r, s', (failed_attempts attempt (Z.to_nat j) 0 ++ attempt j :: t)%list))).
Proof.
  intros Halert filename attempt. split.
  - intros Hfail. eexists. split; [|split; [reflexivity|reflexivity]].
    rewrite (GetGripRT_not_full env s Halert). fold filename.
    change (Z.to_nat MAX_OPEN_CACHE_RETRIES) with 5%nat.
    erewrite bind_normal.
    2:{ apply (open_cache_loop_all_fail env attempt).
        intros k Hk. apply Hfail. unfold MAX_OPEN_CACHE_RETRIES. lia. }
    cbn [Nat.eqb]. change (0 + Z.of_nat 5 - 1) with 4.
    assert (Hneg : (open_result env 4 <? 0) = true).
    { apply Z.ltb_lt. apply Hfail. unfold MAX_OPEN_CACHE_RETRIES. lia. }
    rewrite Hneg. reflexivity.
  - intros j Hj Hfail Hok.
    rewrite (GetGripRT_not_full env s Halert). fold filename.
    erewrite bind_normal.
    2:{ apply (open_cache_loop_success env attempt (j := Z.to_nat j)).
        - unfold MAX_OPEN_CACHE_RETRIES in *. lia.
        - intros k Hk. apply Hfail. lia.
        - rewrite Z2Nat.id by lia. exact Hok. }
    rewrite Z2Nat.id by lia. cbn [Z.add].
    assert (Hnn : (open_result env j <? 0) = false) by (apply Z.ltb_ge; exact Hok).
    rewrite Hnn.
    destruct (rt_ingest env filename (open_result env j) (ResetBuffers s))
      as [[r s'] t].
    rewrite <- app_assoc. reflexivity.
Qed.

(** ** GetLatestGripHK and UpdateStatus *)

Lemma exit_not_normal {A B : Type} (m : M D A) (code : Z) s (b : B) s' t :
  (m ;; exit code) s <> (Normal b, s', t).
Proof.
  intros H. apply bind_inv_normal in H.
  destruct H as (a & s1 & t1 & t2 & _ & He & _). discriminate He.
Qed.

(** GetLatestGripHK returns TRUE or FALSE whenever it returns. *)
Lemma GetLatestGripHK_returns (env : Env D) (hk : GripHealthAndStatusInfo) (s : State D)
    rc hk' s' t :
  GetLatestGripHK env hk s = (Normal (rc, hk'), s', t) -> rc = TRUE \/ rc = FALSE.
Proof.
  unfold GetLatestGripHK. rewrite bind_get. intros H.
  apply bind_inv_normal in H. destruct H as (fid & s1 & t1 & t2 & _ & H & _).
  destruct (fid <? 0); [exfalso; revert H; apply exit_not_normal|].
  apply bind_inv_normal in H. destruct H as ([h hk2] & s2 & t3 & t4 & _ & H & _).
  apply bind_inv_normal in H. destruct H as (return_code & s3 & t5 & t6 & _ & H & _).
  destruct (negb (return_code =? 0)); [exfalso; revert H; apply exit_not_normal|].
  rewrite bind_get in H.
  destruct (negb (hk_previousTMCounter s3 =? TMCounter h)).
  - rewrite bind_modify in H. inversion H. left. reflexivity.
  - inversion H. right. reflexivity.
Qed.

(** C10.  GetLatestGripHK never returns ERROR_CACHE_NOT_FOUND: a value it
    returns is TRUE or FALSE; when the five attempts to open the cache file
    all fail it does not return but exits with code -1; hence the branch of
    UpdateStatus for a return code equal to ERROR_CACHE_NOT_FOUND is never
    taken. *)
Theorem GetLatestGripHK_never_cache_not_found
    (GoToSpecifiedIDs : Z -> Z -> Z -> Z -> State D -> State D)
    (soundBar massDecoder : array string)
    (env : Env D) (hk : GripHealthAndStatusInfo) (force : bool) (s : State D) :
  (forall rc hk' s' t,
     GetLatestGripHK env hk s = (Normal (rc, hk'), s', t) ->
     (rc = TRUE \/ rc = FALSE) /\ rc <> ERROR_CACHE_NOT_FOUND)
  /\ ((forall k, 0 <= k < MAX_OPEN_CACHE_RETRIES -> open_result env k < 0) ->
      exists t, GetLatestGripHK env hk s = (Exited (-1), s, t))
  /\ fst (fst (UpdateStatus GoToSpecifiedIDs soundBar massDecoder env force s))
     <> Normal CacheNotFound.
Proof.
  split; [|split].
  - intros rc hk' s' t H. pose proof (GetLatestGripHK_returns _ _ _ H) as Hrc.
    split; [exact Hrc|]. destruct Hrc as [-> | ->]; discriminate.
  - intros Hfail. unfold GetLatestGripHK. rewrite bind_get. unfold _open.
    change (Z.to_nat MAX_OPEN_CACHE_RETRIES) with 5%nat.
    erewrite bind_normal.
    2:{ apply (open_cache_loop_all_fail env
                 (fun k => Ev_open
                    (CreateGripPacketCacheFilename GRIP_HK_BULK_PACKET
                       (packetBufferPathRoot s)) (open_result env k))).
        intros k Hk. apply Hfail. unfold MAX_OPEN_CACHE_RETRIES. lia. }
    cbn [Nat.eqb]. change (0 + Z.of_nat 5 - 1) with 4.
    assert (Hneg : (open_result env 4 <? 0) = true).
    { apply Z.ltb_lt. apply Hfail. unfold MAX_OPEN_CACHE_RETRIES. lia. }
    rewrite Hneg. eexists. reflexivity.
  - unfold UpdateStatus.
    destruct (GetLatestGripHK env (hk_info0 env) s) as [[[[rc hk']|code] s1] t1] eqn:E.
    + erewrite bind_normal by exact E.
      destruct (GetLatestGripHK_returns _ _ _ E) as [-> | ->];
        destruct force; cbn; discriminate.
    + erewrite bind_exited by exact E. cbn. discriminate.
Qed.

(** ** What the blocks of a slice leave alone *)

(** A step keeps the frame count, what is outside the data, and the pose
    channels with their filters. *)
Definition keeps_pose (f : State D -> State D) : Prop :=
  forall s, nFrames (f s) = nFrames s
            /\ static_part (f s) = static_part s
            /\ pose_part (f s) = pose_part s.

(** A step keeps the frame count and what is outside the data. *)
Definition keeps_frame (f : State D -> State D) : Prop :=
  forall s, nFrames (f s) = nFrames s /\ static_part (f s) = static_part s.

Lemma keeps_pose_frame f : keeps_pose f -> keeps_frame f.
Proof. intros H s. destruct (H s) as (? & ? & ?). auto. Qed.

Lemma for_range_invariant {S : Type} (P : S -> Prop) (body : Z -> S -> S) :
  (forall i s, P s -> P (body i s)) ->
  forall n i s, P s -> P (for_range n i body s).
Proof.
  intros Hbody n. induction n as [|n IH]; intros i s Hs; cbn [for_range].
  - exact Hs.
  - apply IH. apply Hbody. exact Hs.
Qed.

(** Case analysis on every test the goal is stuck on. *)
Ltac split_tests :=
  repeat match goal with
         | |- context [if ?c then _ else _] => destruct c
         end.

Lemma slice_grip_force_keeps sl : keeps_pose (slice_grip_force sl).
Proof. intros s. unfold slice_grip_force. cbn. auto. Qed.

Lemma slice_normal_forces_keeps sl : keeps_pose (slice_normal_forces sl).
Proof.
  intros s. unfold slice_normal_forces, DexAnalogMixin.FilterNormalForce.
  cbn. split_tests; cbn; auto.
Qed.

Lemma slice_load_force_keeps sl : keeps_pose (slice_load_force sl).
Proof. intros s. unfold slice_load_force. cbn. auto. Qed.

Lemma slice_acceleration_keeps sl : keeps_pose (slice_acceleration sl).
Proof. intros s. unfold slice_acceleration. cbn. auto. Qed.

Lemma keeps_pose_compose f g : keeps_pose f -> keeps_pose g -> keeps_pose (fun s => g (f s)).
Proof.
  intros Hf Hg s. destruct (Hf s) as (F1 & F2 & F3). destruct (Hg (f s)) as (G1 & G2 & G3).
  repeat split; congruence.
Qed.

Lemma keeps_pose_for_range (body : Z -> State D -> State D) :
  (forall i, keeps_pose (body i)) -> forall n i, keeps_pose (for_range n i body).
Proof.
  intros Hbody n i s.
  apply (for_range_invariant
           (fun s' => nFrames s' = nFrames s /\ static_part s' = static_part s
                      /\ pose_part s' = pose_part s)).
  - intros j s' (H1 & H2 & H3). destruct (Hbody j s') as (B1 & B2 & B3).
    repeat split; congruence.
  - auto.
Qed.

Lemma slice_center_of_pressure_keeps sl : keeps_pose (slice_center_of_pressure sl).
Proof.
  intros s. unfold slice_center_of_pressure.
  apply keeps_pose_for_range. intros ati s'.
  unfold DexAnalogMixin.ComputeCoP. split_tests; cbn; auto.
Qed.

Lemma mark_markers_keeps sl first last offset :
  keeps_pose (fun s => fst (mark_markers sl first last offset s)).
Proof.
  intros s. unfold mark_markers.
  apply (for_range_invariant
           (fun p : State D * Z =>
              nFrames (fst p) = nFrames s /\ static_part (fst p) = static_part s
              /\ pose_part (fst p) = pose_part s)).
  - intros mrk [s' count] (H1 & H2 & H3). cbn [fst] in *.
    split_tests; cbn [fst]; cbn; auto.
  - cbn. auto.
Qed.

Lemma slice_visibility_keeps sl : keeps_pose (slice_visibility sl).
Proof.
  intros s. unfold slice_visibility.
  pose proof (mark_markers_keeps sl MANIPULANDUM_FIRST_MARKER MANIPULANDUM_LAST_MARKER 1 s)
    as (A1 & A2 & A3).
  set (s1 := fst (mark_markers sl MANIPULANDUM_FIRST_MARKER MANIPULANDUM_LAST_MARKER 1 s))
    in *.
  set (s2 := store_ManipulandumVisibility (nFrames s) _ s1).
  assert (B : nFrames s2 = nFrames s /\ static_part s2 = static_part s
              /\ pose_part s2 = pose_part s) by (subst s2; cbn; auto).
  destruct B as (B1 & B2 & B3).
  pose proof (mark_markers_keeps sl FRAME_FIRST_MARKER FRAME_LAST_MARKER 3 s2)
    as (C1 & C2 & C3).
  destruct (mark_markers sl FRAME_FIRST_MARKER FRAME_LAST_MARKER 3 s2) as [s3 count3].
  cbn [fst] in *.
  set (s4 := store_FrameVisibility (nFrames s) _ s3).
  assert (E : nFrames s4 = nFrames s /\ static_part s4 = static_part s
              /\ pose_part s4 = pose_part s)
    by (subst s4; unfold static_part, pose_part in *; cbn; repeat split; congruence).
  destruct E as (E1 & E2 & E3).
  pose proof (mark_markers_keeps sl WRIST_FIRST_MARKER WRIST_LAST_MARKER 5 s4)
    as (F1 & F2 & F3).
  destruct (mark_markers sl WRIST_FIRST_MARKER WRIST_LAST_MARKER 5 s4) as [s5 count5].
  cbn [fst] in *. unfold static_part, pose_part in *. cbn. repeat split; congruence.
Qed.

Lemma slice_pose_keeps sl : keeps_frame (slice_pose sl).
Proof.
  intros s. unfold slice_pose.
  destruct (negb (manipulandumVisibility sl =? 0)); cbn; [|auto].
  match goal with |- context [_finite ?x] => destruct (_finite x) end; cbn; auto.
Qed.

(** A slice adds one frame and leaves alone what is outside the data. *)
Lemma decode_slice_frame rt slice s :
  nFrames (decode_slice rt slice s) = nFrames s + 1
  /\ static_part (decode_slice rt slice s) = static_part s.
Proof.
  unfold decode_slice.
  set (sl := dataSlice rt slice).
  destruct (slice_pose_keeps sl s) as (A1 & A2).
  set (s1 := slice_pose sl s) in *.
  destruct (slice_grip_force_keeps sl s1) as (B1 & B2 & _).
  set (s2 := slice_grip_force sl s1) in *.
  destruct (slice_normal_forces_keeps sl s2) as (C1 & C2 & _).
  set (s3 := slice_normal_forces sl s2) in *.
  destruct (slice_load_force_keeps sl s3) as (E1 & E2 & _).
  set (s4 := slice_load_force sl s3) in *.
  destruct (slice_center_of_pressure_keeps sl s4) as (F1 & F2 & _).
  set (s5 := slice_center_of_pressure sl s4) in *.
  destruct (slice_acceleration_keeps sl s5) as (G1 & G2 & _).
  set (s6 := slice_acceleration sl s5) in *.
  destruct (slice_visibility_keeps sl s6) as (H1 & H2 & _).
  set (s7 := slice_visibility sl s6) in *.
  unfold static_part in *. cbn. split; [lia | congruence].
Qed.

(** ** The stream break *)

Lemma same_frame_refl (b : Buffers D) i : same_frame b b i.
Proof. unfold same_frame. repeat split. Qed.

Lemma same_frame_trans (b1 b2 b3 : Buffers D) i :
  same_frame b1 b2 i -> same_frame b2 b3 i -> same_frame b1 b3 i.
Proof.
  unfold same_frame.
  intros (A1 & A2 & A3 & A4 & A5 & A6 & A7 & A8 & A9 & A10 & A11 & A12 & A13 & A14
          & A15 & A16 & A17)
         (B1 & B2 & B3 & B4 & B5 & B6 & B7 & B8 & B9 & B10 & B11 & B12 & B13 & B14
          & B15 & B16 & B17).
  repeat split; intros;
    first [ congruence | rewrite B6; apply A6 | rewrite B8; apply A8
          | rewrite B13; apply A13 ].
Qed.

Lemma blank_frame_same (b b' : Buffers D) i :
  blank_frame b i -> same_frame b b' i -> blank_frame b' i.
Proof.
  unfold blank_frame, same_frame.
  intros (A1 & A2 & A3 & A4 & A5 & A6 & A7 & A8 & A9 & A10 & A11 & A12)
         (B1 & B2 & B3 & B4 & B5 & B6 & B7 & B8 & B9 & B10 & B11 & B12 & B13 & B14
          & B15 & B16 & B17).
  repeat split; intros;
    first [ congruence | rewrite B6; assumption | rewrite B13; apply A7; assumption ].
Qed.

(** Decides the index comparisons left by [array_set]. *)
Ltac index_cases :=
  repeat match goal with
         | |- context [(?a =? ?b)%Z] =>
             let e := fresh "e" in
             destruct (Z.eqb_spec a b) as [e | e];
             [try rewrite e; cbv iota; try reflexivity; try contradiction
             | cbv iota; try solve [exfalso; apply e; reflexivity]]
         end.

Lemma array_set_eq {A : Type} (a : array A) i v : array_set a i v i = v.
Proof. unfold array_set. rewrite Z.eqb_refl. reflexivity. Qed.

Lemma array_set_neq {A : Type} (a : array A) i j v : j <> i -> array_set a i v j = a j.
Proof. unfold array_set. intros H. apply Z.eqb_neq in H. rewrite H. reflexivity. Qed.

Lemma array_set2_get {A : Type} (a : array (array A)) i j v x y :
  array_set a i (array_set (a i) j v) x y
  = if (x =? i) && (y =? j) then v else a x y.
Proof.
  unfold array_set. destruct (Z.eqb_spec x i) as [-> | _]; [|reflexivity].
  destruct (y =? j); reflexivity.
Qed.

(** The loop that blanks the markers of frame [n]: the markers of the range
    hold [v], nothing else changes. *)
Lemma blank_markers_spec (n : Z) (v : D) (count : nat) (first : Z) (s : State D) :
  let s' := for_range count first (fun mrk s0 => store_MarkerVisibility n mrk v s0) s in
  s' = upd_buf (set_MarkerVisibility (MarkerVisibility (buf s'))) s
  /\ (forall mrk, first <= mrk < first + Z.of_nat count ->
        MarkerVisibility (buf s') n mrk = v)
  /\ (forall mrk, ~ (first <= mrk < first + Z.of_nat count) ->
        MarkerVisibility (buf s') n mrk = MarkerVisibility (buf s) n mrk)
  /\ (forall i, i <> n -> MarkerVisibility (buf s') i = MarkerVisibility (buf s) i).
Proof.
  revert first s. induction count as [|count IH]; intros first s; cbn [for_range].
  - cbv zeta. split; [|split; [|split]].
    + destruct s as [nf b mvs d root c1 alert c2 f]. destruct b. reflexivity.
    + intros mrk Hmrk. lia.
    + reflexivity.
    + reflexivity.
  - specialize (IH (first + 1) (store_MarkerVisibility n first v s)).
    cbv zeta in IH |- *. destruct IH as (E & Hin & Hout & Hrow).
    set (s' := for_range count (first + 1) _ _) in *.
    split; [|split; [|split]].
    + transitivity (upd_buf (set_MarkerVisibility (MarkerVisibility (buf s')))
                      (store_MarkerVisibility n first v s)); [exact E|].
      destruct s as [nf b mvs d root c1 alert c2 f]. destruct b. reflexivity.
    + intros mrk Hmrk. destruct (Z.eq_dec mrk first) as [-> | Hne].
      * rewrite Hout by lia. cbn. rewrite !array_set_eq. reflexivity.
      * apply Hin. lia.
    + intros mrk Hmrk. rewrite Hout by lia. cbn.
      rewrite array_set_eq, array_set_neq by lia. reflexivity.
    + intros i Hi. rewrite Hrow by exact Hi. cbn. rewrite array_set_neq by exact Hi.
      reflexivity.
Qed.

Lemma blanked_refl n (s : State D) : blanked n s s [].
Proof.
  unfold blanked.
  split; [reflexivity|]. split; [reflexivity|]. split; [reflexivity|]. split.
  - intros i _. apply same_frame_refl.
  - intros c [].
Qed.

Lemma blanked_step n c0 (f : State D -> State D) s s' cells :
  blanking_step n c0 f -> blanked n s s' cells -> blanked n s (f s') (c0 :: cells).
Proof.
  intros Hf (A1 & A2 & A3 & A4 & A5). destruct (Hf s') as (B1 & B2 & B3 & B4 & B5 & B6).
  unfold blanked.
  split; [congruence|]. split; [congruence|]. split; [congruence|]. split.
  - intros i Hi. exact (same_frame_trans (A4 i Hi) (B4 i Hi)).
  - intros c [<- | Hc]; [exact B6 | apply B5, A5, Hc].
Qed.

(** Proves that a store of the missing sentinel at frame [n] is a blanking
    step: the state is opened up, the store computed, and each cell read
    back through the array lemmas. *)
Ltac blanking_store :=
  let s := fresh "s" in
  intros s; destruct s as [nf b mvs d root c1 alert c2 f]; destruct b;
  split; [reflexivity|]; split; [reflexivity|]; split; [reflexivity|];
  split; [|split];
  [ let i := fresh "i" in
    let Hi := fresh "Hi" in
    intros i Hi; unfold same_frame; cbn;
    rewrite ?(array_set_neq _ _ Hi);
    repeat split; intros;
    rewrite ?array_set2_get, ?(proj2 (Z.eqb_neq _ _) Hi), ?andb_false_r;
    reflexivity
  | let c := fresh "c" in
    let Hc := fresh "Hc" in
    intros c Hc; destruct c; cbn in Hc |- *;
    rewrite ?array_set_eq, ?array_set2_get, ?Z.eqb_refl, ?andb_true_r;
    try reflexivity; try exact Hc;
    match goal with
    | |- context [(?a =? ?b)%Z] => destruct (a =? b); [reflexivity | exact Hc]
    end
  | cbn; rewrite ?array_set_eq, ?array_set2_get, ?Z.eqb_refl; reflexivity ].

Lemma blanking_ManipulandumPosition n :
  blanking_step n cPosition (store_ManipulandumPosition (D := D) n missingVector).
Proof. blanking_store. Qed.

Lemma blanking_ManipulandumRotations n :
  blanking_step n cRotations (store_ManipulandumRotations (D := D) n missingVector).
Proof. blanking_store. Qed.

Lemma blanking_GripForce n :
  blanking_step n cGripForce (store_GripForce (D := D) n MISSING_DOUBLE).
Proof. blanking_store. Qed.

Lemma blanking_NormalForce_left n :
  blanking_step n cNormalLeft (store_NormalForce (D := D) LEFT_ATI n MISSING_DOUBLE).
Proof. blanking_store. Qed.

Lemma blanking_NormalForce_right n :
  blanking_step n cNormalRight (store_NormalForce (D := D) RIGHT_ATI n MISSING_DOUBLE).
Proof. blanking_store. Qed.

Lemma blanking_Acceleration n :
  blanking_step n cAcceleration (store_Acceleration (D := D) n missingVector).
Proof. blanking_store. Qed.

Lemma blanking_ManipulandumVisibility n :
  blanking_step n cManipulandumVisibility
    (store_ManipulandumVisibility (D := D) n MISSING_DOUBLE).
Proof. blanking_store. Qed.

Lemma blanking_FrameVisibility n :
  blanking_step n cFrameVisibility (store_FrameVisibility (D := D) n MISSING_DOUBLE).
Proof. blanking_store. Qed.

Lemma blanking_WristVisibility n :
  blanking_step n cWristVisibility (store_WristVisibility (D := D) n MISSING_DOUBLE).
Proof. blanking_store. Qed.

Lemma blanking_PacketReceived n :
  blanking_step n cPacketReceived (store_PacketReceived (D := D) n MISSING_DOUBLE).
Proof. blanking_store. Qed.

Lemma blanking_RealMarkerTime n :
  blanking_step n cRealMarkerTime (store_RealMarkerTime (D := D) n MISSING_DOUBLE).
Proof. blanking_store. Qed.

(** The marker loop over any range: what it writes and what it keeps. *)
Lemma blank_markers_step (n : Z) (count : nat) (first : Z) (s : State D) :
  let s' := for_range count first
              (fun mrk s0 => store_MarkerVisibility n mrk MISSING_DOUBLE s0) s in
  nFrames s' = nFrames s
  /\ static_part s' = static_part s
  /\ dex s' = dex s
  /\ (forall i, i <> n -> same_frame (buf s) (buf s') i)
  /\ (forall c, c <> cMarkers -> cell_blank c (buf s) n -> cell_blank c (buf s') n)
  /\ (forall mrk, first <= mrk < first + Z.of_nat count ->
        MarkerVisibility (buf s') n mrk = MISSING_DOUBLE)
  /\ (forall mrk, ~ (first <= mrk < first + Z.of_nat count) ->
        MarkerVisibility (buf s') n mrk = MarkerVisibility (buf s) n mrk).
Proof.
  destruct (blank_markers_spec n MISSING_DOUBLE count first s)
    as (E & Hin & Hout & Hrow).
  cbv zeta.
  remember (for_range count first _ s) as s2 eqn:Heqs2. clear Heqs2.
  remember (MarkerVisibility (buf s2)) as mv eqn:Heqmv. clear Heqmv. subst s2.
  destruct s as [nf b mvs d root c1 alert c2 f]. destruct b.
  cbn in Hin, Hout, Hrow.
  split; [reflexivity|]. split; [reflexivity|]. split; [reflexivity|].
  split; [|split; [|split]].
  - intros i Hi. unfold same_frame. cbn. rewrite (Hrow i Hi). repeat split.
  - intros c Hne Hc. destruct c; cbn in Hc |- *; try exact Hc. contradiction.
  - exact Hin.
  - exact Hout.
Qed.

Lemma blanking_markers n :
  blanking_step n cMarkers
    (for_range (Z.to_nat CODA_MARKERS) 0
       (fun mrk s0 => store_MarkerVisibility (D := D) n mrk MISSING_DOUBLE s0)).
Proof.
  intros s.
  destruct (blank_markers_step n (Z.to_nat CODA_MARKERS) 0 s)
    as (A1 & A2 & A3 & A4 & A5 & A6 & _).
  split; [exact A1|]. split; [exact A2|]. split; [exact A3|]. split; [exact A4|].
  assert (Hm : cell_blank cMarkers
                 (buf (for_range (Z.to_nat CODA_MARKERS) 0
                         (fun mrk s0 => store_MarkerVisibility n mrk MISSING_DOUBLE s0)
                         s)) n).
  { intros mrk Hmrk. apply A6. exact Hmrk. }
  split; [|exact Hm].
  intros c Hc. destruct c; try (apply A5; [discriminate | exact Hc]). exact Hm.
Qed.

(** Peels the outermost write off the state of the goal. *)
Ltac peel lemma :=
  match goal with
  | |- blanked ?n ?s (?f ?s') _ =>
      refine (@blanked_step n _ f s s' _ (lemma n) _)
  end.

(** One blank frame: the frame written is blank, every other frame is as
    before, the frame count grows by one, the filters are not touched. *)
Lemma insert_blank_frame_spec (s : State D) :
  let s' := insert_blank_frame s in
  nFrames s' = nFrames s + 1
  /\ static_part s' = static_part s
  /\ dex s' = dex s
  /\ blank_frame (buf s') (nFrames s)
  /\ (forall i, i <> nFrames s -> same_frame (buf s) (buf s') i).
Proof.
  cbv zeta. unfold insert_blank_frame.
  match goal with
  | |- context [set_nFrames _ ?x] =>
      assert (H : exists cells, blanked (nFrames s) s x cells
                                /\ forall c, In c cells)
  end.
  { eexists. split.
    - peel blanking_RealMarkerTime. peel blanking_PacketReceived.
      peel blanking_WristVisibility. peel blanking_FrameVisibility.
      peel blanking_ManipulandumVisibility. peel blanking_markers.
      peel blanking_Acceleration.
      peel blanking_NormalForce_right. peel blanking_NormalForce_right.
      peel blanking_NormalForce_left. peel blanking_NormalForce_left.
      peel blanking_GripForce. peel blanking_GripForce.
      peel blanking_ManipulandumRotations. peel blanking_ManipulandumPosition.
      apply blanked_refl.
    - intros c. destruct c; cbn; tauto. }
  revert H.
  match goal with
  | |- context [set_nFrames _ ?x] => generalize x
  end.
  intros s1 (cells & (B1 & B2 & B3 & B4 & B5) & Hall).
  rewrite B1. unfold static_part in *. cbn.
  split; [reflexivity|]. split; [exact B2|]. split; [exact B3|]. split.
  - pose proof (fun c => B5 c (Hall c)) as Hc. unfold blank_frame.
    exact (conj (Hc cPosition) (conj (Hc cRotations) (conj (Hc cGripForce)
           (conj (Hc cNormalLeft) (conj (Hc cNormalRight) (conj (Hc cAcceleration)
           (conj (Hc cMarkers) (conj (Hc cManipulandumVisibility)
           (conj (Hc cFrameVisibility) (conj (Hc cWristVisibility)
           (conj (Hc cPacketReceived) (Hc cRealMarkerTime)))))))))))).
  - exact B4.
Qed.

(** The stream-break loop entered with [remaining] iterations left and room
    for at least one frame: it inserts [remaining] blank frames, or as many
    as keep the frame count below MAX_FRAMES - 1 if that is fewer. *)
Lemma insert_stream_break_spec (remaining : nat) (s : State D) :
  nFrames s < MAX_FRAMES ->
  let s' := insert_stream_break remaining s in
  let inserted := Z.min (Z.of_nat remaining) (MAX_FRAMES - 1 - nFrames s) in
  nFrames s' = nFrames s + inserted
  /\ static_part s' = static_part s
  /\ dex s' = dex s
  /\ (forall i, nFrames s <= i < nFrames s + inserted -> blank_frame (buf s') i)
  /\ (forall i, ~ (nFrames s <= i < nFrames s + inserted) ->
        same_frame (buf s) (buf s') i).
Proof.
  revert s. induction remaining as [|remaining IH]; intros s Hroom;
    cbn [insert_stream_break].
  - cbv zeta. replace (Z.min (Z.of_nat 0) (MAX_FRAMES - 1 - nFrames s)) with 0 by lia.
    split; [lia|]. split; [reflexivity|]. split; [reflexivity|]. split.
    + intros i Hi. lia.
    + intros i _. apply same_frame_refl.
  - destruct (nFrames s <? MAX_FRAMES - 1) eqn:Hlt.
    + apply Z.ltb_lt in Hlt.
      destruct (insert_blank_frame_spec s) as (A1 & A2 & A3 & A4 & A5).
      specialize (IH (insert_blank_frame s)).
      cbv zeta in IH |- *. rewrite A1 in IH.
      destruct IH as (B1 & B2 & B3 & B4 & B5); [lia|].
      replace (Z.min (Z.of_nat (S remaining)) (MAX_FRAMES - 1 - nFrames s))
        with (1 + Z.min (Z.of_nat remaining) (MAX_FRAMES - 1 - (nFrames s + 1)))
        by lia.
      split; [lia|]. split; [congruence|]. split; [congruence|]. split.
      * intros i Hi. destruct (Z.eq_dec i (nFrames s)) as [-> | Hne].
        -- apply (blank_frame_same A4). apply B5. lia.
        -- apply B4. lia.
      * intros i Hi. apply (same_frame_trans (A5 i ltac:(lia))). apply B5. lia.
    + apply Z.ltb_ge in Hlt. cbv zeta.
      replace (Z.min (Z.of_nat (S remaining)) (MAX_FRAMES - 1 - nFrames s)) with 0 by lia.
      split; [lia|]. split; [reflexivity|]. split; [reflexivity|]. split.
      * intros i Hi. lia.
      * intros i _. apply same_frame_refl.
Qed.

(** The slices of a packet: one frame per slice until the buffers are full;
    what is outside the data is left alone. *)
Lemma decode_slices_frame rt (remaining : nat) (slice : Z) (s : State D) :
  nFrames s <= MAX_FRAMES ->
  nFrames (decode_slices rt remaining slice s)
    = Z.min MAX_FRAMES (nFrames s + Z.of_nat remaining)
  /\ static_part (decode_slices rt remaining slice s) = static_part s.
Proof.
  revert slice s. induction remaining as [|remaining IH]; intros slice s Hle;
    cbn [decode_slices].
  - split; [lia | reflexivity].
  - destruct (nFrames s <? MAX_FRAMES) eqn:Hlt.
    + apply Z.ltb_lt in Hlt.
      destruct (decode_slice_frame rt slice s) as (A1 & A2).
      destruct (IH (slice + 1) (decode_slice rt slice s)) as (B1 & B2); [lia|].
      rewrite B1, B2, A1, A2. split; [lia | reflexivity].
    + apply Z.ltb_ge in Hlt. split; [lia | reflexivity].
Qed.

(** C1.  For a packet ingested while the buffers are not full: when the
    packet timestamp exceeds the previous one by more than
    PACKET_STREAM_BREAK_THRESHOLD, the decoder first inserts MAX_PLOT_STEP
    (8) blank frames, or only as many as keep the frame count at most
    MAX_FRAMES - 1 if that is fewer; otherwise it inserts none.  In each
    inserted frame the position, rotation, grip force, both normal forces,
    acceleration, marker, manipulandum, frame and wrist visibility, packet
    received and marker time hold the missing sentinel.  No other frame and
    no filter state is changed, and the slices of the packet are decoded
    after the insertion, from the frame that follows. *)
Theorem stream_break_inserts (rt : GripRealtimeDataInfo D) (previous : D) (s : State D) :
  nFrames s < MAX_FRAMES ->
  let inserted :=
    if (packetTimestamp rt - previous >? dlit PACKET_STREAM_BREAK_THRESHOLD)%dbl
    then Z.min MAX_PLOT_STEP (MAX_FRAMES - 1 - nFrames s)
    else 0 in
  let s1 := stream_break rt previous s in
  ingest_packet rt previous s = decode_slices rt (Z.to_nat RT_SLICES_PER_PACKET) 0 s1
  /\ nFrames s1 = nFrames s + inserted
  /\ (forall i, nFrames s <= i < nFrames s + inserted -> blank_frame (buf s1) i)
  /\ (forall i, ~ (nFrames s <= i < nFrames s + inserted) ->
        same_frame (buf s) (buf s1) i)
  /\ dex s1 = dex s
  /\ static_part s1 = static_part s.
Proof.
  intros Hroom. cbv zeta. split; [reflexivity|]. unfold stream_break.
  destruct (packetTimestamp rt - previous >? dlit PACKET_STREAM_BREAK_THRESHOLD)%dbl.
  - destruct (insert_stream_break_spec (Z.to_nat MAX_PLOT_STEP) s Hroom)
      as (A1 & A2 & A3 & A4 & A5).
    change (Z.of_nat (Z.to_nat MAX_PLOT_STEP)) with MAX_PLOT_STEP in *.
    auto.
  - split; [lia|]. split; [intros i Hi; lia|]. split; [|auto].
    intros i _. apply same_frame_refl.
Qed.

(** The stream-break loop leaves the load force, its magnitude, the centers
    of pressure and the analog time as they were, also in the frames it
    inserts. *)
Lemma for_range_unwritten (body : Z -> State D -> State D) :
  (forall i s, unwritten_part (body i s) = unwritten_part s) ->
  forall count first s, unwritten_part (for_range count first body s) = unwritten_part s.
Proof.
  intros Hbody count. induction count as [|count IH]; intros first s; cbn [for_range].
  - reflexivity.
  - rewrite IH. apply Hbody.
Qed.

Lemma insert_blank_frame_unwritten (s : State D) :
  unwritten_part (insert_blank_frame s) = unwritten_part s.
Proof.
  unfold insert_blank_frame. cbv zeta.
  repeat match goal with
         | |- unwritten_part (?f ?x) = _ =>
             let H := fresh "H" in
             assert (H : forall y, unwritten_part (f y) = unwritten_part y)
               by (intros; reflexivity);
             rewrite (H x); clear H
         end.
  reflexivity.
Qed.

Lemma insert_stream_break_unwritten (remaining : nat) (s : State D) :
  unwritten_part (insert_stream_break remaining s) = unwritten_part s.
Proof.
  revert s. induction remaining as [|remaining IH]; intros s; cbn [insert_stream_break].
  - reflexivity.
  - destruct (nFrames s <? MAX_FRAMES - 1); [|reflexivity].
    rewrite IH. apply insert_blank_frame_unwritten.
Qed.

End IngestionFacts.

(* ================================================================== *)
(** * Runs on sample data *)

Section SampleRuns.
Import VectorsMixin GripPackets GripMMI ExactReal Sample.
Local Open Scope R_scope.

Lemma sample_MISSING_DOUBLE_positive : 0 < MISSING_DOUBLE.
Proof. cbn. unfold Q2R. cbn. lra. Qed.

(** A packet stamped 5 after a packet stamped 0 is a break in the stream. *)
Lemma sample_break_detected (visible : Z) (s : State R) :
  stream_break (sample_rt 5 visible) 0 s = insert_stream_break (Z.to_nat MAX_PLOT_STEP) s.
Proof.
  unfold stream_break.
  rewrite dlt_true; [reflexivity|].
  cbn. unfold Q2R. cbn. lra.
Qed.

(** The stream-break insertion against C1, on a packet stamped 5 that follows
    a packet stamped 0.  With empty buffers the loop inserts MAX_PLOT_STEP = 8
    frames, not PACKET_STREAM_BREAK_INSERT_SAMPLES = 10, and in the first of
    them the analog time, the load force and its magnitude keep the old
    content of the buffers (0 here), not the missing sentinel.  With room for
    exactly 8 more frames the loop inserts 7. *)
Lemma stream_break_counterexample :
  let rt := sample_rt 5 1 in
  let s1 := stream_break rt 0 (sample_state 0) in
  let s2 := stream_break rt 0 (sample_state (MAX_FRAMES - 8)) in
  (nFrames s1 = 8 /\ PACKET_STREAM_BREAK_INSERT_SAMPLES = 10)%Z
  /\ RealAnalogTime (buf s1) 0%Z <> MISSING_DOUBLE
  /\ LoadForceMagnitude (buf s1) 0%Z <> MISSING_DOUBLE
  /\ LoadForce (buf s1) 0%Z <> missingVector
  /\ (nFrames s2 = MAX_FRAMES - 8 + 7)%Z.
Proof.
  cbv zeta. rewrite !sample_break_detected.
  pose proof sample_MISSING_DOUBLE_positive as Hpos.
  pose proof (insert_stream_break_unwritten (Z.to_nat MAX_PLOT_STEP) (sample_state 0))
    as Hkept.
  pose proof (f_equal (fun p => fst (fst (fst (fst (fst p))))) Hkept) as HLoad.
  pose proof (f_equal (fun p => snd (fst (fst (fst (fst p))))) Hkept) as HMagnitude.
  pose proof (f_equal (fun p => snd (fst (fst p))) Hkept) as HTime.
  unfold unwritten_part in HLoad, HMagnitude, HTime.
  cbn beta iota delta [fst snd] in HLoad, HMagnitude, HTime.
  rewrite HLoad, HMagnitude, HTime.
  split; [|split; [|split; [|split]]].
  - split; [|reflexivity].
    apply (insert_stream_break_spec (Z.to_nat MAX_PLOT_STEP) (sample_state 0)).
    reflexivity.
  - cbn [sample_state buf sample_buffers RealAnalogTime]. lra.
  - cbn [sample_state buf sample_buffers LoadForceMagnitude]. lra.
  - cbn [sample_state buf sample_buffers LoadForce]. unfold missingVector.
    intros H. injection H as H _ _. lra.
  - apply (insert_stream_break_spec (Z.to_nat MAX_PLOT_STEP)
             (sample_state (MAX_FRAMES - 8))).
    reflexivity.
Qed.

(** C1 on the sample packet: from empty buffers the break inserts blank
    frames 0 to 7 and the slices are decoded from frame 8. *)
Lemma stream_break_inserts_witness :
  let rt := sample_rt 5 1 in
  let s := sample_state 0 in
  (nFrames s < MAX_FRAMES)%Z
  /\ (nFrames (stream_break rt 0%R s) = 8)%Z
  /\ blank_frame (buf (stream_break rt 0 s)) 7%Z.
Proof.
  cbv zeta.
  split; [reflexivity|].
  destruct (stream_break_inserts (sample_rt 5 1) 0 (sample_state 0))
    as (_ & Hcount & Hblank & _); [reflexivity|].
  rewrite dlt_true in Hcount, Hblank by (cbn; unfold Q2R; cbn; lra).
  split; [exact Hcount|].
  apply Hblank. split; [apply Z.leb_le | apply Z.ltb_lt]; reflexivity.
Defined.

(** C8 on a cache file that never opens: five attempts, then the exit. *)
Lemma GetGripRT_open_retries_witness :
  exists trace,
    GetGripRT (sample_env (fun _ => (-1)%Z) []) (sample_state 0)
    = (Exited (-1), ResetBuffers (sample_state 0), trace)
    /\ Z.of_nat (List.length (filter is_open trace)) = 5%Z.
Proof.
  destruct (GetGripRT_open_retries (sample_env (fun _ => (-1)%Z) []) (sample_state 0)
              eq_refl) as [Hfail _].
  destruct Hfail as (trace & Hrun & _ & Hcount).
  - intros k _. cbn. lia.
  - exists trace. split; [exact Hrun | exact Hcount].
Defined.

End SampleRuns.

(* ================================================================== *)
(** * Properties of VectorsMixin over exact reals *)

Section VectorsMixinFacts.
Import VectorsMixin ExactReal.
Local Open Scope R_scope.

Lemma Q2R_half : Q2R 0.5 = / 2.
Proof. unfold Q2R. cbn. lra. Qed.

Lemma Q2R_2 : Q2R 2.0 = 2.
Proof. unfold Q2R. cbn. lra. Qed.

Lemma Q2R_minus_1 : Q2R (-1.0) = -1.
Proof. unfold Q2R. cbn. lra. Qed.

(** Unfolds the operations of the instances [R_DoubleOps] and [R_Libm] and
    the literals 0.0, 1.0, 0.5, 2.0 and -1.0. *)
Ltac real_ops :=
  cbv [dadd dsub dmul ddiv dneg dsqrt dfabs to_float of_int dlit dsin dcos datan2
       R_DoubleOps R_Libm] in *;
  rewrite ?Q2R_0, ?Q2R_1, ?Q2R_half, ?Q2R_2, ?Q2R_minus_1 in *.

(** Opens a matrix, a vector or a quaternion into its components. *)
Ltac open_matrix m :=
  let a := fresh m "xx" in let b := fresh m "xy" in let c := fresh m "xz" in
  let d := fresh m "yx" in let e := fresh m "yy" in let f := fresh m "yz" in
  let g := fresh m "zx" in let h := fresh m "zy" in let i := fresh m "zz" in
  destruct m as [[a b c] [d e f] [g h i]].

Lemma Determinant_transpose (m : Matrix3x3 R) :
  Determinant (TransposeMatrix m) = Determinant m.
Proof. open_matrix m. unfold Determinant, TransposeMatrix. cbn. real_ops. ring. Qed.

Lemma Determinant_multiply (a b : Matrix3x3 R) :
  Determinant (MultiplyMatrices a b) = Determinant a * Determinant b.
Proof.
  open_matrix a. open_matrix b. unfold Determinant, MultiplyMatrices. cbn. real_ops. ring.
Qed.

Lemma Determinant_identity : Determinant (identityMatrix (D := R)) = 1.
Proof. unfold Determinant, identityMatrix. cbn. real_ops. ring. Qed.

(** X1.  The determinant is multiplicative over MultiplyMatrices, and
    TransposeMatrix does not change it. *)
Theorem Determinant_product (a b : Matrix3x3 R) :
  Determinant (MultiplyMatrices a b) = Determinant a * Determinant b
  /\ Determinant (TransposeMatrix a) = Determinant a.
Proof. split; [apply Determinant_multiply | apply Determinant_transpose]. Qed.

Lemma InvertMatrix_left (m : Matrix3x3 R) :
  Determinant m <> 0 -> MultiplyMatrices (fst (InvertMatrix m)) m = identityMatrix.
Proof.
  intros Hdet. open_matrix m.
  unfold InvertMatrix, MultiplyMatrices, ScaleMatrix, matrix_of, identityMatrix,
    Determinant in *.
  cbn in *. real_ops.
  f_equal; f_equal; field; exact Hdet.
Qed.

(** X2.  InvertMatrix returns the determinant of its argument, whatever the
    matrix; when that determinant is not zero, the matrix it writes is the
    two-sided inverse for MultiplyMatrices. *)
Theorem InvertMatrix_inverse (m : Matrix3x3 R) :
  snd (InvertMatrix m) = Determinant m
  /\ (Determinant m <> 0 ->
      MultiplyMatrices (fst (InvertMatrix m)) m = identityMatrix
      /\ MultiplyMatrices m (fst (InvertMatrix m)) = identityMatrix).
Proof.
  split; [reflexivity|].
  intros Hdet. split; [apply InvertMatrix_left; exact Hdet|].
  open_matrix m.
  unfold InvertMatrix, MultiplyMatrices, ScaleMatrix, matrix_of, identityMatrix,
    Determinant in *.
  cbn in *. real_ops.
  f_equal; f_equal; field; exact Hdet.
Qed.

(** A matrix of determinant 2: the determinant is returned, and the matrix
    written is a left inverse. *)
Lemma InvertMatrix_inverse_witness :
  let m := mkMatrix3x3 (mkVector3 2 0 0) (mkVector3 0 1 0) (mkVector3 1 0 1) in
  snd (InvertMatrix m) = 2
  /\ MultiplyMatrices (fst (InvertMatrix m)) m = identityMatrix.
Proof.
  cbv zeta.
  assert (H : Determinant (mkMatrix3x3 (mkVector3 2 0 0) (mkVector3 0 1 0)
                             (mkVector3 1 0 1)) = 2).
  { unfold Determinant. cbn. lra. }
  destruct (InvertMatrix_inverse
              (mkMatrix3x3 (mkVector3 2 0 0) (mkVector3 0 1 0) (mkVector3 1 0 1)))
    as [Hd Hinv].
  split; [rewrite Hd; exact H|].
  apply Hinv. rewrite H. lra.
Defined.

(** X3.  TransposeMatrix undoes itself, swaps the factors of a product, and the
    identity matrix is neutral for MultiplyMatrices on both sides. *)
Theorem TransposeMatrix_product (a b : Matrix3x3 R) :
  TransposeMatrix (TransposeMatrix a) = a
  /\ TransposeMatrix (MultiplyMatrices a b)
     = MultiplyMatrices (TransposeMatrix b) (TransposeMatrix a)
  /\ MultiplyMatrices identityMatrix a = a
  /\ MultiplyMatrices a identityMatrix = a.
Proof.
  open_matrix a. open_matrix b.
  unfold TransposeMatrix, MultiplyMatrices, matrix_of, identityMatrix. cbn. real_ops.
  split; [reflexivity|]. split; [|split]; f_equal; f_equal; ring.
Qed.

Ltac open_vector v :=
  let a := fresh v "x" in let b := fresh v "y" in let c := fresh v "z" in
  destruct v as [a b c].

Ltac open_quaternion q :=
  let a := fresh q "x" in let b := fresh q "y" in let c := fresh q "z" in
  let d := fresh q "m" in
  destruct q as [a b c d].

Lemma VectorNorm_sqr (v : Vector3 R) : VectorNorm v * VectorNorm v = DotProduct v v.
Proof.
  open_vector v. unfold VectorNorm, DotProduct. cbn. real_ops.
  apply sqrt_sqrt. nra.
Qed.

Lemma VectorNorm_nonneg (v : Vector3 R) : 0 <= VectorNorm v.
Proof. unfold VectorNorm. real_ops. apply sqrt_pos. Qed.

(** X4.  The vector computed by ComputeCrossProduct is perpendicular to both
    arguments, changes sign when they are swapped, and its squared norm is
    |a|^2 |b|^2 - (a.b)^2. *)
Theorem ComputeCrossProduct_perpendicular (a b : Vector3 R) :
  DotProduct (ComputeCrossProduct a b) a = 0
  /\ DotProduct (ComputeCrossProduct a b) b = 0
  /\ ComputeCrossProduct b a = ScaleVector (ComputeCrossProduct a b) (-1)
  /\ VectorNorm (ComputeCrossProduct a b) * VectorNorm (ComputeCrossProduct a b)
     = DotProduct a a * DotProduct b b - DotProduct a b * DotProduct a b.
Proof.
  split; [|split; [|split]].
  - open_vector a. open_vector b. unfold DotProduct, ComputeCrossProduct. cbn. real_ops. ring.
  - open_vector a. open_vector b. unfold DotProduct, ComputeCrossProduct. cbn. real_ops. ring.
  - open_vector a. open_vector b. unfold ScaleVector, ComputeCrossProduct. cbn. real_ops.
    f_equal; ring.
  - rewrite VectorNorm_sqr.
    open_vector a. open_vector b. unfold DotProduct, ComputeCrossProduct. cbn. real_ops. ring.
Qed.

Lemma NormalizeVector_norm (v : Vector3 R) :
  VectorNorm v <> 0 -> VectorNorm (NormalizeVector v) = 1.
Proof.
  intros Hn.
  pose proof (VectorNorm_sqr v) as Hsq.
  assert (Hrad : DotProduct (NormalizeVector v) (NormalizeVector v) = 1).
  { transitivity (DotProduct v v / (VectorNorm v * VectorNorm v)).
    - unfold NormalizeVector. generalize (VectorNorm v) Hn. intros n Hn'.
      open_vector v. unfold DotProduct, ScaleVector. cbn. real_ops. field. exact Hn'.
    - rewrite Hsq. field. rewrite <- Hsq. nra. }
  rewrite <- VectorNorm_sqr in Hrad.
  pose proof (VectorNorm_nonneg (NormalizeVector v)) as Hpos'.
  rewrite <- (sqrt_square _ Hpos'), Hrad. apply sqrt_1.
Qed.

(** Over exact reals with the cast left out: NormalizeVector applied to a vector whose norm is not zero gives a
    vector of norm 1 with the same direction: the argument is that vector
    scaled by the norm. *)
Lemma NormalizeVector_unit_real (v : Vector3 R) :
  VectorNorm v <> 0 ->
  VectorNorm (NormalizeVector v) = 1
  /\ ScaleVector (NormalizeVector v) (VectorNorm v) = v.
Proof.
  intros Hn. split; [apply NormalizeVector_norm; exact Hn|].
  unfold NormalizeVector. generalize (VectorNorm v) Hn. intros n Hn'.
  open_vector v. unfold ScaleVector. cbn. real_ops. f_equal; field; exact Hn'.
Qed.

(** The squared norm of a quaternion. *)
Definition quaternion_norm2 (q : Quaternion R) : R :=
  qM q * qM q + qX q * qX q + qY q * qY q + qZ q * qZ q.

(** X6.  NormalizeQuaternion applied to a quaternion that is not zero gives a
    quaternion of squared norm 1. *)
Theorem NormalizeQuaternion_unit (q : Quaternion R) :
  quaternion_norm2 q <> 0 -> quaternion_norm2 (NormalizeQuaternion q) = 1.
Proof.
  intros Hq.
  assert (Hpos : 0 <= quaternion_norm2 q).
  { unfold quaternion_norm2. nra. }
  pose proof (sqrt_sqrt _ Hpos) as Hsq.
  assert (Hn : sqrt (quaternion_norm2 q) <> 0).
  { intros H0. rewrite H0 in Hsq. lra. }
  transitivity (quaternion_norm2 q / (sqrt (quaternion_norm2 q) * sqrt (quaternion_norm2 q))).
  - unfold NormalizeQuaternion.
    change (dsqrt (qM q * qM q + qX q * qX q + qY q * qY q + qZ q * qZ q)%dbl)
      with (sqrt (quaternion_norm2 q)).
    generalize (sqrt (quaternion_norm2 q)) Hn. intros n Hn'.
    open_quaternion q. unfold quaternion_norm2. cbn. real_ops. field. exact Hn'.
  - rewrite Hsq. field. exact Hq.
Qed.

Lemma NormalizeQuaternion_unit_witness :
  quaternion_norm2 (mkQuaternion 1 2 2 4) <> 0
  /\ quaternion_norm2 (NormalizeQuaternion (mkQuaternion 1 2 2 4)) = 1.
Proof.
  assert (H : quaternion_norm2 (mkQuaternion 1 2 2 4) <> 0).
  { unfold quaternion_norm2. cbn. lra. }
  split; [exact H|].
  exact (@NormalizeQuaternion_unit _ H).
Defined.

(** The conjugate as RotateVector and AngleBetween build it, and a vector
    read as a quaternion with no scalar part. *)
Definition conjugate (q : Quaternion R) : Quaternion R :=
  with_vector_part q (ScaleVector (vector_part q) (dlit (-1.0))).

Definition pure_quaternion (v : Vector3 R) : Quaternion R :=
  mkQuaternion (vX v) (vY v) (vZ v) (dlit 0.0).

Lemma MultiplyQuaternions_assoc (a b c : Quaternion R) :
  MultiplyQuaternions (MultiplyQuaternions a b) c
    = MultiplyQuaternions a (MultiplyQuaternions b c).
Proof.
  open_quaternion a. open_quaternion b. open_quaternion c.
  unfold MultiplyQuaternions. cbn. real_ops. f_equal; ring.
Qed.

(** X7.  MultiplyQuaternions is associative, nullQuaternion is neutral on both
    sides, and the squared norm of a product is the product of the squared
    norms. *)
Theorem MultiplyQuaternions_monoid (a b c : Quaternion R) :
  MultiplyQuaternions (MultiplyQuaternions a b) c
    = MultiplyQuaternions a (MultiplyQuaternions b c)
  /\ MultiplyQuaternions nullQuaternion a = a
  /\ MultiplyQuaternions a nullQuaternion = a
  /\ quaternion_norm2 (MultiplyQuaternions a b) = quaternion_norm2 a * quaternion_norm2 b.
Proof.
  split; [apply MultiplyQuaternions_assoc|].
  open_quaternion a. open_quaternion b.
  unfold MultiplyQuaternions, nullQuaternion, quaternion_norm2. cbn. real_ops.
  split; [|split]; try (f_equal; ring). ring.
Qed.

Lemma conjugate_product (a b : Quaternion R) :
  conjugate (MultiplyQuaternions a b) = MultiplyQuaternions (conjugate b) (conjugate a).
Proof.
  open_quaternion a. open_quaternion b.
  unfold conjugate, MultiplyQuaternions, with_vector_part, vector_part, ScaleVector.
  cbn. real_ops. f_equal; ring.
Qed.

(** RotateVector computes q v q*, whose scalar part is zero. *)
Lemma RotateVector_sandwich (q : Quaternion R) (v : Vector3 R) :
  pure_quaternion (RotateVector q v)
  = MultiplyQuaternions (MultiplyQuaternions q (pure_quaternion v)) (conjugate q).
Proof.
  open_quaternion q. open_vector v.
  unfold RotateVector, pure_quaternion, conjugate, MultiplyQuaternions, with_vector_part,
    vector_part, ScaleVector, CopyVector.
  cbn. real_ops. f_equal; ring.
Qed.

Lemma pure_quaternion_inj (v w : Vector3 R) :
  pure_quaternion v = pure_quaternion w -> v = w.
Proof.
  open_vector v. open_vector w. unfold pure_quaternion. cbn.
  intros H. injection H as -> -> ->. reflexivity.
Qed.

(** Over exact reals with the cast left out: RotateVector with nullQuaternion changes nothing, and rotating by a
    product of quaternions is rotating by the right factor and then by the
    left one. *)
Lemma RotateVector_composes_real (q1 q2 : Quaternion R) (v : Vector3 R) :
  RotateVector nullQuaternion v = v
  /\ RotateVector (MultiplyQuaternions q1 q2) v = RotateVector q1 (RotateVector q2 v).
Proof.
  split.
  - open_vector v.
    unfold RotateVector, MultiplyQuaternions, nullQuaternion, with_vector_part,
      vector_part, ScaleVector, CopyVector.
    cbn. real_ops. f_equal; ring.
  - apply pure_quaternion_inj.
    rewrite (RotateVector_sandwich q1 (RotateVector q2 v)).
    rewrite (RotateVector_sandwich q2 v).
    rewrite (RotateVector_sandwich (MultiplyQuaternions q1 q2) v).
    rewrite conjugate_product. rewrite !MultiplyQuaternions_assoc. reflexivity.
Qed.

Lemma RotateVector_dot (q : Quaternion R) (v w : Vector3 R) :
  DotProduct (RotateVector q v) (RotateVector q w)
  = quaternion_norm2 q * quaternion_norm2 q * DotProduct v w.
Proof.
  open_quaternion q. open_vector v. open_vector w.
  unfold RotateVector, MultiplyQuaternions, with_vector_part, vector_part,
    ScaleVector, CopyVector, DotProduct, quaternion_norm2.
  cbn. real_ops. ring.
Qed.

(** Over exact reals with the cast left out: RotateVector with a quaternion of norm 1 keeps dot products, hence
    lengths and angles. *)
Lemma RotateVector_isometry_real (q : Quaternion R) (v w : Vector3 R) :
  quaternion_norm2 q = 1 ->
  DotProduct (RotateVector q v) (RotateVector q w) = DotProduct v w
  /\ VectorNorm (RotateVector q v) = VectorNorm v.
Proof.
  intros Hq.
  assert (Hdot : forall a b,
             DotProduct (RotateVector q a) (RotateVector q b) = DotProduct a b).
  { intros a b. rewrite RotateVector_dot, Hq. ring. }
  split; [apply Hdot|].
  rewrite <- (sqrt_square _ (VectorNorm_nonneg (RotateVector q v))).
  rewrite <- (sqrt_square _ (VectorNorm_nonneg v)).
  rewrite !VectorNorm_sqr, Hdot. reflexivity.
Qed.

Lemma half_angle (theta : R) :
  let s := sin (/ 2 * theta) in
  let c := cos (/ 2 * theta) in
  s * s + c * c = 1 /\ cos theta = c * c - s * s /\ sin theta = 2 * s * c.
Proof.
  cbv zeta. split; [|split].
  - pose proof (sin2_cos2 (/ 2 * theta)) as H. unfold Rsqr in H. exact H.
  - rewrite <- cos_2a. f_equal. field.
  - rewrite <- sin_2a. f_equal. field.
Qed.

(** The quaternion of SetQuaternion written over the normalized axis. *)
Lemma SetQuaternion_components (radians : R) (axis : Vector3 R) :
  VectorNorm axis <> 0 ->
  let u := NormalizeVector axis in
  SetQuaternion radians axis
  = mkQuaternion (vX u * sin (/ 2 * radians)) (vY u * sin (/ 2 * radians))
      (vZ u * sin (/ 2 * radians)) (cos (/ 2 * radians)).
Proof.
  intros Hn. cbv zeta. unfold SetQuaternion, NormalizeVector.
  generalize (VectorNorm axis) Hn. intros n Hn'.
  open_vector axis. unfold ScaleVector. cbn. real_ops. f_equal; field; exact Hn'.
Qed.

Lemma NormalizeVector_dot (v : Vector3 R) :
  VectorNorm v <> 0 -> DotProduct (NormalizeVector v) (NormalizeVector v) = 1.
Proof.
  intros Hn. pose proof (VectorNorm_sqr v) as Hsq.
  transitivity (DotProduct v v / (VectorNorm v * VectorNorm v)).
  - unfold NormalizeVector. generalize (VectorNorm v) Hn. intros n Hn'.
    open_vector v. unfold DotProduct, ScaleVector. cbn. real_ops. field. exact Hn'.
  - rewrite Hsq. field. rewrite <- Hsq. nra.
Qed.

(** Over exact reals with the cast left out: For an axis that is not the zero vector, SetQuaternion gives a
    quaternion of norm 1, and RotateVector with it is the rotation by the
    given angle about the axis: with u the normalized axis, v is sent to
    v cos(angle) + (u x v) sin(angle) + u (u.v) (1 - cos(angle)). *)
Lemma SetQuaternion_rotation_real (radians : R) (axis v : Vector3 R) :
  VectorNorm axis <> 0 ->
  let u := NormalizeVector axis in
  quaternion_norm2 (SetQuaternion radians axis) = 1
  /\ RotateVector (SetQuaternion radians axis) v
     = AddVectors
         (AddVectors (ScaleVector v (cos radians))
                     (ScaleVector (ComputeCrossProduct u v) (sin radians)))
         (ScaleVector u (DotProduct u v * (1 - cos radians))).
Proof.
  intros Hn. cbv zeta.
  rewrite (@SetQuaternion_components radians axis Hn).
  pose proof (@NormalizeVector_dot axis Hn) as Hu.
  destruct (half_angle radians) as (Hsc & Hcos & Hsin). cbv zeta in Hsc, Hcos, Hsin.
  rewrite Hcos, Hsin.
  revert Hu Hsc.
  generalize (NormalizeVector axis) (sin (/ 2 * radians)) (cos (/ 2 * radians)).
  intros u s c Hu Hsc.
  open_vector u. open_vector v. unfold DotProduct in Hu. cbn in Hu. real_ops.
  split.
  - unfold quaternion_norm2. cbn.
    replace (c * c + ux * s * (ux * s) + uy * s * (uy * s) + uz * s * (uz * s))
      with (c * c + s * s * (ux * ux + uy * uy + uz * uz)) by ring.
    rewrite Hu. lra.
  - unfold RotateVector, MultiplyQuaternions, with_vector_part, vector_part, ScaleVector,
      CopyVector, AddVectors, ComputeCrossProduct, DotProduct.
    cbn. real_ops.
    replace (1 - (c * c - s * s)) with (2 * (s * s)) by lra.
    f_equal.
    + transitivity ((c * c - s * s * (ux * ux + uy * uy + uz * uz)) * vx
                    + 2 * s * c * (uy * vz - uz * vy)
                    + 2 * (s * s) * (ux * vx + uy * vy + uz * vz) * ux); [ring|].
      rewrite Hu. ring.
    + transitivity ((c * c - s * s * (ux * ux + uy * uy + uz * uz)) * vy
                    + 2 * s * c * (uz * vx - ux * vz)
                    + 2 * (s * s) * (ux * vx + uy * vy + uz * vz) * uy); [ring|].
      rewrite Hu. ring.
    + transitivity ((c * c - s * s * (ux * ux + uy * uy + uz * uz)) * vz
                    + 2 * s * c * (ux * vy - uy * vx)
                    + 2 * (s * s) * (ux * vx + uy * vy + uz * vz) * uz); [ring|].
      rewrite Hu. ring.
Qed.

(** Over exact reals with the cast left out: AngleBetween does not depend on the order of its arguments, and the
    angle between a quaternion that is not zero and itself is 0. *)
Lemma AngleBetween_symmetric_real (q1 q2 : Quaternion R) :
  AngleBetween q1 q2 = AngleBetween q2 q1
  /\ (quaternion_norm2 q1 <> 0 -> AngleBetween q1 q1 = 0).
Proof.
  split.
  - unfold AngleBetween. cbv zeta.
    change (with_vector_part q2 (ScaleVector (vector_part q2) (dlit (-1.0))))
      with (conjugate q2).
    change (with_vector_part q1 (ScaleVector (vector_part q1) (dlit (-1.0))))
      with (conjugate q1).
    assert (Hm : qM (MultiplyQuaternions q1 (conjugate q2))
                 = qM (MultiplyQuaternions q2 (conjugate q1))).
    { open_quaternion q1. open_quaternion q2.
      unfold conjugate, MultiplyQuaternions, with_vector_part, vector_part, ScaleVector.
      cbn. real_ops. ring. }
    assert (Hv : VectorNorm (vector_part (MultiplyQuaternions q1 (conjugate q2)))
                 = VectorNorm (vector_part (MultiplyQuaternions q2 (conjugate q1)))).
    { open_quaternion q1. open_quaternion q2.
      unfold conjugate, MultiplyQuaternions, with_vector_part, vector_part, ScaleVector,
        VectorNorm.
      cbn. real_ops. f_equal. ring. }
    rewrite Hm, Hv. reflexivity.
  - intros Hq. unfold AngleBetween. cbv zeta.
    change (with_vector_part q1 (ScaleVector (vector_part q1) (dlit (-1.0))))
      with (conjugate q1).
    assert (Hself : MultiplyQuaternions q1 (conjugate q1)
                    = mkQuaternion 0 0 0 (quaternion_norm2 q1)).
    { open_quaternion q1.
      unfold conjugate, MultiplyQuaternions, with_vector_part, vector_part, ScaleVector,
        quaternion_norm2.
      cbn. real_ops. f_equal; ring. }
    rewrite Hself.
    assert (Hpos : 0 < quaternion_norm2 q1).
    { assert (0 <= quaternion_norm2 q1) by (unfold quaternion_norm2; nra). lra. }
    unfold VectorNorm, vector_part. cbn. real_ops.
    replace (0 * 0 + 0 * 0 + 0 * 0) with 0 by ring. rewrite sqrt_0.
    unfold atan2. destruct (Rlt_dec 0 (quaternion_norm2 q1)) as [_ | Hno]; [|contradiction].
    unfold Rdiv. rewrite Rmult_0_l, atan_0. ring.
Qed.

(** The dot product of two normalized vectors. *)
Lemma NormalizeVector_dot_pair (u w : Vector3 R) :
  VectorNorm u <> 0 -> VectorNorm w <> 0 ->
  DotProduct (NormalizeVector u) (NormalizeVector w)
  = DotProduct u w / (VectorNorm u * VectorNorm w).
Proof.
  intros Hu Hw. unfold NormalizeVector.
  generalize (VectorNorm u) (VectorNorm w) Hu Hw. intros nu nw Hu' Hw'.
  open_vector u. open_vector w. unfold DotProduct, ScaleVector. cbn. real_ops.
  field. split; assumption.
Qed.

Lemma VectorNorm_zero (v : Vector3 R) : VectorNorm v = 0 -> v = mkVector3 0 0 0.
Proof.
  intros H0. pose proof (VectorNorm_sqr v) as Hsq. rewrite H0 in Hsq.
  open_vector v. unfold DotProduct in Hsq. cbn in Hsq. real_ops.
  assert (vx = 0) by nra. assert (vy = 0) by nra. assert (vz = 0) by nra.
  subst. reflexivity.
Qed.

Lemma VectorNorm_product (u w : Vector3 R) :
  DotProduct u w = 0 ->
  VectorNorm (ComputeCrossProduct u w) = VectorNorm u * VectorNorm w.
Proof.
  intros Hperp.
  assert (Hsq : VectorNorm (ComputeCrossProduct u w) * VectorNorm (ComputeCrossProduct u w)
                = (VectorNorm u * VectorNorm w) * (VectorNorm u * VectorNorm w)).
  { rewrite VectorNorm_sqr.
    replace (VectorNorm u * VectorNorm w * (VectorNorm u * VectorNorm w))
      with ((VectorNorm u * VectorNorm u) * (VectorNorm w * VectorNorm w)) by ring.
    rewrite !VectorNorm_sqr.
    revert Hperp. open_vector u. open_vector w.
    unfold DotProduct, ComputeCrossProduct. cbn. real_ops. intros Hperp.
    transitivity ((ux * ux + uy * uy + uz * uz) * (wx * wx + wy * wy + wz * wz)
                  - (ux * wx + uy * wy + uz * wz) * (ux * wx + uy * wy + uz * wz)); [ring|].
    rewrite Hperp. ring. }
  pose proof (VectorNorm_nonneg (ComputeCrossProduct u w)) as H1.
  pose proof (VectorNorm_nonneg u) as H2. pose proof (VectorNorm_nonneg w) as H3.
  rewrite <- (sqrt_square _ H1), Hsq.
  apply sqrt_square. apply Rmult_le_pos; assumption.
Qed.

(** The rows of [o] are of length 1 and perpendicular to each other. *)
Definition orthonormal (o : Matrix3x3 R) : Prop :=
  MultiplyMatrices o (TransposeMatrix o) = identityMatrix.

Lemma rows_orthonormal (x y z : Vector3 R) :
  DotProduct x x = 1 -> DotProduct y y = 1 -> DotProduct z z = 1 ->
  DotProduct x y = 0 -> DotProduct x z = 0 -> DotProduct y z = 0 ->
  orthonormal (mkMatrix3x3 x y z).
Proof.
  open_vector x. open_vector y. open_vector z.
  unfold orthonormal, DotProduct, MultiplyMatrices, TransposeMatrix, matrix_of, identityMatrix.
  cbn. real_ops. intros Hxx Hyy Hzz Hxy Hxz Hyz.
  f_equal; f_equal; lra.
Qed.

Lemma orthonormal_invertible (o : Matrix3x3 R) : orthonormal o -> Determinant o <> 0.
Proof.
  unfold orthonormal. intros Ho Hdet.
  pose proof (f_equal Determinant Ho) as H.
  rewrite Determinant_multiply, Determinant_transpose, Determinant_identity, Hdet in H.
  lra.
Qed.

Lemma NormalizeVector_of_unit (v : Vector3 R) : VectorNorm v = 1 -> NormalizeVector v = v.
Proof.
  intros H1. unfold NormalizeVector. rewrite H1.
  open_vector v. unfold ScaleVector. cbn. real_ops. f_equal; field.
Qed.

(** The frame built from a vector [a] and a perpendicular vector [c]: the
    rows a, c x a and c, each normalized. *)
Lemma frame_orthonormal (a c : Vector3 R) :
  DotProduct a c = 0 -> VectorNorm a <> 0 -> VectorNorm c <> 0 ->
  let o := mkMatrix3x3 (NormalizeVector a) (NormalizeVector (ComputeCrossProduct c a))
             (NormalizeVector c) in
  orthonormal o /\ Determinant o = 1.
Proof.
  intros Hperp Ha Hc. cbv zeta.
  assert (Hperp' : DotProduct c a = 0).
  { rewrite <- Hperp. open_vector a. open_vector c. unfold DotProduct. cbn. real_ops. ring. }
  pose proof (VectorNorm_product Hperp') as Hnw.
  assert (Hw : VectorNorm (ComputeCrossProduct c a) <> 0).
  { rewrite Hnw. apply Rmult_integral_contrapositive. split; assumption. }
  assert (Haw : DotProduct a (ComputeCrossProduct c a) = 0).
  { open_vector a. open_vector c. unfold DotProduct, ComputeCrossProduct. cbn. real_ops. ring. }
  assert (Hwc : DotProduct (ComputeCrossProduct c a) c = 0).
  { open_vector a. open_vector c. unfold DotProduct, ComputeCrossProduct. cbn. real_ops. ring. }
  split.
  - apply rows_orthonormal.
    + apply NormalizeVector_dot. exact Ha.
    + apply NormalizeVector_dot. exact Hw.
    + apply NormalizeVector_dot. exact Hc.
    + rewrite NormalizeVector_dot_pair by assumption. rewrite Haw. field. split; assumption.
    + rewrite NormalizeVector_dot_pair by assumption. rewrite Hperp. field. split; assumption.
    + rewrite NormalizeVector_dot_pair by assumption. rewrite Hwc. field. split; assumption.
  - assert (Hdet : Determinant (mkMatrix3x3 a (ComputeCrossProduct c a) c)
                   = (VectorNorm a * VectorNorm a) * (VectorNorm c * VectorNorm c)).
    { rewrite !VectorNorm_sqr. revert Hperp. clear.
      open_vector a. open_vector c.
      unfold Determinant, DotProduct, ComputeCrossProduct. cbn. real_ops. intros Hperp.
      transitivity ((ax * ax + ay * ay + az * az) * (cx * cx + cy * cy + cz * cz)
                    - (ax * cx + ay * cy + az * cz) * (ax * cx + ay * cy + az * cz)); [ring|].
      rewrite Hperp. ring. }
    transitivity (Determinant (mkMatrix3x3 a (ComputeCrossProduct c a) c)
                  / (VectorNorm a * VectorNorm (ComputeCrossProduct c a) * VectorNorm c)).
    + unfold NormalizeVector.
      generalize (ComputeCrossProduct c a) (VectorNorm (ComputeCrossProduct c a)) Hw.
      intros w nw Hw'. generalize (VectorNorm a) (VectorNorm c) Ha Hc. intros na nc Ha' Hc'.
      open_vector a. open_vector c. open_vector w.
      unfold Determinant, ScaleVector. cbn. real_ops. field. repeat split; assumption.
    + rewrite Hdet, Hnw. field. split; assumption.
Qed.

(** Over exact reals with the cast left out: When the first two rows of the matrix are not parallel (their cross
    product is not zero), the rows of OrthonormalizeMatrix are of length 1
    and perpendicular to each other, and the determinant of the result is 1:
    the result is a rotation matrix. *)
Lemma OrthonormalizeMatrix_rotation_real (m : Matrix3x3 R) :
  VectorNorm (ComputeCrossProduct (rX m) (rY m)) <> 0 ->
  MultiplyMatrices (OrthonormalizeMatrix m) (TransposeMatrix (OrthonormalizeMatrix m))
    = identityMatrix
  /\ Determinant (OrthonormalizeMatrix m) = 1.
Proof.
  intros Hc.
  assert (Ha : VectorNorm (rX m) <> 0).
  { intros H0. apply Hc. apply VectorNorm_zero in H0. rewrite H0.
    destruct (rY m) as [bx by' bz]. unfold VectorNorm, ComputeCrossProduct. cbn. real_ops.
    replace ((0 * bz - 0 * by') * (0 * bz - 0 * by') + (0 * bx - 0 * bz) * (0 * bx - 0 * bz)
             + (0 * by' - 0 * bx) * (0 * by' - 0 * bx)) with 0 by ring.
    apply sqrt_0. }
  assert (Hperp : DotProduct (rX m) (ComputeCrossProduct (rX m) (rY m)) = 0).
  { destruct (rX m) as [ax ay az]. destruct (rY m) as [bx by' bz].
    unfold DotProduct, ComputeCrossProduct. cbn. real_ops. ring. }
  unfold OrthonormalizeMatrix. cbv zeta.
  replace (CopyVector (rX m)) with (rX m) by (destruct (rX m); reflexivity).
  exact (frame_orthonormal Hperp Ha Hc).
Qed.

(** X15.  Conversions between radians and degrees undo each other. *)
Theorem ToDegrees_ToRadians (x : R) :
  ToDegrees (ToRadians x) = x /\ ToRadians (ToDegrees x) = x.
Proof.
  unfold ToDegrees, ToRadians, pi. real_ops.
  assert (Hpi : Q2R 3.14159265358979 <> 0) by (unfold Q2R; cbn; lra).
  assert (H180 : Q2R 180.0 = 180) by (unfold Q2R; cbn; lra).
  rewrite H180. split; field; exact Hpi.
Qed.

(** X16.  MultiplyVector multiplies a row vector by a matrix: the identity
    matrix changes nothing, and multiplying by two matrices in turn is
    multiplying by their MultiplyMatrices product. *)
Theorem MultiplyVector_composes (v : Vector3 R) (a b : Matrix3x3 R) :
  MultiplyVector v identityMatrix = v
  /\ MultiplyVector (MultiplyVector v a) b = MultiplyVector v (MultiplyMatrices a b).
Proof.
  open_vector v. open_matrix a. open_matrix b.
  unfold MultiplyVector, MultiplyMatrices, matrix_of, identityMatrix. cbn. real_ops.
  split; f_equal; ring.
Qed.

Lemma MultiplyMatrices_assoc (a b c : Matrix3x3 R) :
  MultiplyMatrices (MultiplyMatrices a b) c = MultiplyMatrices a (MultiplyMatrices b c).
Proof.
  open_matrix a. open_matrix b. open_matrix c.
  unfold MultiplyMatrices, matrix_of. cbn. real_ops. f_equal; f_equal; ring.
Qed.

Lemma MultiplyMatrices_identity_l (a : Matrix3x3 R) : MultiplyMatrices identityMatrix a = a.
Proof.
  open_matrix a. unfold MultiplyMatrices, matrix_of, identityMatrix. cbn. real_ops.
  f_equal; f_equal; ring.
Qed.

(** A sum accumulated by a loop, from any first value of the accumulator. *)
Lemma sum_from (f : Z -> R) (n : nat) (s : Z) (a : R) :
  for_range n s (fun k acc => acc + f k) a
  = a + for_range n s (fun k acc => acc + f k) 0.
Proof.
  revert s a. induction n as [|n IH]; intros s a; cbn [for_range].
  - ring.
  - rewrite (IH (s + 1)%Z (a + f s)), (IH (s + 1)%Z (0 + f s)). ring.
Qed.

Lemma vidx_MultiplyVector (v : Vector3 R) (A : Matrix3x3 R) (j : Z) :
  vidx (MultiplyVector v A) j
  = vX v * midx A 0 j + vY v * midx A 1 j + vZ v * midx A 2 j.
Proof.
  unfold MultiplyVector, midx, vidx. cbn [row for_range Z.eqb]. real_ops.
  destruct (j =? 0)%Z; [cbn; ring|]. destruct (j =? 1)%Z; cbn; ring.
Qed.

(** The sums of CrossVectors when each output vector is the input vector
    multiplied by [A]. *)
Lemma cross_sum (input output : array (Vector3 R)) (A : Matrix3x3 R) (i j : Z)
    (n : nat) (s : Z) :
  (forall k, (s <= k < s + Z.of_nat n)%Z -> output k = MultiplyVector (input k) A) ->
  for_range n s (fun k acc => acc + vidx (input k) i * vidx (output k) j) 0
  = for_range n s (fun k acc => acc + vidx (input k) i * vidx (input k) 0) 0 * midx A 0 j
    + for_range n s (fun k acc => acc + vidx (input k) i * vidx (input k) 1) 0 * midx A 1 j
    + for_range n s (fun k acc => acc + vidx (input k) i * vidx (input k) 2) 0 * midx A 2 j.
Proof.
  revert s. induction n as [|n IH]; intros s Hout; cbn [for_range].
  - ring.
  - rewrite (sum_from (fun k => vidx (input k) i * vidx (output k) j) n (s + 1)%Z
               (0 + vidx (input s) i * vidx (output s) j)).
    rewrite (sum_from (fun k => vidx (input k) i * vidx (input k) 0) n (s + 1)%Z
               (0 + vidx (input s) i * vidx (input s) 0)).
    rewrite (sum_from (fun k => vidx (input k) i * vidx (input k) 1) n (s + 1)%Z
               (0 + vidx (input s) i * vidx (input s) 1)).
    rewrite (sum_from (fun k => vidx (input k) i * vidx (input k) 2) n (s + 1)%Z
               (0 + vidx (input s) i * vidx (input s) 2)).
    rewrite IH by (intros k Hk; apply Hout; lia).
    rewrite (Hout s) by lia. rewrite vidx_MultiplyVector.
    change (vidx (input s) 0) with (vX (input s)).
    change (vidx (input s) 1) with (vY (input s)).
    change (vidx (input s) 2) with (vZ (input s)).
    ring.
Qed.

(** X17.  When every output vector is the input vector multiplied by one matrix,
    and the inputs span the space (the matrix of their products is
    invertible), BestFitTransformation returns that matrix. *)
Theorem BestFitTransformation_exact (input output : array (Vector3 R)) (rows : Z)
    (A : Matrix3x3 R) :
  Determinant (CrossVectors input input rows) <> 0 ->
  (forall k, (0 <= k < rows)%Z -> output k = MultiplyVector (input k) A) ->
  BestFitTransformation input output rows = A.
Proof.
  intros Hdet Hout. unfold BestFitTransformation. cbv zeta.
  assert (Hright : CrossVectors input output rows
                   = MultiplyMatrices (CrossVectors input input rows) A).
  { assert (Hrange : forall k, (0 <= k < 0 + Z.of_nat (Z.to_nat rows))%Z ->
                       output k = MultiplyVector (input k) A).
    { intros k Hk. apply Hout. lia. }
    unfold CrossVectors, MultiplyMatrices, matrix_of. cbv zeta. real_ops.
    rewrite !(@cross_sum input output A _ _ (Z.to_nat rows) 0%Z Hrange).
    cbn. unfold Rdiv. f_equal; f_equal; ring. }
  rewrite Hright, <- MultiplyMatrices_assoc, (InvertMatrix_left Hdet).
  apply MultiplyMatrices_identity_l.
Qed.

(** The three unit vectors as inputs. *)
Definition sample_inputs : array (Vector3 R) :=
  fun k => if (k =? 0)%Z then mkVector3 1 0 0
           else if (k =? 1)%Z then mkVector3 0 1 0 else mkVector3 0 0 1.

Lemma BestFitTransformation_exact_witness :
  let A := mkMatrix3x3 (mkVector3 1 2 3) (mkVector3 4 5 6) (mkVector3 7 8 10) in
  Determinant (CrossVectors sample_inputs sample_inputs 3) <> 0
  /\ BestFitTransformation sample_inputs (fun k => MultiplyVector (sample_inputs k) A) 3 = A.
Proof.
  cbv zeta.
  assert (H : Determinant (CrossVectors sample_inputs sample_inputs 3) <> 0).
  { assert (Hval : Determinant (CrossVectors sample_inputs sample_inputs 3) = / 27).
    { unfold Determinant, CrossVectors, matrix_of, sample_inputs.
      change (Z.to_nat 3) with 3%nat. cbn. real_ops. field. }
    rewrite Hval. lra. }
  split; [exact H|].
  apply BestFitTransformation_exact; [exact H|].
  intros k _. reflexivity.
Defined.

End VectorsMixinFacts.

(* ================================================================== *)
(** * Properties of VectorsMixin with the cast to single precision kept *)

(** ScaleVector casts each component of its argument to [float] before the
    multiplication, SetQuaternion casts the cosine.  The properties below are
    proved for every cast function, over exact reals otherwise; where a
    property needs a value to pass the cast unchanged (to be representable
    in single precision), that is a hypothesis. *)

Section SinglePrecisionFacts.
Import VectorsMixin ExactReal.
Local Open Scope R_scope.
Context (cast : R -> R).
#[local] Remove Hints R_DoubleOps : typeclass_instances.
#[local] Hint Extern 0 (DoubleOps _) => exact (cast_DoubleOps cast) : typeclass_instances.

(** The cast leaves the three components of [v] as they are. *)
Definition cast_keeps (v : Vector3 R) : Prop :=
  cast (vX v) = vX v /\ cast (vY v) = vY v /\ cast (vZ v) = vZ v.

(** Scaling without a cast, and the direction of a vector, to state results. *)
Definition scaled (s : R) (v : Vector3 R) : Vector3 R :=
  mkVector3 (s * vX v) (s * vY v) (s * vZ v).

Definition direction (v : Vector3 R) : Vector3 R := scaled (/ VectorNorm v) v.

Ltac cast_ops :=
  cbv [dadd dsub dmul ddiv dneg dsqrt dfabs to_float of_int dlit dsin dcos datan2
       cast_DoubleOps R_DoubleOps R_Libm] in *;
  rewrite ?Q2R_0, ?Q2R_1, ?Q2R_half, ?Q2R_2, ?Q2R_minus_1 in *.

Ltac open_vector m :=
  let a := fresh m "x" in let b := fresh m "y" in let c := fresh m "z" in
  destruct m as [a b c].

Ltac open_quaternion m :=
  let a := fresh m "x" in let b := fresh m "y" in let c := fresh m "z" in
  let d := fresh m "m" in
  destruct m as [a b c d].

(** On a vector that passes the cast unchanged, ScaleVector and the
    functions built on it compute what they compute with the cast left out. *)
Lemma ScaleVector_kept (a : Vector3 R) (s : R) :
  cast_keeps a -> ScaleVector a s = ScaleVector (ops := R_DoubleOps) a s.
Proof.
  intros (Hx & Hy & Hz). unfold ScaleVector. cast_ops. rewrite Hx, Hy, Hz. reflexivity.
Qed.

Lemma NormalizeVector_kept (v : Vector3 R) :
  cast_keeps v -> NormalizeVector v = NormalizeVector (ops := R_DoubleOps) v.
Proof. intros H. unfold NormalizeVector. rewrite (ScaleVector_kept _ H). reflexivity. Qed.

Lemma RotateVector_kept (q : Quaternion R) (v : Vector3 R) :
  cast_keeps (vector_part q) -> RotateVector q v = RotateVector (ops := R_DoubleOps) q v.
Proof. intros H. unfold RotateVector. rewrite (ScaleVector_kept _ H). reflexivity. Qed.

Lemma AngleBetween_kept (q1 q2 : Quaternion R) :
  cast_keeps (vector_part q2) -> AngleBetween q1 q2 = AngleBetween (ops := R_DoubleOps) q1 q2.
Proof. intros H. unfold AngleBetween. rewrite (ScaleVector_kept _ H). reflexivity. Qed.

(** X5.  NormalizeVector, for every cast function and over exact reals
    otherwise: applied to a vector whose norm is not zero and whose
    components pass the cast to single precision unchanged, it gives a vector
    of norm 1 in the same direction (multiplied by the original norm it is
    the original vector). *)
Theorem NormalizeVector_unit (v : Vector3 R) :
  VectorNorm v <> 0 ->
  cast_keeps v ->
  VectorNorm (NormalizeVector v) = 1
  /\ scaled (VectorNorm v) (NormalizeVector v) = v.
Proof.
  intros Hn Hk. rewrite (NormalizeVector_kept Hk).
  destruct (@NormalizeVector_unit_real v Hn) as [H1 H2].
  split; [exact H1|].
  rewrite <- H2 at 3. unfold scaled, ScaleVector. cast_ops.
  f_equal; apply Rmult_comm.
Qed.

Lemma RotateVector_null (v : Vector3 R) :
  cast 0 = 0 -> RotateVector nullQuaternion v = v.
Proof.
  intros H0.
  assert (Hk : cast_keeps (vector_part nullQuaternion)).
  { unfold cast_keeps, nullQuaternion, vector_part. cbn. cast_ops. auto. }
  rewrite (RotateVector_kept _ Hk).
  exact (proj1 (RotateVector_composes_real nullQuaternion nullQuaternion v)).
Qed.

(** X8.  RotateVector, for every cast function and over exact reals
    otherwise.  When the cast leaves 0 unchanged, the null quaternion rotates
    every vector onto itself.  For two quaternions whose X, Y and Z
    components, and those of their product, pass the cast to single precision
    unchanged, rotating by the product is rotating by the right factor and
    then by the left one. *)
Theorem RotateVector_composes (q1 q2 : Quaternion R) (v : Vector3 R) :
  (cast 0 = 0 -> RotateVector nullQuaternion v = v)
  /\ (cast_keeps (vector_part q1) ->
      cast_keeps (vector_part q2) ->
      cast_keeps (vector_part (MultiplyQuaternions q1 q2)) ->
      RotateVector (MultiplyQuaternions q1 q2) v = RotateVector q1 (RotateVector q2 v)).
Proof.
  split.
  - apply RotateVector_null.
  - intros H1 H2 H12.
    rewrite (RotateVector_kept _ H12), (RotateVector_kept _ H1), (RotateVector_kept _ H2).
    exact (proj2 (RotateVector_composes_real q1 q2 v)).
Qed.

(** X9.  RotateVector, for every cast function and over exact reals
    otherwise: with a quaternion of norm 1 whose X, Y and Z components pass
    the cast to single precision unchanged, it keeps dot products, hence
    lengths and angles. *)
Theorem RotateVector_isometry (q : Quaternion R) (v w : Vector3 R) :
  quaternion_norm2 q = 1 ->
  cast_keeps (vector_part q) ->
  DotProduct (RotateVector q v) (RotateVector q w) = DotProduct v w
  /\ VectorNorm (RotateVector q v) = VectorNorm v.
Proof.
  intros Hq Hk. rewrite !(RotateVector_kept _ Hk).
  exact (@RotateVector_isometry_real q v w Hq).
Qed.

Lemma SetQuaternion_kept (radians : R) (axis : Vector3 R) :
  cast_keeps axis ->
  cast (cos (radians / 2)) = cos (radians / 2) ->
  SetQuaternion radians axis = SetQuaternion (ops := R_DoubleOps) radians axis.
Proof.
  intros Ha Hc. unfold SetQuaternion. rewrite (ScaleVector_kept _ Ha).
  cast_ops. replace (/ 2 * radians) with (radians / 2) by field.
  rewrite Hc. reflexivity.
Qed.

Lemma NormalizeVector_direction (v : Vector3 R) :
  NormalizeVector (ops := R_DoubleOps) v = direction v.
Proof.
  unfold NormalizeVector, direction, scaled, ScaleVector.
  change (@VectorNorm R (cast_DoubleOps cast) v) with (@VectorNorm R R_DoubleOps v).
  cast_ops. f_equal; unfold Rdiv; ring.
Qed.

Lemma ScaleVector_scaled (v : Vector3 R) (s : R) :
  ScaleVector (ops := R_DoubleOps) v s = scaled s v.
Proof. unfold ScaleVector, scaled. cast_ops. f_equal; ring. Qed.

(** X10.  SetQuaternion, for every cast function and over exact reals
    otherwise.  For an axis that is not the zero vector and whose components
    pass the cast to single precision unchanged, and an angle whose half-angle
    cosine passes it unchanged, SetQuaternion gives a quaternion of norm 1;
    when the X, Y and Z components of that quaternion pass the cast
    unchanged too, RotateVector with it is the rotation by the angle about
    the axis: with u the direction of the axis, v is sent to
    cos(angle) v + sin(angle) (u x v) + (u.v) (1 - cos(angle)) u. *)
Theorem SetQuaternion_rotation (radians : R) (axis v : Vector3 R) :
  VectorNorm axis <> 0 ->
  cast_keeps axis ->
  cast (cos (radians / 2)) = cos (radians / 2) ->
  let q := SetQuaternion radians axis in
  let u := direction axis in
  quaternion_norm2 q = 1
  /\ (cast_keeps (vector_part q) ->
      RotateVector q v
      = AddVectors
          (AddVectors (scaled (cos radians) v)
                      (scaled (sin radians) (ComputeCrossProduct u v)))
          (scaled (DotProduct u v * (1 - cos radians)) u)).
Proof.
  intros Hn Ha Hc. cbv zeta. rewrite (SetQuaternion_kept radians Ha Hc).
  destruct (@SetQuaternion_rotation_real radians axis v Hn) as [H1 H2].
  cbv zeta in H2. rewrite NormalizeVector_direction, !ScaleVector_scaled in H2.
  split; [exact H1|].
  intros Hq. rewrite (RotateVector_kept _ Hq). exact H2.
Qed.

(** X11.  AngleBetween, for every cast function and over exact reals
    otherwise: for two quaternions whose X, Y and Z components pass the cast
    to single precision unchanged, the angle does not depend on the order of
    the arguments, and the angle between the first one, when it is not zero,
    and itself is 0. *)
Theorem AngleBetween_symmetric (q1 q2 : Quaternion R) :
  cast_keeps (vector_part q1) ->
  cast_keeps (vector_part q2) ->
  AngleBetween q1 q2 = AngleBetween q2 q1
  /\ (quaternion_norm2 q1 <> 0 -> AngleBetween q1 q1 = 0).
Proof.
  intros H1 H2.
  rewrite (AngleBetween_kept q1 H2), !(AngleBetween_kept _ H1).
  exact (AngleBetween_symmetric_real q1 q2).
Qed.

Lemma OrthonormalizeMatrix_kept (m : Matrix3x3 R) :
  cast_keeps (rX m) ->
  cast_keeps (ComputeCrossProduct (ComputeCrossProduct (rX m) (rY m)) (rX m)) ->
  cast_keeps (ComputeCrossProduct (rX m) (rY m)) ->
  OrthonormalizeMatrix m = OrthonormalizeMatrix (ops := R_DoubleOps) m.
Proof.
  intros Hx Hy Hz. unfold OrthonormalizeMatrix. cbv zeta.
  assert (Hx' : cast_keeps (CopyVector (rX m))) by exact Hx.
  rewrite (NormalizeVector_kept Hx'), (NormalizeVector_kept Hy), (NormalizeVector_kept Hz).
  reflexivity.
Qed.

(** X12.  OrthonormalizeMatrix, for every cast function and over exact reals
    otherwise.  When the first two rows of the matrix are not parallel (their
    cross product c is not zero) and the three vectors that the function
    normalizes (the first row, c x first row, and c) pass the cast to single
    precision unchanged, the rows of the result are of length 1 and
    perpendicular to each other, and its determinant is 1: the result is a
    rotation matrix. *)
Theorem OrthonormalizeMatrix_rotation (m : Matrix3x3 R) :
  VectorNorm (ComputeCrossProduct (rX m) (rY m)) <> 0 ->
  cast_keeps (rX m) ->
  cast_keeps (ComputeCrossProduct (ComputeCrossProduct (rX m) (rY m)) (rX m)) ->
  cast_keeps (ComputeCrossProduct (rX m) (rY m)) ->
  MultiplyMatrices (OrthonormalizeMatrix m) (TransposeMatrix (OrthonormalizeMatrix m))
    = identityMatrix
  /\ Determinant (OrthonormalizeMatrix m) = 1.
Proof.
  intros Hc Hx Hy Hz. rewrite (OrthonormalizeMatrix_kept m Hx Hy Hz).
  exact (@OrthonormalizeMatrix_rotation_real m Hc).
Qed.

(** ** The pose of a rigid body *)

(** The components of a vector after the cast. *)
Definition casted (v : Vector3 R) : Vector3 R :=
  mkVector3 (cast (vX v)) (cast (vY v)) (cast (vZ v)).

Lemma casted_kept (v : Vector3 R) : cast_keeps v -> casted v = v.
Proof. intros (Hx & Hy & Hz). unfold casted. rewrite Hx, Hy, Hz. destruct v; reflexivity. Qed.

Lemma marker_count_kept (MAX_RIGID_BODY_MARKERS N : Z) :
  (N <= MAX_RIGID_BODY_MARKERS)%Z ->
  (if (N >? MAX_RIGID_BODY_MARKERS)%Z then MAX_RIGID_BODY_MARKERS else N) = N.
Proof.
  intros H. destruct (N >? MAX_RIGID_BODY_MARKERS)%Z eqn:Hgt; [|reflexivity].
  rewrite Z.gtb_ltb in Hgt. apply Z.ltb_lt in Hgt. lia.
Qed.

(** X13.  ComputeRigidBodyPose with one or two markers (within the marker
    limit) and a default orientation, for every cast function and over exact
    reals otherwise: it returns true and the default orientation, wherever
    the markers are seen.  When each marker is seen where the model marker,
    turned by that orientation and moved by a translation t, would be, the
    position returned is the cast of N t divided by N, which is t when the
    components of N t pass the cast to single precision unchanged. *)
Theorem ComputeRigidBodyPose_default_orientation
    (MAX_RIGID_BODY_MARKERS : Z) (model actual : array (Vector3 R)) (N : Z)
    (q : Quaternion R) (t : Vector3 R) :
  (1 <= N < 3)%Z ->
  (N <= MAX_RIGID_BODY_MARKERS)%Z ->
  let r := ComputeRigidBodyPose MAX_RIGID_BODY_MARKERS model actual N (Some q) in
  fst (fst r) = true
  /\ snd r = q
  /\ ((forall i, (0 <= i < N)%Z -> actual i = AddVectors (RotateVector q (model i)) t) ->
      snd (fst r) = scaled (/ IZR N) (casted (scaled (IZR N) t))
      /\ (cast_keeps (scaled (IZR N) t) -> snd (fst r) = t)).
Proof.
  intros HN Hmax. cbv zeta. unfold ComputeRigidBodyPose.
  rewrite (marker_count_kept Hmax).
  assert (Hcases : N = 1%Z \/ N = 2%Z) by lia.
  assert (Hpos : cast_keeps (scaled (IZR N) t) ->
                 scaled (/ IZR N) (casted (scaled (IZR N) t)) = t).
  { intros Hk. rewrite (casted_kept Hk). open_vector t. unfold scaled. cbn.
    f_equal; field; destruct Hcases as [-> | ->]; lra. }
  destruct Hcases as [-> | ->].
  - cbn -[RotateVector AddVectors SubtractVectors ScaleVector for_range].
    split; [reflexivity|]. split; [destruct q; reflexivity|].
    intros Hact.
    assert (Hval : ScaleVector
                     (for_range (Pos.to_nat 1) 0
                        (fun (i : Z) (position : Vector3 R) =>
                           AddVectors position
                             (SubtractVectors (actual i)
                                (RotateVector (CopyQuaternion q) (model i))))
                        (CopyVector zeroVector)) (dlit 1.0 / of_int 1)%dbl
                   = scaled (/ 1) (casted (scaled 1 t))).
    { replace (CopyQuaternion q) with q by (destruct q; reflexivity).
      change (Pos.to_nat 1) with 1%nat. cbn [for_range].
      rewrite (Hact 0%Z) by lia.
      generalize (RotateVector q (model 0%Z)). intros r0.
      open_vector r0. open_vector t.
      unfold ScaleVector, AddVectors, SubtractVectors, CopyVector, zeroVector, scaled,
        casted.
      cbn. cast_ops.
      f_equal; (rewrite Rmult_comm; f_equal; [field | f_equal; ring]). }
    split; [exact Hval|].
    intros Hk. etransitivity; [exact Hval | exact (Hpos Hk)].
  - cbn -[RotateVector AddVectors SubtractVectors ScaleVector for_range].
    split; [reflexivity|]. split; [destruct q; reflexivity|].
    intros Hact.
    assert (Hval : ScaleVector
                     (for_range (Pos.to_nat 2) 0
                        (fun (i : Z) (position : Vector3 R) =>
                           AddVectors position
                             (SubtractVectors (actual i)
                                (RotateVector (CopyQuaternion q) (model i))))
                        (CopyVector zeroVector)) (dlit 1.0 / of_int 2)%dbl
                   = scaled (/ 2) (casted (scaled 2 t))).
    { replace (CopyQuaternion q) with q by (destruct q; reflexivity).
      change (Pos.to_nat 2) with 2%nat. cbn [for_range]. change (0 + 1)%Z with 1%Z.
      rewrite (Hact 0%Z), (Hact 1%Z) by lia.
      generalize (RotateVector q (model 0%Z)) (RotateVector q (model 1%Z)). intros r0 r1.
      open_vector r0. open_vector r1. open_vector t.
      unfold ScaleVector, AddVectors, SubtractVectors, CopyVector, zeroVector, scaled,
        casted.
      cbn. cast_ops.
      f_equal; (rewrite Rmult_comm; f_equal; [field | f_equal; ring]). }
    split; [exact Hval|].
    intros Hk. etransitivity; [exact Hval | exact (Hpos Hk)].
Qed.

(** The frame that ComputeRigidBodyPose builds from three markers: X along
    marker 1 seen from marker 0, Z perpendicular to the plane of the three
    markers, Y perpendicular to both. *)
Definition marker_frame (pts : array (Vector3 R)) : Matrix3x3 R :=
  let localX := NormalizeVector (SubtractVectors (pts 1%Z) (pts 0%Z)) in
  let temp := SubtractVectors (pts 2%Z) (pts 0%Z) in
  let localZ := NormalizeVector (ComputeCrossProduct localX temp) in
  let localY := NormalizeVector (ComputeCrossProduct localZ localX) in
  mkMatrix3x3 localX localY localZ.

Lemma ComputeRigidBodyPose_three_markers
    (MAX_RIGID_BODY_MARKERS : Z) (model actual : array (Vector3 R))
    (default_orientation : option (Quaternion R)) :
  (3 <= MAX_RIGID_BODY_MARKERS)%Z ->
  let orientation :=
    MatrixToQuaternion
      (MultiplyMatrices (fst (InvertMatrix (marker_frame model))) (marker_frame actual)) in
  ComputeRigidBodyPose MAX_RIGID_BODY_MARKERS model actual 3 default_orientation
  = (true,
     ScaleVector
       (for_range 3 0
          (fun i position =>
             AddVectors position
               (SubtractVectors (actual i) (RotateVector orientation (model i))))
          (CopyVector zeroVector))
       (dlit 1.0 / of_int 3)%dbl,
     orientation).
Proof.
  intros Hmax. unfold ComputeRigidBodyPose. rewrite (marker_count_kept Hmax). reflexivity.
Qed.

Lemma NormalizeVector_axis (a b c : R) :
  a * a + b * b + c * c = 1 -> cast a = a -> cast b = b -> cast c = c ->
  NormalizeVector (mkVector3 a b c) = mkVector3 a b c.
Proof.
  intros Hn Ha Hb Hc. unfold NormalizeVector, ScaleVector, VectorNorm. cbn. cast_ops.
  rewrite Hn, sqrt_1, Ha, Hb, Hc. f_equal; field.
Qed.

Lemma identityMatrix_rows :
  identityMatrix
  = mkMatrix3x3 (mkVector3 1 0 0) (mkVector3 0 1 0) (mkVector3 0 0 1).
Proof. unfold identityMatrix. cast_ops. reflexivity. Qed.

Lemma OrthonormalizeMatrix_identity :
  cast 0 = 0 -> cast 1 = 1 -> OrthonormalizeMatrix identityMatrix = identityMatrix.
Proof.
  intros H0 H1. rewrite identityMatrix_rows.
  unfold OrthonormalizeMatrix. cbn [rX rY rZ]. cbv zeta.
  assert (HZ : ComputeCrossProduct (mkVector3 1 0 0) (mkVector3 0 1 0) = mkVector3 0 0 1).
  { unfold ComputeCrossProduct. cbn. cast_ops. f_equal; ring. }
  assert (HY : ComputeCrossProduct (mkVector3 0 0 1) (mkVector3 1 0 0) = mkVector3 0 1 0).
  { unfold ComputeCrossProduct. cbn. cast_ops. f_equal; ring. }
  rewrite HZ, HY. unfold CopyVector. cbn [vX vY vZ].
  rewrite !NormalizeVector_axis by (ring || assumption).
  reflexivity.
Qed.

Lemma MatrixToQuaternion_identity :
  cast 0 = 0 -> cast 1 = 1 -> MatrixToQuaternion identityMatrix = nullQuaternion.
Proof.
  intros H0 H1.
  unfold MatrixToQuaternion. rewrite (OrthonormalizeMatrix_identity H0 H1).
  rewrite identityMatrix_rows. cbn [rX rY rZ vX vY vZ]. cbv zeta.
  unfold nullQuaternion. cast_ops. cbv [dlt].
  destruct (Rlt_dec 0 (1 + 1 + 1)) as [_ | Hn]; [|exfalso; lra].
  replace (1 + 1 + 1 + 1) with (2 * 2) by ring. rewrite sqrt_square by lra.
  f_equal; field.
Qed.


(** X14.  ComputeRigidBodyPose with three markers, for every cast function
    that leaves 0 and 1 unchanged, and over exact reals otherwise.  When the
    marker limit is at least 3, the frame that the function builds from the
    model markers has a determinant that is not zero, and each marker is seen
    where the model marker moved by one translation t would be, the function
    returns true and the null orientation, whatever default orientation is
    passed; the position returned is the cast of 3 t divided by 3, which is
    t when the components of 3 t pass the cast to single precision
    unchanged. *)
Theorem ComputeRigidBodyPose_translation
    (MAX_RIGID_BODY_MARKERS : Z) (model actual : array (Vector3 R)) (t : Vector3 R)
    (default_orientation : option (Quaternion R)) :
  (3 <= MAX_RIGID_BODY_MARKERS)%Z ->
  cast 0 = 0 ->
  cast 1 = 1 ->
  Determinant (marker_frame model) <> 0 ->
  (forall i, (0 <= i < 3)%Z -> actual i = AddVectors (model i) t) ->
  let r := ComputeRigidBodyPose MAX_RIGID_BODY_MARKERS model actual 3 default_orientation in
  r = (true, scaled (/ 3) (casted (scaled 3 t)), nullQuaternion)
  /\ (cast_keeps (scaled 3 t) -> r = (true, t, nullQuaternion)).
Proof.
  intros Hmax H0 H1 Hdet Hact. cbv zeta.
  assert (Hr : ComputeRigidBodyPose MAX_RIGID_BODY_MARKERS model actual 3
                 default_orientation
               = (true, scaled (/ 3) (casted (scaled 3 t)), nullQuaternion)).
  { rewrite (ComputeRigidBodyPose_three_markers model actual default_orientation Hmax).
    cbv zeta.
    assert (Hframe : marker_frame actual = marker_frame model).
    { unfold marker_frame. rewrite (Hact 0%Z), (Hact 1%Z), (Hact 2%Z) by lia.
      replace (SubtractVectors (AddVectors (model 1%Z) t) (AddVectors (model 0%Z) t))
        with (SubtractVectors (model 1%Z) (model 0%Z)).
      2:{ generalize (model 1%Z) (model 0%Z). intros a b. open_vector a. open_vector b.
          open_vector t. unfold SubtractVectors, AddVectors. cbn. cast_ops. f_equal; ring. }
      replace (SubtractVectors (AddVectors (model 2%Z) t) (AddVectors (model 0%Z) t))
        with (SubtractVectors (model 2%Z) (model 0%Z)).
      2:{ generalize (model 2%Z) (model 0%Z). intros a b. open_vector a. open_vector b.
          open_vector t. unfold SubtractVectors, AddVectors. cbn. cast_ops. f_equal; ring. }
      reflexivity. }
    rewrite Hframe.
    assert (Hinv : MultiplyMatrices (fst (InvertMatrix (marker_frame model)))
                     (marker_frame model) = identityMatrix)
      by exact (InvertMatrix_left Hdet).
    rewrite Hinv, (MatrixToQuaternion_identity H0 H1).
    cbn [for_range]. rewrite !(RotateVector_null _ H0).
    change (0 + 1)%Z with 1%Z. change (1 + 1)%Z with 2%Z.
    rewrite (Hact 0%Z), (Hact 1%Z), (Hact 2%Z) by lia.
    generalize (model 0%Z) (model 1%Z) (model 2%Z). intros m0 m1 m2.
    f_equal. f_equal.
    open_vector m0. open_vector m1. open_vector m2. open_vector t.
    unfold ScaleVector, AddVectors, SubtractVectors, CopyVector, zeroVector, scaled,
      casted.
    cbn. cast_ops.
    f_equal; (rewrite Rmult_comm; f_equal; [field | f_equal; ring]). }
  split; [exact Hr|].
  intros Hk. rewrite Hr, (casted_kept Hk). f_equal. f_equal.
  open_vector t. unfold scaled. cbn. f_equal; field.
Qed.

End SinglePrecisionFacts.

(** The properties above at the cast that rounds down to an integer, on
    vectors and quaternions with integer components. *)
Section SinglePrecisionSample.
Import VectorsMixin ExactReal.
Local Open Scope R_scope.
#[local] Remove Hints R_DoubleOps : typeclass_instances.
#[local] Hint Extern 0 (DoubleOps _) =>
  exact (cast_DoubleOps Sample.sample_cast) : typeclass_instances.

Lemma sample_cast_integer (r : R) (z : Z) : r = IZR z -> Sample.sample_cast r = r.
Proof.
  intros ->. unfold Sample.sample_cast. f_equal. symmetry. apply Int_part_spec. lra.
Qed.

Lemma sample_cast_keeps (x y z : Z) :
  cast_keeps Sample.sample_cast (mkVector3 (IZR x) (IZR y) (IZR z)).
Proof. repeat split; apply (@sample_cast_integer _ _ eq_refl). Qed.

Lemma sample_norm_345 : VectorNorm (mkVector3 3 0 4) = 5.
Proof.
  unfold VectorNorm. cbn.
  replace (3 * 3 + 0 * 0 + 4 * 4) with (5 * 5) by ring. apply sqrt_square. lra.
Qed.

Lemma NormalizeVector_unit_witness :
  VectorNorm (NormalizeVector (mkVector3 3 0 4)) = 1.
Proof.
  apply (@NormalizeVector_unit Sample.sample_cast (mkVector3 3 0 4)).
  - rewrite sample_norm_345. lra.
  - apply (sample_cast_keeps 3 0 4).
Defined.

Lemma RotateVector_isometry_witness :
  VectorNorm (RotateVector (mkQuaternion 0 0 1 0) (mkVector3 1 2 3))
  = VectorNorm (mkVector3 1 2 3).
Proof.
  apply (@RotateVector_isometry Sample.sample_cast (mkQuaternion 0 0 1 0)
           (mkVector3 1 2 3) (mkVector3 1 2 3)).
  - unfold quaternion_norm2. cbn. lra.
  - apply (sample_cast_keeps 0 0 1).
Defined.

Lemma AngleBetween_symmetric_witness :
  AngleBetween (mkQuaternion 0 0 1 0) (mkQuaternion 1 0 0 0)
  = AngleBetween (mkQuaternion 1 0 0 0) (mkQuaternion 0 0 1 0).
Proof.
  apply (@AngleBetween_symmetric Sample.sample_cast (mkQuaternion 0 0 1 0)
           (mkQuaternion 1 0 0 0)).
  - apply (sample_cast_keeps 0 0 1).
  - apply (sample_cast_keeps 1 0 0).
Defined.

Lemma RotateVector_composes_witness :
  RotateVector (MultiplyQuaternions (mkQuaternion 0 0 1 0) (mkQuaternion 1 0 0 0))
    (mkVector3 1 2 3)
  = RotateVector (mkQuaternion 0 0 1 0)
      (RotateVector (mkQuaternion 1 0 0 0) (mkVector3 1 2 3)).
Proof.
  apply (proj2 (RotateVector_composes Sample.sample_cast (mkQuaternion 0 0 1 0)
                  (mkQuaternion 1 0 0 0) (mkVector3 1 2 3))).
  - apply (sample_cast_keeps 0 0 1).
  - apply (sample_cast_keeps 1 0 0).
  - unfold MultiplyQuaternions, vector_part. cbn.
    repeat split; cbn.
    + apply (@sample_cast_integer _ 0). lra.
    + apply (@sample_cast_integer _ 1). lra.
    + apply (@sample_cast_integer _ 0). lra.
Defined.

(** A half turn about the axis (0, 0, 2). *)
Lemma SetQuaternion_rotation_witness :
  quaternion_norm2 (SetQuaternion PI (mkVector3 0 0 2)) = 1.
Proof.
  apply (@SetQuaternion_rotation Sample.sample_cast PI (mkVector3 0 0 2)
           (mkVector3 1 2 3)).
  - unfold VectorNorm. cbn.
    replace (0 * 0 + 0 * 0 + 2 * 2) with (2 * 2) by ring. rewrite sqrt_square; lra.
  - apply (sample_cast_keeps 0 0 2).
  - rewrite cos_PI2. apply (@sample_cast_integer _ 0). reflexivity.
Defined.

Lemma OrthonormalizeMatrix_rotation_witness :
  Determinant
    (OrthonormalizeMatrix
       (mkMatrix3x3 (mkVector3 3 0 4) (mkVector3 0 1 0) (mkVector3 0 0 0))) = 1.
Proof.
  assert (Hc : ComputeCrossProduct (mkVector3 3 0 4) (mkVector3 0 1 0)
               = mkVector3 (-4) 0 3).
  { unfold ComputeCrossProduct. cbn. f_equal; lra. }
  assert (Hy : ComputeCrossProduct (mkVector3 (-4) 0 3) (mkVector3 3 0 4)
               = mkVector3 0 25 0).
  { unfold ComputeCrossProduct. cbn. f_equal; lra. }
  apply (@OrthonormalizeMatrix_rotation Sample.sample_cast
           (mkMatrix3x3 (mkVector3 3 0 4) (mkVector3 0 1 0) (mkVector3 0 0 0)));
    cbn [rX rY rZ]; rewrite ?Hc, ?Hy.
  - unfold VectorNorm. cbn.
    replace (-4 * -4 + 0 * 0 + 3 * 3) with (5 * 5) by ring. rewrite sqrt_square; lra.
  - apply (sample_cast_keeps 3 0 4).
  - apply (sample_cast_keeps 0 25 0).
  - apply (sample_cast_keeps (-4) 0 3).
Defined.

(** Two markers at (1, 2, 3) in the model, seen turned half a turn about Z
    and moved by (5, 6, 7). *)
Lemma ComputeRigidBodyPose_default_orientation_witness :
  let model := fun _ : Z => mkVector3 1 2 3 in
  let actual := fun _ : Z =>
    AddVectors (RotateVector (mkQuaternion 0 0 1 0) (mkVector3 1 2 3)) (mkVector3 5 6 7) in
  ComputeRigidBodyPose 8 model actual 2 (Some (mkQuaternion 0 0 1 0))
  = (true, mkVector3 5 6 7, mkQuaternion 0 0 1 0).
Proof.
  cbv zeta.
  destruct (@ComputeRigidBodyPose_default_orientation Sample.sample_cast 8
              (fun _ : Z => mkVector3 1 2 3)
              (fun _ : Z =>
                 AddVectors (RotateVector (mkQuaternion 0 0 1 0) (mkVector3 1 2 3))
                   (mkVector3 5 6 7))
              2 (mkQuaternion 0 0 1 0) (mkVector3 5 6 7))
    as (Hflag & Hq & Hpos); [lia | lia |].
  destruct Hpos as [_ Hpos]; [intros i _; reflexivity|].
  assert (Hk : cast_keeps Sample.sample_cast (scaled 2 (mkVector3 5 6 7))).
  { unfold scaled, cast_keeps. cbn [vX vY vZ]. repeat split.
    - apply (@sample_cast_integer _ 10). lra.
    - apply (@sample_cast_integer _ 12). lra.
    - apply (@sample_cast_integer _ 14). lra. }
  specialize (Hpos Hk). revert Hflag Hq Hpos.
  match goal with |- fst (fst ?r) = _ -> _ => generalize r end.
  intros [[f p] o]. cbn. intros -> -> ->. reflexivity.
Defined.

(** Markers at the origin, on the X axis and on the Y axis, and the same
    markers moved by (5, 6, 7). *)
Definition sample_model : array (Vector3 R) :=
  fun i => if (i =? 1)%Z then mkVector3 1 0 0
           else if (i =? 2)%Z then mkVector3 0 1 0 else mkVector3 0 0 0.

Lemma sample_model_frame :
  marker_frame Sample.sample_cast sample_model
  = mkMatrix3x3 (mkVector3 1 0 0) (mkVector3 0 1 0) (mkVector3 0 0 1).
Proof.
  assert (H0 : Sample.sample_cast 0 = 0) by (apply (@sample_cast_integer _ 0); reflexivity).
  assert (H1 : Sample.sample_cast 1 = 1) by (apply (@sample_cast_integer _ 1); reflexivity).
  unfold marker_frame. cbv zeta.
  assert (HX : SubtractVectors (sample_model 1%Z) (sample_model 0%Z) = mkVector3 1 0 0).
  { unfold SubtractVectors, sample_model. cbn. f_equal; lra. }
  assert (HT : SubtractVectors (sample_model 2%Z) (sample_model 0%Z) = mkVector3 0 1 0).
  { unfold SubtractVectors, sample_model. cbn. f_equal; lra. }
  assert (HZ : ComputeCrossProduct (mkVector3 1 0 0) (mkVector3 0 1 0) = mkVector3 0 0 1).
  { unfold ComputeCrossProduct. cbn. f_equal; lra. }
  assert (HY : ComputeCrossProduct (mkVector3 0 0 1) (mkVector3 1 0 0) = mkVector3 0 1 0).
  { unfold ComputeCrossProduct. cbn. f_equal; lra. }
  rewrite HX, HT.
  rewrite (@NormalizeVector_axis Sample.sample_cast 1 0 0) by (lra || assumption).
  rewrite HZ.
  rewrite (@NormalizeVector_axis Sample.sample_cast 0 0 1) by (lra || assumption).
  rewrite HY.
  rewrite (@NormalizeVector_axis Sample.sample_cast 0 1 0) by (lra || assumption).
  reflexivity.
Qed.

Lemma ComputeRigidBodyPose_translation_witness :
  let actual := fun i => AddVectors (sample_model i) (mkVector3 5 6 7) in
  ComputeRigidBodyPose 8 sample_model actual 3 None = (true, mkVector3 5 6 7, nullQuaternion).
Proof.
  cbv zeta.
  apply (@ComputeRigidBodyPose_translation Sample.sample_cast 8 sample_model
           (fun i => AddVectors (sample_model i) (mkVector3 5 6 7)) (mkVector3 5 6 7) None).
  - lia.
  - apply (@sample_cast_integer _ 0). reflexivity.
  - apply (@sample_cast_integer _ 1). reflexivity.
  - rewrite sample_model_frame. unfold Determinant. cbn. lra.
  - intros i _. reflexivity.
  - unfold scaled, cast_keeps. cbn [vX vY vZ]. repeat split.
    + apply (@sample_cast_integer _ 15). lra.
    + apply (@sample_cast_integer _ 18). lra.
    + apply (@sample_cast_integer _ 21). lra.
Defined.

End SinglePrecisionSample.

(* ================================================================== *)
(** * Further properties of DexAnalogMixin *)

Section ConstructorFacts.
Context {D : Type} {ops : DoubleOps D} {libm : Libm D} {consts : Constants D}.
Import VectorsMixin DexAnalogMixin.
Local Open Scope Z_scope.

(** The loop of the constructor over the sensors: the accumulators of the
    indices it runs over are zeroed, nothing else changes. *)
Lemma zero_filteredCoP (count : nat) (first : Z) (d : t D) :
  let d' := for_range count first
              (fun ati d0 =>
                 set_filteredCoP (array_set (filteredCoP d0) ati (CopyVector zeroVector)) d0)
              d in
  d' = set_filteredCoP (filteredCoP d') d
  /\ (forall ati, first <= ati < first + Z.of_nat count -> filteredCoP d' ati = zeroVector)
  /\ (forall ati, ~ (first <= ati < first + Z.of_nat count) ->
        filteredCoP d' ati = filteredCoP d ati).
Proof.
  revert first d. induction count as [|count IH]; intros first d; cbn [for_range].
  - cbv zeta. split; [destruct d; reflexivity|]. split; [intros ati H; lia | reflexivity].
  - specialize (IH (first + 1)
                  (set_filteredCoP (array_set (filteredCoP d) first (CopyVector zeroVector)) d)).
    cbv zeta in IH |- *. destruct IH as (A1 & A2 & A3).
    split; [rewrite A1 at 1; destruct d; reflexivity|]. split.
    + intros ati Hati. destruct (Z.eq_dec ati first) as [-> | Hne].
      * rewrite A3 by lia. cbn. unfold array_set. rewrite Z.eqb_refl. reflexivity.
      * apply A2. lia.
    + intros ati Hati. rewrite A3 by lia. cbn. unfold array_set.
      destruct (Z.eqb_spec ati first) as [-> | _]; [lia | reflexivity].
Qed.

(** X18.  The constructor sets the filter constant to 100 and zeroes the
    accumulators of position, rotations, load force, acceleration, grip
    force and of the center of pressure of every sensor; it does not assign
    the accumulators of the normal forces, which keep what the storage of
    the object held. *)
Theorem constructor_initial_state (raw : t D) :
  let d := constructor raw in
  GetFilterConstant d = dlit 100.0
  /\ filteredManipulandumPosition d = zeroVector
  /\ filteredManipulandumRotations d = zeroVector
  /\ filteredLoadForce d = zeroVector
  /\ filteredAcceleration d = zeroVector
  /\ filteredGripForce d = dlit 0.0
  /\ (forall ati, 0 <= ati < N_FORCE_TRANSDUCERS -> filteredCoP d ati = zeroVector)
  /\ filteredNormalForce d = filteredNormalForce raw.
Proof.
  cbv zeta. unfold constructor. cbv zeta.
  match goal with
  | |- context [for_range ?n ?first ?body ?d0] =>
      destruct (zero_filteredCoP n first d0) as (A1 & A2 & _);
      cbv zeta in A1, A2;
      set (d1 := for_range n first body d0) in *
  end.
  unfold GetFilterConstant. rewrite A1. cbn.
  split; [reflexivity|]. split; [reflexivity|]. split; [reflexivity|].
  split; [reflexivity|]. split; [reflexivity|]. split; [reflexivity|].
  split; [|reflexivity].
  intros ati Hati. apply A2. lia.
Qed.

End ConstructorFacts.

Section FilterFacts.
Context {consts : Constants R}.
Import VectorsMixin DexAnalogMixin ExactReal.
Local Open Scope R_scope.

(** [x] lies between [a] and [b], in whichever order they are. *)
Definition between (a b x : R) : Prop := Rmin a b <= x <= Rmax a b.

Definition between3 (a b v : Vector3 R) : Prop :=
  between (vX a) (vX b) (vX v) /\ between (vY a) (vY b) (vY v)
  /\ between (vZ a) (vZ b) (vZ v).

Lemma one_pole_between (k x y : R) : 0 <= k -> between y x (one_pole k x y).
Proof.
  intros Hk. unfold between, one_pole.
  assert (Hq : (x + k * y) / (1 + k) * (1 + k) = x + k * y) by (field; lra).
  revert Hq. generalize ((x + k * y) / (1 + k)). intros q Hq.
  unfold Rmin, Rmax. destruct (Rle_dec y x) as [Hle | Hgt]; split; nra.
Qed.

Lemma filter_vector_between (k : R) (f v : Vector3 R) :
  0 <= k -> between3 f v (filter_vector k f v).
Proof.
  intros Hk. unfold between3.
  assert (HX : vX (filter_vector k f v) = one_pole k (vX v) (vX f)).
  { unfold filter_vector, one_pole, ScaleVector, AddVectors. cbn.
    cbv [dadd dmul ddiv dlit to_float R_DoubleOps]. rewrite Q2R_1. field. lra. }
  assert (HY : vY (filter_vector k f v) = one_pole k (vY v) (vY f)).
  { unfold filter_vector, one_pole, ScaleVector, AddVectors. cbn.
    cbv [dadd dmul ddiv dlit to_float R_DoubleOps]. rewrite Q2R_1. field. lra. }
  assert (HZ : vZ (filter_vector k f v) = one_pole k (vZ v) (vZ f)).
  { unfold filter_vector, one_pole, ScaleVector, AddVectors. cbn.
    cbv [dadd dmul ddiv dlit to_float R_DoubleOps]. rewrite Q2R_1. field. lra. }
  rewrite HX, HY, HZ.
  split; [|split]; apply one_pole_between; exact Hk.
Qed.

(** X20.  The load force does not depend on the order of the two sensors, the
    planar load force is the load force with its X component set to 0 and
    its magnitude is at most that of the load force, and swapping the
    sensors changes the sign of the grip force. *)
Theorem load_and_grip_force (force1 force2 : Vector3 R) :
  ComputeLoadForce force1 force2 = ComputeLoadForce force2 force1
  /\ fst (ComputePlanarLoadForce force1 force2)
     = mkVector3 0 (vY (fst (ComputeLoadForce force1 force2)))
                   (vZ (fst (ComputeLoadForce force1 force2)))
  /\ 0 <= snd (ComputePlanarLoadForce force1 force2) <= snd (ComputeLoadForce force1 force2)
  /\ ComputeGripForce force2 force1 = - ComputeGripForce force1 force2.
Proof.
  destruct force1 as [x1 y1 z1]. destruct force2 as [x2 y2 z2].
  unfold ComputeLoadForce, ComputePlanarLoadForce, ComputeGripForce, VectorNorm.
  cbn. cbv [dadd dsub dmul ddiv dlit dsqrt R_DoubleOps].
  rewrite Q2R_0.
  assert (H2 : Q2R 2.0 = 2) by (unfold Q2R; cbn; lra). rewrite H2.
  split; [|split; [|split]].
  - f_equal; [f_equal; ring | f_equal; ring].
  - reflexivity.
  - split; [apply sqrt_pos|]. apply sqrt_le_1_alt.
    pose proof (Rle_0_sqr (x1 + x2)) as Hsq. unfold Rsqr in Hsq. lra.
  - field.
Qed.

End FilterFacts.

(* ================================================================== *)
(** * The filters with the cast to single precision kept *)

(** The two scalar filters have no cast.  The five vector filters go twice
    through ScaleVector, which casts each component to [float]: the
    accumulator before it is multiplied by k, and the sum before it is
    divided by 1 + k.  The properties below are proved for every cast
    function, over exact reals otherwise. *)

Section FilterCastFacts.
Context {consts : Constants R} (cast : R -> R).
Import VectorsMixin DexAnalogMixin ExactReal.
Local Open Scope R_scope.
#[local] Remove Hints R_DoubleOps : typeclass_instances.
#[local] Hint Extern 0 (DoubleOps _) => exact (cast_DoubleOps cast) : typeclass_instances.

(** One update of a vector filter with constant [k], accumulator [f] and
    sample [v], component by component. *)
Definition vector_update (k : R) (f v : Vector3 R) : Vector3 R :=
  mkVector3 (cast (cast (vX f) * k + vX v) / (1 + k))
            (cast (cast (vY f) * k + vY v) / (1 + k))
            (cast (cast (vZ f) * k + vZ v) / (1 + k)).

(** The sum that a vector filter casts before the division, when the
    accumulator has passed the cast unchanged. *)
Definition filter_sum (k : R) (f v : Vector3 R) : Vector3 R :=
  mkVector3 (vX f * k + vX v) (vY f * k + vY v) (vZ f * k + vZ v).

(** The accumulator and the sum both pass the cast unchanged. *)
Definition filter_kept (k : R) (f v : Vector3 R) : Prop :=
  cast_keeps cast f /\ cast_keeps cast (filter_sum k f v).

(** The one-pole formula on each component. *)
Definition one_pole3 (k : R) (f v : Vector3 R) : Vector3 R :=
  mkVector3 (one_pole k (vX v) (vX f)) (one_pole k (vY v) (vY f))
            (one_pole k (vZ v) (vZ f)).

Lemma filter_vector_update (k : R) (f v : Vector3 R) :
  filter_vector k f v = vector_update k f v.
Proof.
  unfold filter_vector, vector_update, ScaleVector, AddVectors. cbn.
  cbv [dadd dmul ddiv dlit to_float cast_DoubleOps]. rewrite Q2R_1.
  f_equal; unfold Rdiv; ring.
Qed.

Lemma vector_update_kept (k : R) (f v : Vector3 R) :
  filter_kept k f v -> vector_update k f v = one_pole3 k f v.
Proof.
  intros [(Hx & Hy & Hz) (Sx & Sy & Sz)]. unfold filter_sum in Sx, Sy, Sz.
  cbn [vX vY vZ] in Sx, Sy, Sz.
  unfold vector_update, one_pole3, one_pole.
  rewrite Hx, Hy, Hz, Sx, Sy, Sz. f_equal; f_equal; ring.
Qed.


Lemma one_pole3_between (k : R) (f v : Vector3 R) :
  0 <= k -> between3 f v (one_pole3 k f v).
Proof.
  intros Hk. unfold between3, one_pole3. cbn [vX vY vZ].
  split; [|split]; apply one_pole_between; exact Hk.
Qed.

(** What each vector filter returns in place and leaves in its accumulator. *)
Lemma vector_filters_update (d : t R) (v : Vector3 R) (which_ati : Z) :
  let k := filterConstant d in
  (snd (fst (FilterLoadForce d v)) = vector_update k (filteredLoadForce d) v
   /\ filteredLoadForce (fst (fst (FilterLoadForce d v))) = snd (fst (FilterLoadForce d v)))
  /\ (snd (fst (FilterCoP d which_ati v)) = vector_update k (filteredCoP d which_ati) v
      /\ filteredCoP (fst (fst (FilterCoP d which_ati v))) which_ati
         = snd (fst (FilterCoP d which_ati v)))
  /\ (snd (fst (FilterManipulandumPosition d v))
        = vector_update k (filteredManipulandumPosition d) v
      /\ filteredManipulandumPosition (fst (fst (FilterManipulandumPosition d v)))
         = snd (fst (FilterManipulandumPosition d v)))
  /\ (snd (fst (FilterManipulandumRotations d v))
        = vector_update k (filteredManipulandumRotations d) v
      /\ filteredManipulandumRotations (fst (fst (FilterManipulandumRotations d v)))
         = snd (fst (FilterManipulandumRotations d v)))
  /\ (snd (fst (FilterAcceleration d v)) = vector_update k (filteredAcceleration d) v
      /\ filteredAcceleration (fst (fst (FilterAcceleration d v)))
         = snd (fst (FilterAcceleration d v))).
Proof.
  cbv zeta.
  assert (Hcopy : forall w : Vector3 R, CopyVector w = w) by (intros []; reflexivity).
  unfold FilterLoadForce, FilterCoP, FilterManipulandumPosition,
    FilterManipulandumRotations, FilterAcceleration.
  cbn -[filter_vector CopyVector]. unfold array_set. rewrite Z.eqb_refl.
  rewrite !Hcopy, !filter_vector_update.
  repeat split.
Qed.


(** X19.  With a smoothing constant that is not negative, for every cast
    function and over exact reals otherwise: the value returned by each of
    the two scalar filters lies between the previous content of the
    accumulator and the new sample; so does each component of the vector
    returned in place by each of the five vector filters, when the
    accumulator and the sum accumulator * k + sample pass the cast to single
    precision unchanged. *)
Theorem filters_do_not_overshoot (d : t R) (x : R) (v : Vector3 R) (ati : Z) :
  0 <= filterConstant d ->
  let k := filterConstant d in
  between (filteredGripForce d) x (snd (FilterGripForce d x))
  /\ ((0 <= ati < N_FORCE_TRANSDUCERS)%Z ->
      between (filteredNormalForce d ati) x (snd (FilterNormalForce d x ati)))
  /\ (filter_kept k (filteredLoadForce d) v ->
      between3 (filteredLoadForce d) v (snd (fst (FilterLoadForce d v))))
  /\ (filter_kept k (filteredCoP d ati) v ->
      between3 (filteredCoP d ati) v (snd (fst (FilterCoP d ati v))))
  /\ (filter_kept k (filteredManipulandumPosition d) v ->
      between3 (filteredManipulandumPosition d) v
        (snd (fst (FilterManipulandumPosition d v))))
  /\ (filter_kept k (filteredManipulandumRotations d) v ->
      between3 (filteredManipulandumRotations d) v
        (snd (fst (FilterManipulandumRotations d v))))
  /\ (filter_kept k (filteredAcceleration d) v ->
      between3 (filteredAcceleration d) v (snd (fst (FilterAcceleration d v)))).
Proof.
  intros Hk. cbv zeta.
  destruct (FilterGripForce_one_pole d x) as (_ & Hs & _).
  destruct (vector_filters_update d v ati) as ((V1 & _) & (V2 & _) & (V3 & _) & (V4 & _)
                                               & (V5 & _)).
  cbv zeta in V1, V2, V3, V4, V5.
  split; [|split; [|split; [|split; [|split; [|split]]]]].
  - change (snd (FilterGripForce d x))
      with (snd (FilterGripForce (ops := R_DoubleOps) d x)).
    rewrite Hs. apply one_pole_between. exact Hk.
  - intros Hati. destruct (FilterNormalForce_one_pole d x Hati) as (_ & Hr & _).
    change (snd (FilterNormalForce d x ati))
      with (snd (FilterNormalForce (ops := R_DoubleOps) d x ati)).
    rewrite Hr. apply one_pole_between. exact Hk.
  - intros Hkept. rewrite V1, (vector_update_kept Hkept). apply one_pole3_between, Hk.
  - intros Hkept. rewrite V2, (vector_update_kept Hkept). apply one_pole3_between, Hk.
  - intros Hkept. rewrite V3, (vector_update_kept Hkept). apply one_pole3_between, Hk.
  - intros Hkept. rewrite V4, (vector_update_kept Hkept). apply one_pole3_between, Hk.
  - intros Hkept. rewrite V5, (vector_update_kept Hkept). apply one_pole3_between, Hk.
Qed.

End FilterCastFacts.

Section FilterCastSample.
Import VectorsMixin DexAnalogMixin ExactReal.
Local Open Scope R_scope.
#[local] Remove Hints R_DoubleOps : typeclass_instances.
#[local] Hint Extern 0 (DoubleOps _) =>
  exact (cast_DoubleOps Sample.sample_cast) : typeclass_instances.


(** The same object: the load force filter, from the accumulator (0, 0, 0)
    with the sample (101, 202, 303), stays between the two. *)
Lemma filters_do_not_overshoot_witness :
  between3 (filteredLoadForce Sample.sample_dex) (mkVector3 101 202 303)
    (snd (fst (FilterLoadForce Sample.sample_dex (mkVector3 101 202 303)))).
Proof.
  assert (Hk : 0 <= filterConstant Sample.sample_dex) by (cbn; lra).
  destruct (@filters_do_not_overshoot Sample.sample_constants Sample.sample_cast
              Sample.sample_dex 0 (mkVector3 101 202 303) 0%Z Hk)
    as (_ & _ & Hload & _).
  apply Hload. split.
  - apply (sample_cast_keeps 0 0 0).
  - unfold filter_sum, cast_keeps. cbn [vX vY vZ filteredLoadForce filterConstant
      Sample.sample_dex].
    repeat split.
    + apply (@sample_cast_integer _ 101). lra.
    + apply (@sample_cast_integer _ 202). lra.
    + apply (@sample_cast_integer _ 303). lra.
Defined.

End FilterCastSample.

(* ================================================================== *)
(** * The frames that the decoder writes *)

Section BufferFacts.
Context {D : Type} {ops : DoubleOps D} {libm : Libm D} {consts : Constants D}
        {codec : GripPackets.Codec D}.
Import VectorsMixin GripPackets GripMMI.
Local Open Scope Z_scope.

(** [s'] has the frame count of [s] and differs from it in the data buffers
    at frame [n] only. *)
Definition wrote_frame (n : Z) (s s' : State D) : Prop :=
  nFrames s' = nFrames s /\ forall i, i <> n -> same_frame (buf s) (buf s') i.

Lemma wrote_frame_refl n (s : State D) : wrote_frame n s s.
Proof. split; [reflexivity|]. intros i _. apply same_frame_refl. Qed.

Lemma wrote_frame_trans n (s1 s2 s3 : State D) :
  wrote_frame n s1 s2 -> wrote_frame n s2 s3 -> wrote_frame n s1 s3.
Proof.
  intros (A1 & A2) (B1 & B2). split; [congruence|].
  intros i Hi. exact (same_frame_trans (A2 i Hi) (B2 i Hi)).
Qed.

(** Reads the frames other than [n] back through the stores of the goal. *)
Ltac other_frames Hi :=
  unfold same_frame; cbn;
  rewrite ?(array_set_neq _ _ Hi);
  repeat split; intros;
  rewrite ?array_set2_get, ?(proj2 (Z.eqb_neq _ _) Hi), ?andb_false_r;
  reflexivity.

(** Case analysis on every test the goal is stuck on. *)
Ltac split_tests :=
  repeat match goal with
         | |- context [if ?c then _ else _] => destruct c
         end.

(** Opens the state of a goal about one block of the slice decoder. *)
Ltac open_state s :=
  destruct s as [nf b mvs d root c1 alert c2 f]; destruct b.

Lemma slice_grip_force_local sl (s : State D) :
  wrote_frame (nFrames s) s (slice_grip_force sl s).
Proof.
  open_state s. unfold slice_grip_force. cbn.
  split; [reflexivity|]. intros i Hi. other_frames Hi.
Qed.

Lemma slice_normal_forces_local sl (s : State D) :
  wrote_frame (nFrames s) s (slice_normal_forces sl s).
Proof.
  open_state s. unfold slice_normal_forces, DexAnalogMixin.FilterNormalForce. cbn.
  split_tests; cbn; (split; [reflexivity|]); intros i Hi; other_frames Hi.
Qed.

Lemma slice_load_force_local sl (s : State D) :
  wrote_frame (nFrames s) s (slice_load_force sl s).
Proof.
  open_state s. unfold slice_load_force. cbn.
  split; [reflexivity|]. intros i Hi. other_frames Hi.
Qed.

Lemma slice_acceleration_local sl (s : State D) :
  wrote_frame (nFrames s) s (slice_acceleration sl s).
Proof.
  open_state s. unfold slice_acceleration. cbn.
  split; [reflexivity|]. intros i Hi. other_frames Hi.
Qed.

Lemma slice_pose_local sl (s : State D) :
  wrote_frame (nFrames s) s (slice_pose sl s).
Proof.
  open_state s. unfold slice_pose.
  destruct (negb (manipulandumVisibility sl =? 0)); cbn.
  - match goal with |- context [_finite ?x] => destruct (_finite x) end; cbn;
      (split; [reflexivity|]); intros i Hi; other_frames Hi.
  - split; [reflexivity|]. intros i Hi. other_frames Hi.
Qed.

Lemma slice_center_of_pressure_local sl (s : State D) :
  wrote_frame (nFrames s) s (slice_center_of_pressure sl s).
Proof.
  unfold slice_center_of_pressure. cbv zeta.
  apply (for_range_invariant (fun s' => wrote_frame (nFrames s) s s')).
  - intros ati s' Hs'. apply (wrote_frame_trans Hs').
    generalize (nFrames s). intros n. clear.
    open_state s'. unfold DexAnalogMixin.ComputeCoP. cbn.
    split_tests; cbn; (split; [reflexivity|]); intros i Hi; other_frames Hi.
  - apply wrote_frame_refl.
Qed.

Lemma mark_markers_local sl first last offset (s : State D) :
  wrote_frame (nFrames s) s (fst (mark_markers sl first last offset s)).
Proof.
  unfold mark_markers.
  apply (for_range_invariant
           (fun p : State D * Z => wrote_frame (nFrames s) s (fst p))).
  - intros mrk [s' count] Hs'. cbn [fst] in *.
    assert (Hn : nFrames s' = nFrames s) by apply Hs'.
    assert (Hstep : forall v, wrote_frame (nFrames s) s'
                                (store_MarkerVisibility (nFrames s') mrk v s')).
    { intros v. rewrite Hn. generalize (nFrames s). intros n. clear.
      open_state s'. cbn. split; [reflexivity|]. intros i Hi. other_frames Hi. }
    split_tests; cbn [fst]; exact (wrote_frame_trans Hs' (Hstep _)).
  - cbn [fst]. apply wrote_frame_refl.
Qed.

Lemma store_local (n : Z) (g : State D -> State D) (s : State D) :
  (forall s0, wrote_frame n s0 (g s0)) -> forall s1, wrote_frame n s s1 ->
  wrote_frame n s (g s1).
Proof. intros Hg s1 Hs1. exact (wrote_frame_trans Hs1 (Hg s1)). Qed.

Lemma store_ManipulandumVisibility_local n v (s : State D) :
  wrote_frame n s (store_ManipulandumVisibility n v s).
Proof. open_state s. cbn. split; [reflexivity|]. intros i Hi. other_frames Hi. Qed.

Lemma store_FrameVisibility_local n v (s : State D) :
  wrote_frame n s (store_FrameVisibility n v s).
Proof. open_state s. cbn. split; [reflexivity|]. intros i Hi. other_frames Hi. Qed.

Lemma store_WristVisibility_local n v (s : State D) :
  wrote_frame n s (store_WristVisibility n v s).
Proof. open_state s. cbn. split; [reflexivity|]. intros i Hi. other_frames Hi. Qed.

Lemma store_PacketReceived_local n v (s : State D) :
  wrote_frame n s (store_PacketReceived n v s).
Proof. open_state s. cbn. split; [reflexivity|]. intros i Hi. other_frames Hi. Qed.

Lemma slice_visibility_local sl (s : State D) :
  wrote_frame (nFrames s) s (slice_visibility sl s).
Proof.
  unfold slice_visibility. cbv zeta.
  pose proof (mark_markers_local sl MANIPULANDUM_FIRST_MARKER MANIPULANDUM_LAST_MARKER 1 s)
    as A.
  set (s1 := fst (mark_markers sl MANIPULANDUM_FIRST_MARKER MANIPULANDUM_LAST_MARKER 1 s))
    in *.
  set (s2 := store_ManipulandumVisibility (nFrames s) _ s1).
  assert (B : wrote_frame (nFrames s) s s2).
  { apply (wrote_frame_trans A). apply store_ManipulandumVisibility_local. }
  pose proof (mark_markers_local sl FRAME_FIRST_MARKER FRAME_LAST_MARKER 3 s2) as C.
  replace (nFrames s2) with (nFrames s) in C by (symmetry; apply B).
  destruct (mark_markers sl FRAME_FIRST_MARKER FRAME_LAST_MARKER 3 s2) as [s3 count3].
  cbn [fst] in C.
  set (s4 := store_FrameVisibility (nFrames s) _ s3).
  assert (E : wrote_frame (nFrames s) s s4).
  { apply (wrote_frame_trans B). apply (wrote_frame_trans C).
    apply store_FrameVisibility_local. }
  pose proof (mark_markers_local sl WRIST_FIRST_MARKER WRIST_LAST_MARKER 5 s4) as F.
  replace (nFrames s4) with (nFrames s) in F by (symmetry; apply E).
  destruct (mark_markers sl WRIST_FIRST_MARKER WRIST_LAST_MARKER 5 s4) as [s5 count5].
  cbn [fst] in F.
  apply (wrote_frame_trans E). apply (wrote_frame_trans F).
  apply store_WristVisibility_local.
Qed.

(** A slice writes the frame at the frame count and moves the count by one. *)
Lemma decode_slice_local rt slice (s : State D) :
  nFrames (decode_slice rt slice s) = nFrames s + 1
  /\ forall i, i <> nFrames s -> same_frame (buf s) (buf (decode_slice rt slice s)) i.
Proof.
  unfold decode_slice. cbv zeta.
  set (sl := dataSlice rt slice).
  pose proof (slice_pose_local sl s) as A.
  set (s1 := slice_pose sl s) in *.
  pose proof (slice_grip_force_local sl s1) as B.
  replace (nFrames s1) with (nFrames s) in B by (symmetry; apply A).
  pose proof (wrote_frame_trans A B) as AB. clear A B.
  set (s2 := slice_grip_force sl s1) in *.
  pose proof (slice_normal_forces_local sl s2) as C.
  replace (nFrames s2) with (nFrames s) in C by (symmetry; apply AB).
  pose proof (wrote_frame_trans AB C) as AC. clear AB C.
  set (s3 := slice_normal_forces sl s2) in *.
  pose proof (slice_load_force_local sl s3) as E.
  replace (nFrames s3) with (nFrames s) in E by (symmetry; apply AC).
  pose proof (wrote_frame_trans AC E) as AE. clear AC E.
  set (s4 := slice_load_force sl s3) in *.
  pose proof (slice_center_of_pressure_local sl s4) as F.
  replace (nFrames s4) with (nFrames s) in F by (symmetry; apply AE).
  pose proof (wrote_frame_trans AE F) as AF. clear AE F.
  set (s5 := slice_center_of_pressure sl s4) in *.
  pose proof (slice_acceleration_local sl s5) as G.
  replace (nFrames s5) with (nFrames s) in G by (symmetry; apply AF).
  pose proof (wrote_frame_trans AF G) as AG. clear AF G.
  set (s6 := slice_acceleration sl s5) in *.
  pose proof (slice_visibility_local sl s6) as H.
  replace (nFrames s6) with (nFrames s) in H by (symmetry; apply AG).
  pose proof (wrote_frame_trans AG H) as AH. clear AG H.
  set (s7 := slice_visibility sl s6) in *.
  pose proof (store_PacketReceived_local (nFrames s7) (dlit (-10.0)) s7) as I.
  replace (nFrames s7) with (nFrames s) in I at 1 by (symmetry; apply AH).
  destruct (wrote_frame_trans AH I) as (J1 & J2).
  revert J1 J2. generalize (store_PacketReceived (nFrames s7) (dlit (-10.0)) s7).
  intros s8 J1 J2. cbn. split; [lia | exact J2].
Qed.

(** The slices of a packet write the frames from the frame count on, and no
    frame at or past MAX_FRAMES. *)
Lemma decode_slices_local rt (remaining : nat) (slice : Z) (s : State D) :
  nFrames s <= MAX_FRAMES ->
  let s' := decode_slices rt remaining slice s in
  forall i, i < nFrames s \/ nFrames s' <= i -> same_frame (buf s) (buf s') i.
Proof.
  revert slice s. induction remaining as [|remaining IH]; intros slice s Hle;
    cbn [decode_slices]; cbv zeta.
  - intros i _. apply same_frame_refl.
  - destruct (nFrames s <? MAX_FRAMES) eqn:Hlt; [|intros i _; apply same_frame_refl].
    apply Z.ltb_lt in Hlt.
    destruct (decode_slice_local rt slice s) as (A1 & A2).
    specialize (IH (slice + 1) (decode_slice rt slice s)).
    cbv zeta in IH.
    destruct (decode_slices_frame rt remaining (slice + 1) (decode_slice rt slice s))
      as (B1 & _); [lia|].
    intros i Hi.
    apply (same_frame_trans (A2 i ltac:(lia))). apply IH; lia.
Qed.

(** X21.  What GetGripRT does with one packet, entered as the read loop enters it
    (the buffers are not full).  At least one slice of the packet is decoded,
    also after a stream break; the frame count stays at most MAX_FRAMES; the
    frames recorded before the packet and every frame at or past MAX_FRAMES
    are left as they were; nothing outside the data buffers and the filters
    changes.  With no stream break the count grows by the ten slices of the
    packet, or up to MAX_FRAMES. *)
Theorem ingest_packet_within_buffers (rt : GripRealtimeDataInfo D) (previous : D)
    (s : State D) :
  nFrames s < MAX_FRAMES ->
  let s' := ingest_packet rt previous s in
  nFrames s < nFrames s' <= MAX_FRAMES
  /\ (forall i, i < nFrames s \/ MAX_FRAMES <= i -> same_frame (buf s) (buf s') i)
  /\ static_part s' = static_part s
  /\ ((packetTimestamp rt - previous >? dlit PACKET_STREAM_BREAK_THRESHOLD)%dbl = false ->
      nFrames s' = Z.min MAX_FRAMES (nFrames s + RT_SLICES_PER_PACKET)).
Proof.
  intros Hroom. cbv zeta. unfold ingest_packet. cbv zeta.
  assert (Hbreak : nFrames s <= nFrames (stream_break rt previous s) < MAX_FRAMES
                   /\ static_part (stream_break rt previous s) = static_part s
                   /\ (forall i, i < nFrames s \/ MAX_FRAMES <= i ->
                         same_frame (buf s) (buf (stream_break rt previous s)) i)
                   /\ ((packetTimestamp rt - previous
                          >? dlit PACKET_STREAM_BREAK_THRESHOLD)%dbl = false ->
                       stream_break rt previous s = s)).
  { unfold stream_break.
    destruct (packetTimestamp rt - previous >? dlit PACKET_STREAM_BREAK_THRESHOLD)%dbl.
    - destruct (insert_stream_break_spec (Z.to_nat MAX_PLOT_STEP) s Hroom)
        as (A1 & A2 & _ & _ & A5).
      cbv zeta in A1, A5.
      split; [lia|]. split; [exact A2|]. split; [|discriminate].
      intros i Hi. apply A5. lia.
    - split; [lia|]. split; [reflexivity|]. split; [|reflexivity].
      intros i _. apply same_frame_refl. }
  destruct Hbreak as (B1 & B2 & B3 & B4).
  set (s1 := stream_break rt previous s) in *.
  destruct (decode_slices_frame rt (Z.to_nat RT_SLICES_PER_PACKET) 0 s1) as (C1 & C2);
    [lia|].
  pose proof (decode_slices_local rt (Z.to_nat RT_SLICES_PER_PACKET) 0 s1
                ltac:(lia)) as C3.
  cbv zeta in C3.
  change (Z.of_nat (Z.to_nat RT_SLICES_PER_PACKET)) with 10 in C1.
  split; [lia|]. split; [|split; [congruence|]].
  - intros i Hi. apply (same_frame_trans (B3 i Hi)). apply C3. lia.
  - intros Hno. rewrite C1. subst s1. rewrite (B4 Hno).
    change RT_SLICES_PER_PACKET with 10. reflexivity.
Qed.

(** ** A whole call of GetGripRT *)

(** From a frame count within the buffers, [s'] has a frame count within the
    buffers and the frames outside the buffers as [s] has them. *)
Definition within (s s' : State D) : Prop :=
  0 <= nFrames s <= MAX_FRAMES ->
  0 <= nFrames s' <= MAX_FRAMES
  /\ forall i, i < 0 \/ MAX_FRAMES <= i -> same_frame (buf s) (buf s') i.

Lemma within_refl (s : State D) : within s s.
Proof. intros H. split; [exact H|]. intros i _. apply same_frame_refl. Qed.

Lemma within_trans (s1 s2 s3 : State D) : within s1 s2 -> within s2 s3 -> within s1 s3.
Proof.
  intros H12 H23 H1. destruct (H12 H1) as (A1 & A2). destruct (H23 A1) as (B1 & B2).
  split; [exact B1|]. intros i Hi. exact (same_frame_trans (A2 i Hi) (B2 i Hi)).
Qed.

Lemma same_data_within (s s' : State D) :
  nFrames s' = nFrames s -> buf s' = buf s -> within s s'.
Proof.
  intros Hn Hb H. rewrite Hn, Hb. split; [exact H|]. intros i _. apply same_frame_refl.
Qed.

Lemma bind_within {A B : Type} (m : M D A) (f : A -> M D B) (s : State D) :
  (forall r s1 t1, m s = (r, s1, t1) -> within s s1) ->
  (forall a s1 t1, m s = (Normal a, s1, t1) ->
     forall r s2 t2, f a s1 = (r, s2, t2) -> within s1 s2) ->
  forall r s2 t, bind m f s = (r, s2, t) -> within s s2.
Proof.
  unfold bind. destruct (m s) as [[[a | code] s1] t1] eqn:E.
  - destruct (f a s1) as [[r' s2'] t2] eqn:F. intros Hm Hf r s2 t H.
    inversion H; subst.
    exact (within_trans (Hm _ _ _ eq_refl) (Hf _ _ _ eq_refl _ _ _ F)).
  - intros Hm _ r s2 t H. inversion H; subst. exact (Hm _ _ _ eq_refl).
Qed.

Lemma ingest_packet_within rt previous (s : State D) :
  nFrames s < MAX_FRAMES -> within s (ingest_packet rt previous s).
Proof.
  intros Hlt Hn.
  assert (Hstep :
    nFrames s < nFrames (ingest_packet rt previous s) <= MAX_FRAMES
    /\ (forall i, i < nFrames s \/ MAX_FRAMES <= i ->
          same_frame (buf s) (buf (ingest_packet rt previous s)) i)).
  { unfold ingest_packet. cbv zeta.
    assert (Hbreak : nFrames s <= nFrames (stream_break rt previous s) < MAX_FRAMES
                     /\ (forall i, i < nFrames s \/ MAX_FRAMES <= i ->
                           same_frame (buf s) (buf (stream_break rt previous s)) i)).
    { unfold stream_break.
      destruct (packetTimestamp rt - previous >? dlit PACKET_STREAM_BREAK_THRESHOLD)%dbl.
      - destruct (insert_stream_break_spec (Z.to_nat MAX_PLOT_STEP) s Hlt)
          as (A1 & _ & _ & _ & A5).
        cbv zeta in A1, A5. split; [lia|]. intros i Hi. apply A5. lia.
      - split; [lia|]. intros i _. apply same_frame_refl. }
    destruct Hbreak as (B1 & B3).
    set (s1 := stream_break rt previous s) in *.
    destruct (decode_slices_frame rt (Z.to_nat RT_SLICES_PER_PACKET) 0 s1) as (C1 & _);
      [lia|].
    pose proof (decode_slices_local rt (Z.to_nat RT_SLICES_PER_PACKET) 0 s1
                  ltac:(lia)) as C3.
    cbv zeta in C3.
    change (Z.of_nat (Z.to_nat RT_SLICES_PER_PACKET)) with 10 in C1.
    split; [lia|].
    intros i Hi. apply (same_frame_trans (B3 i Hi)). apply C3. lia. }
  destruct Hstep as (S1 & S2).
  split; [lia|]. intros i Hi. apply S2. lia.
Qed.

Lemma rt_read_loop_within filename fid reads (l : Locals D) (s : State D) r s' t :
  rt_read_loop filename fid reads l s = (r, s', t) -> within s s'.
Proof.
  revert l s r s' t. induction reads as [|[bytes_read content] reads IH];
    intros l s r s' t H; cbn [rt_read_loop] in H; rewrite bind_get in H;
    destruct (nFrames s <? MAX_FRAMES) eqn:Hlt; cbn [negb] in H.
  - rewrite bind_emit in H. unfold ret in H. inversion H; subst. apply within_refl.
  - unfold ret in H. inversion H; subst. apply within_refl.
  - apply Z.ltb_lt in Hlt. rewrite bind_emit in H.
    destruct (bytes_read <? 0).
    { unfold fMessageBox in H. rewrite bind_emit in H. unfold exit in H.
      inversion H; subst. apply within_refl. }
    destruct (negb (rtPacketLengthInBytes =? bytes_read)).
    { unfold ret in H. inversion H; subst. apply within_refl. }
    match type of H with
    | context [if ?c then _ else _] => destruct c
    end.
    { unfold fMessageBox in H. rewrite bind_emit in H. unfold exit in H.
      inversion H; subst. apply within_refl. }
    rewrite bind_modify in H.
    match type of H with
    | context [rt_read_loop ?a ?b ?c ?d ?e] =>
        destruct (rt_read_loop a b c d e) as [[r2 s2] t2] eqn:E
    end.
    inversion H; subst.
    exact (within_trans (ingest_packet_within _ _ s Hlt) (IH _ _ _ _ _ E)).
  - unfold ret in H. inversion H; subst. apply within_refl.
Qed.

Lemma open_cache_loop_state (open : Z -> M D Z) (n : nat) (first fid : Z) (s : State D)
    r s' t :
  (forall k s0, exists fid0 t0, open k s0 = (Normal fid0, s0, t0)) ->
  open_cache_loop open n first fid s = (r, s', t) -> s' = s.
Proof.
  intros Hopen. revert first fid r s' t. induction n as [|n IH]; intros first fid r s' t H;
    cbn [open_cache_loop] in H.
  - unfold ret in H. inversion H. reflexivity.
  - destruct (Hopen first s) as (fid0 & t0 & E).
    erewrite bind_normal in H; [|exact E].
    destruct (fid0 >=? 0).
    + unfold ret in H. inversion H. reflexivity.
    + unfold Sleep in H. rewrite bind_emit in H.
      match type of H with
      | context [open_cache_loop ?a ?b ?c ?d ?e] =>
          destruct (open_cache_loop a b c d e) as [[r2 s2] t2] eqn:E2
      end.
      inversion H; subst. exact (IH _ _ _ _ _ E2).
Qed.

Lemma update_markerVisibilityString_data rt (s : State D) :
  nFrames (update_markerVisibilityString rt s) = nFrames s
  /\ buf (update_markerVisibilityString rt s) = buf s.
Proof.
  unfold update_markerVisibilityString.
  apply (for_range_invariant (fun s' => nFrames s' = nFrames s /\ buf s' = buf s)).
  - intros coda s' H. exact H.
  - auto.
Qed.

(** A computation that changes neither the frame count nor the buffers,
    however it ends. *)
Definition keeps_data {A : Type} (m : M D A) : Prop :=
  forall s r s' t, m s = (r, s', t) -> nFrames s' = nFrames s /\ buf s' = buf s.

Lemma keeps_data_ret {A : Type} (a : A) : keeps_data (ret a).
Proof. intros s r s' t H. unfold ret in H. inversion H. auto. Qed.

Lemma keeps_data_get : keeps_data get.
Proof. intros s r s' t H. unfold get in H. inversion H. auto. Qed.

Lemma keeps_data_emit (e : Event) : keeps_data (emit e).
Proof. intros s r s' t H. unfold emit in H. inversion H. auto. Qed.

Lemma keeps_data_exit {A : Type} (code : Z) : keeps_data (exit (A := A) code).
Proof. intros s r s' t H. unfold exit in H. inversion H. auto. Qed.

Lemma keeps_data_modify (g : State D -> State D) :
  (forall s, nFrames (g s) = nFrames s /\ buf (g s) = buf s) -> keeps_data (modify g).
Proof. intros Hg s r s' t H. unfold modify in H. inversion H. apply Hg. Qed.

Lemma keeps_data_bind {A B : Type} (m : M D A) (f : A -> M D B) :
  keeps_data m -> (forall a, keeps_data (f a)) -> keeps_data (bind m f).
Proof.
  intros Hm Hf s r s' t H. unfold bind in H.
  destruct (m s) as [[[a | code] s1] t1] eqn:E.
  - destruct (f a s1) as [[r' s2'] t2] eqn:F. inversion H; subst.
    destruct (Hm _ _ _ _ E) as (A1 & A2). destruct (Hf _ _ _ _ _ F) as (B1 & B2).
    split; congruence.
  - inversion H; subst. exact (Hm _ _ _ _ E).
Qed.

(** Walks through a computation made of the operations above. *)
Ltac keeps_data_walk :=
  repeat first
    [ apply keeps_data_ret | apply keeps_data_get | apply keeps_data_emit
    | apply keeps_data_exit
    | apply keeps_data_bind; [|intros ?]
    | match goal with
      | |- keeps_data (if ?c then _ else _) => destruct c
      end ].

Lemma rt_ingest_within env filename fid (s : State D) r s' t :
  rt_ingest env filename fid s = (r, s', t) -> within s s'.
Proof.
  revert r s' t. unfold rt_ingest. apply bind_within.
  - intros r s1 t1 H. exact (rt_read_loop_within _ _ _ _ _ H).
  - intros l s1 t1 _ r s2 t2 Hk.
    match type of Hk with
    | ?m s1 = _ => assert (Hkeeps : keeps_data m)
    end.
    { unfold _close, fMessageBox, fOutputDebugString. keeps_data_walk.
      all: apply keeps_data_modify; intros s0;
        first [apply update_markerVisibilityString_data | split; reflexivity]. }
    destruct (Hkeeps _ _ _ _ Hk) as (K1 & K2).
    apply same_data_within; assumption.
Qed.

(** X22.  Whatever the cache file holds and however the call ends, GetGripRT
    changes no frame before index 0 or at or past MAX_FRAMES: every write
    stays inside the buffers.  A call made while the buffers are not full
    leaves a frame count between 0 and MAX_FRAMES. *)
Theorem GetGripRT_within_buffers (env : Env D) (s : State D) :
  let s' := snd (fst (GetGripRT env s)) in
  (forall i, i < 0 \/ MAX_FRAMES <= i -> same_frame (buf s) (buf s') i)
  /\ (buffers_full_alert s = false -> 0 <= nFrames s' <= MAX_FRAMES).
Proof.
  cbv zeta. destruct (GetGripRT env s) as [[r s'] t] eqn:H. cbn [fst snd].
  unfold GetGripRT in H. rewrite bind_get in H.
  destruct (buffers_full_alert s) eqn:Halert.
  - rewrite !bind_modify in H. unfold ret in H. inversion H; subst.
    split; [|discriminate]. intros i _. cbn. apply same_frame_refl.
  - rewrite bind_modify in H.
    assert (W : within (ResetBuffers s) s').
    { revert H. apply bind_within.
      - intros r1 s1 t1 H1. apply open_cache_loop_state in H1.
        + subst. apply within_refl.
        + intros k s0. unfold _sopen. rewrite bind_emit. unfold ret. eauto.
      - intros fid s1 t1 _ r2 s2 t2 Hk.
        destruct (fid <? 0).
        + unfold fMessageBox in Hk. rewrite bind_emit in Hk. unfold exit in Hk.
          inversion Hk; subst. apply within_refl.
        + exact (rt_ingest_within _ _ _ _ Hk). }
    destruct W as (W1 & W2).
    { cbn. unfold MAX_FRAMES. lia. }
    split; [exact W2 | intros _; exact W1].
Qed.

End BufferFacts.

(* ================================================================== *)
(** * The housekeeping cache: GetLatestGripHK *)

Section HousekeepingFacts.
Context {D : Type} {ops : DoubleOps D} {libm : Libm D} {consts : Constants D}
        {codec : GripPackets.Codec D}.
Import VectorsMixin GripPackets GripMMI.
Local Open Scope Z_scope.

(** The header and the housekeeping structure after the records of a file
    have been extracted in turn, each extraction writing over the result of
    the one before. *)
Definition last_header (h : EPMTelemetryHeaderInfo) (records : list EPMTelemetryPacket)
    : EPMTelemetryHeaderInfo :=
  fold_left (fun h p => ExtractEPMTelemetryHeaderInfo h p) records h.

Definition last_hk (hk : GripHealthAndStatusInfo) (records : list EPMTelemetryPacket)
    : GripHealthAndStatusInfo :=
  fold_left (fun hk p => ExtractGripHealthAndStatusInfo hk p) records hk.

(** A record that GetLatestGripHK recognizes, whatever the header structure
    held before the extraction. *)
Definition recognized_hk (p : EPMTelemetryPacket) : Prop :=
  forall h,
    epmSyncMarker (ExtractEPMTelemetryHeaderInfo h p) = EPM_TELEMETRY_SYNC_VALUE
    /\ TMIdentifier (ExtractEPMTelemetryHeaderInfo h p) = GRIP_HK_ID.

(** Complete records as [_read] returns them, and the byte count of the
    read that follows them. *)
Definition complete (records : list EPMTelemetryPacket) : list (Z * EPMTelemetryPacket) :=
  map (fun p => (hkPacketLengthInBytes, p)) records.

Definition next_read (rest : list (Z * EPMTelemetryPacket)) : Z :=
  match rest with
  | [] => 0
  | (bytes_read, _) :: _ => bytes_read
  end.

Definition complete_reads (fid : Z) (records : list EPMTelemetryPacket) : list Event :=
  map (fun _ => Ev_read fid hkPacketLengthInBytes hkPacketLengthInBytes) records.

Lemma hk_read_loop_complete filename fid (records : list EPMTelemetryPacket) rest h hk
    (s : State D) :
  Forall recognized_hk records ->
  hk_read_loop filename fid (complete records ++ rest) h hk s
  = (let '(r, s', t) := hk_read_loop filename fid rest (last_header h records)
                          (last_hk hk records) s in
     (r, s', (complete_reads fid records ++ t)%list)).
Proof.
  intros Hrec. revert h hk. induction Hrec as [|p records Hp _ IH]; intros h hk.
  - cbn [complete map app last_header last_hk fold_left complete_reads].
    destruct (hk_read_loop filename fid rest h hk s) as [[r s'] t]. reflexivity.
  - cbn [complete map app last_header last_hk fold_left complete_reads hk_read_loop].
    rewrite bind_emit.
    change (hkPacketLengthInBytes <? 0) with false.
    change (hkPacketLengthInBytes <? hkPacketLengthInBytes) with false.
    cbv iota.
    destruct (Hp h) as (Hsync & Hid). rewrite Hsync, Hid, !Z.eqb_refl. cbn [negb orb].
    change (map (fun p0 => (hkPacketLengthInBytes, p0)) records) with (complete records).
    rewrite IH. unfold last_header, last_hk, complete_reads.
    destruct (hk_read_loop filename fid rest _ _ s) as [[r s'] t]. reflexivity.
Qed.

(** X23.  A housekeeping cache that opens at the first attempt and holds only
    recognized records, followed by the end of the file or by a short read:
    GetLatestGripHK returns with [*hk] holding the records extracted in
    turn (the last one on top; [*hk] untouched when there is none), the file
    is read once per record and once more, then closed.  The value returned
    is TRUE, and the counter kept for the next call is updated, exactly when
    the counter of the last header differs from the counter kept. *)
Theorem GetLatestGripHK_last_record (env : Env D) (hk : GripHealthAndStatusInfo)
    (s : State D) (records : list EPMTelemetryPacket)
    (rest : list (Z * EPMTelemetryPacket)) :
  0 <= open_result env 0 ->
  read_results env = (complete records ++ rest)%list ->
  Forall recognized_hk records ->
  0 <= next_read rest < hkPacketLengthInBytes ->
  close_result env = 0 ->
  let filename :=
    CreateGripPacketCacheFilename GRIP_HK_BULK_PACKET (packetBufferPathRoot s) in
  let fid := open_result env 0 in
  let counter := TMCounter (last_header (epmHeader0 env) records) in
  let changed := negb (hk_previousTMCounter s =? counter) in
  GetLatestGripHK env hk s
  = (Normal (if changed then TRUE else FALSE, last_hk hk records),
     (if changed then set_hk_previousTMCounter counter s else s),
     (Ev_open filename fid
        :: complete_reads fid records
        ++ [Ev_read fid hkPacketLengthInBytes (next_read rest); Ev_close fid 0])%list).
Proof.
  intros Hopen Hreads Hrec Hnext Hclose. cbv zeta.
  unfold GetLatestGripHK. rewrite bind_get. unfold _open.
  change (Z.to_nat MAX_OPEN_CACHE_RETRIES) with 5%nat.
  erewrite bind_normal.
  2:{ apply (open_cache_loop_success env
               (fun k => Ev_open
                  (CreateGripPacketCacheFilename GRIP_HK_BULK_PACKET
                     (packetBufferPathRoot s)) (open_result env k))
               (n := 5) (j := 0)); [lia | intros k Hk; lia | exact Hopen]. }
  cbn [failed_attempts app Z.of_nat]. change (0 + 0) with 0.
  assert (Hfid : (open_result env 0 <? 0) = false) by (apply Z.ltb_ge; exact Hopen).
  rewrite Hfid.
  assert (Hloop : hk_read_loop
                    (CreateGripPacketCacheFilename GRIP_HK_BULK_PACKET
                       (packetBufferPathRoot s))
                    (open_result env 0) (read_results env) (epmHeader0 env) hk s
                  = (Normal (last_header (epmHeader0 env) records, last_hk hk records), s,
                     (complete_reads (open_result env 0) records
                      ++ [Ev_read (open_result env 0) hkPacketLengthInBytes
                            (next_read rest)])%list)).
  { rewrite Hreads, (hk_read_loop_complete _ _ _ _ _ _ Hrec).
    destruct rest as [|[bytes_read content] rest'].
    - cbn [hk_read_loop next_read]. rewrite bind_emit. reflexivity.
    - cbn [hk_read_loop next_read] in *. rewrite bind_emit.
      assert (H1 : (bytes_read <? 0) = false) by (apply Z.ltb_ge; lia).
      assert (H2 : (bytes_read <? hkPacketLengthInBytes) = true) by (apply Z.ltb_lt; lia).
      rewrite H1, H2. reflexivity. }
  erewrite bind_normal by exact Hloop. cbv iota beta.
  unfold _close. rewrite Hclose.
  erewrite bind_normal by reflexivity.
  cbn [Z.eqb negb]. rewrite bind_get.
  destruct (negb (hk_previousTMCounter s =? TMCounter (last_header (epmHeader0 env) records))).
  - rewrite bind_modify. unfold ret. cbn [app]. rewrite <- app_assoc. reflexivity.
  - unfold ret. cbn [app]. rewrite <- app_assoc. reflexivity.
Qed.

(** X24.  A housekeeping cache that opens at the first attempt and holds
    recognized records followed by a read error (a negative byte count) or
    by a complete record with the wrong sync marker or the wrong identifier:
    GetLatestGripHK shows one message box and ends the process with code -1;
    the file is not closed, and the state of the program, with the counter
    kept for the next call, is as it was. *)
Theorem GetLatestGripHK_bad_record (env : Env D) (hk : GripHealthAndStatusInfo)
    (s : State D) (records : list EPMTelemetryPacket) (bytes_read : Z)
    (content : EPMTelemetryPacket) (rest : list (Z * EPMTelemetryPacket)) :
  0 <= open_result env 0 ->
  read_results env = (complete records ++ (bytes_read, content) :: rest)%list ->
  Forall recognized_hk records ->
  bytes_read < 0
  \/ (hkPacketLengthInBytes <= bytes_read
      /\ let h := ExtractEPMTelemetryHeaderInfo (last_header (epmHeader0 env) records)
                    content in
         epmSyncMarker h <> EPM_TELEMETRY_SYNC_VALUE \/ TMIdentifier h <> GRIP_HK_ID) ->
  let filename :=
    CreateGripPacketCacheFilename GRIP_HK_BULK_PACKET (packetBufferPathRoot s) in
  let fid := open_result env 0 in
  exists caption format arguments,
    GetLatestGripHK env hk s
    = (Exited (-1), s,
       (Ev_open filename fid
          :: complete_reads fid records
          ++ [Ev_read fid hkPacketLengthInBytes bytes_read;
              EvMessageBox caption format arguments])%list).
Proof.
  intros Hopen Hreads Hrec Hbad. cbv zeta.
  unfold GetLatestGripHK. rewrite bind_get. unfold _open.
  change (Z.to_nat MAX_OPEN_CACHE_RETRIES) with 5%nat.
  erewrite bind_normal.
  2:{ apply (open_cache_loop_success env
               (fun k => Ev_open
                  (CreateGripPacketCacheFilename GRIP_HK_BULK_PACKET
                     (packetBufferPathRoot s)) (open_result env k))
               (n := 5) (j := 0)); [lia | intros k Hk; lia | exact Hopen]. }
  cbn [failed_attempts app Z.of_nat]. change (0 + 0) with 0.
  assert (Hfid : (open_result env 0 <? 0) = false) by (apply Z.ltb_ge; exact Hopen).
  rewrite Hfid.
  assert (Hloop : exists caption format arguments,
            hk_read_loop
              (CreateGripPacketCacheFilename GRIP_HK_BULK_PACKET (packetBufferPathRoot s))
              (open_result env 0) (read_results env) (epmHeader0 env) hk s
            = (Exited (-1), s,
               (complete_reads (open_result env 0) records
                ++ [Ev_read (open_result env 0) hkPacketLengthInBytes bytes_read;
                    EvMessageBox caption format arguments])%list)).
  { rewrite Hreads, (hk_read_loop_complete _ _ _ _ _ _ Hrec).
    cbn [hk_read_loop]. rewrite bind_emit.
    destruct Hbad as [Hneg | (Hfull & Hwrong)].
    - assert (H1 : (bytes_read <? 0) = true) by (apply Z.ltb_lt; exact Hneg).
      rewrite H1. unfold fMessageBox. rewrite bind_emit. unfold exit.
      do 3 eexists. reflexivity.
    - assert (H1 : (bytes_read <? 0) = false)
        by (apply Z.ltb_ge; unfold hkPacketLengthInBytes, BULK_HK_BYTES in Hfull; lia).
      assert (H2 : (bytes_read <? hkPacketLengthInBytes) = false)
        by (apply Z.ltb_ge; exact Hfull).
      rewrite H1, H2. cbv zeta in Hwrong.
      assert (H3 : negb (epmSyncMarker
                           (ExtractEPMTelemetryHeaderInfo
                              (last_header (epmHeader0 env) records) content)
                         =? EPM_TELEMETRY_SYNC_VALUE)
                   || negb (TMIdentifier
                              (ExtractEPMTelemetryHeaderInfo
                                 (last_header (epmHeader0 env) records) content)
                            =? GRIP_HK_ID) = true).
      { destruct Hwrong as [Hw | Hw]; apply Z.eqb_neq in Hw; rewrite Hw;
          [reflexivity | apply orb_true_r]. }
      rewrite H3. unfold fMessageBox. rewrite bind_emit. unfold exit.
      do 3 eexists. reflexivity. }
  destruct Hloop as (caption & format & arguments & Hloop).
  exists caption, format, arguments.
  erewrite bind_exited by exact Hloop. reflexivity.
Qed.

End HousekeepingFacts.

(** ** The housekeeping cache on sample records *)

Section HousekeepingSample.
Import GripPackets GripMMI Sample.
Local Open Scope Z_scope.

(** A housekeeping record with the given counter, and the same record under
    the identifier of the realtime packets. *)
Definition sample_hk_record (counter : Z) : sample_packet :=
  mkSamplePacket (sample_header GRIP_HK_ID counter) (sample_rt 0%R 0) sample_hk.

Definition sample_hk_env (reads : list (Z * sample_packet)) : Env R :=
  sample_env (fun _ => 3) reads.

Lemma sample_hk_record_recognized counter : recognized_hk (sample_hk_record counter).
Proof. intros h. split; reflexivity. Qed.

Lemma GetLatestGripHK_last_record_witness :
  let env := sample_hk_env (complete [sample_hk_record 7]) in
  (0 <= open_result env 0
   /\ read_results env = (complete [sample_hk_record 7] ++ [])%list
   /\ Forall recognized_hk [sample_hk_record 7]
   /\ 0 <= next_read (@nil (Z * sample_packet)) < hkPacketLengthInBytes
   /\ close_result env = 0)
  /\ fst (fst (GetLatestGripHK env sample_hk (sample_state 0))) = Normal (TRUE, sample_hk).
Proof.
  cbv zeta.
  assert (H1 : 0 <= open_result (sample_hk_env (complete [sample_hk_record 7])) 0)
    by (cbn; lia).
  assert (H2 : read_results (sample_hk_env (complete [sample_hk_record 7]))
               = (complete [sample_hk_record 7] ++ [])%list) by reflexivity.
  assert (H3 : Forall recognized_hk [sample_hk_record 7]).
  { constructor; [apply sample_hk_record_recognized | constructor]. }
  assert (H4 : 0 <= next_read (@nil (Z * sample_packet)) < hkPacketLengthInBytes)
    by (cbn; unfold hkPacketLengthInBytes, BULK_HK_BYTES; lia).
  assert (H5 : close_result (sample_hk_env (complete [sample_hk_record 7])) = 0)
    by reflexivity.
  split; [auto|].
  rewrite (GetLatestGripHK_last_record _ sample_hk (sample_state 0) [] H1 H2 H3 H4 H5).
  reflexivity.
Defined.

Lemma GetLatestGripHK_bad_record_witness :
  let env := sample_hk_env [(-1, sample_hk_record 7)] in
  (0 <= open_result env 0
   /\ read_results env = (complete [] ++ (-1, sample_hk_record 7) :: [])%list
   /\ Forall recognized_hk (@nil sample_packet))
  /\ fst (fst (GetLatestGripHK env sample_hk (sample_state 0))) = Exited (-1).
Proof.
  cbv zeta.
  assert (H1 : 0 <= open_result (sample_hk_env [(-1, sample_hk_record 7)]) 0)
    by (cbn; lia).
  assert (H2 : read_results (sample_hk_env [(-1, sample_hk_record 7)])
               = (complete [] ++ (-1, sample_hk_record 7) :: [])%list) by reflexivity.
  assert (H3 : Forall recognized_hk (@nil sample_packet)) by constructor.
  split; [auto|].
  destruct (GetLatestGripHK_bad_record _ sample_hk (sample_state 0) _ _ H1 H2 H3)
    as (caption & format & arguments & H); [left; lia|].
  rewrite H. reflexivity.
Defined.

End HousekeepingSample.

(* ================================================================== *)
(** * The visibility channels of a slice and the status strings *)

Section VisibilityFacts.
Context {D : Type} {ops : DoubleOps D} {libm : Libm D} {consts : Constants D}
        {codec : GripPackets.Codec D}.
Import VectorsMixin GripPackets GripMMI.
Local Open Scope Z_scope.

(** Marker [mrk] is seen by one of the two tracker units. *)
Definition visible (sl : ManipulandumPacket D) (mrk : Z) : bool :=
  marker_bit (markerVisibility sl 0) mrk || marker_bit (markerVisibility sl 1) mrk.

(** How many of the [count] markers from [first] on are visible. *)
Fixpoint count_visible (sl : ManipulandumPacket D) (count : nat) (first : Z) : Z :=
  match count with
  | O => 0
  | S count' => (if visible sl first then 1 else 0) + count_visible sl count' (first + 1)
  end.

(** A marker loop of the slice decoder, from any state and counter. *)
Lemma mark_loop_spec (sl : ManipulandumPacket D) (offset : Z) (count : nat) (first : Z)
    (s : State D) (c0 : Z) :
  let body := fun (mrk : Z) (p : State D * Z) =>
    let '(s0, c) := p in
    if marker_bit (markerVisibility sl 0) mrk || marker_bit (markerVisibility sl 1) mrk
    then (store_MarkerVisibility (nFrames s0) mrk (of_int (mrk + offset)) s0, c + 1)
    else (store_MarkerVisibility (nFrames s0) mrk MISSING_DOUBLE s0, c) in
  let p := for_range count first body (s, c0) in
  snd p = c0 + count_visible sl count first
  /\ fst p = upd_buf (set_MarkerVisibility (MarkerVisibility (buf (fst p)))) s
  /\ (forall mrk, first <= mrk < first + Z.of_nat count ->
        MarkerVisibility (buf (fst p)) (nFrames s) mrk
        = if visible sl mrk then of_int (mrk + offset) else MISSING_DOUBLE)
  /\ (forall mrk, ~ (first <= mrk < first + Z.of_nat count) ->
        MarkerVisibility (buf (fst p)) (nFrames s) mrk
        = MarkerVisibility (buf s) (nFrames s) mrk).
Proof.
  cbv zeta. revert first s c0.
  induction count as [|count IH]; intros first s c0; cbn [for_range count_visible].
  - cbn [fst snd]. split; [lia|]. split; [|split].
    + destruct s as [nf b mvs d root c1 alert c2 f]. destruct b. reflexivity.
    + intros mrk Hmrk. lia.
    + reflexivity.
  - fold (visible sl first).
    set (s1 := store_MarkerVisibility (nFrames s) first
                 (if visible sl first then of_int (first + offset) else MISSING_DOUBLE) s).
    set (c1 := c0 + (if visible sl first then 1 else 0)).
    assert (Hstep : (if visible sl first
                     then (store_MarkerVisibility (nFrames s) first
                             (of_int (first + offset)) s, c0 + 1)
                     else (store_MarkerVisibility (nFrames s) first MISSING_DOUBLE s, c0))
                    = (s1, c1)).
    { subst s1 c1. destruct (visible sl first); f_equal; lia. }
    rewrite Hstep.
    destruct (IH (first + 1) s1 c1) as (A1 & A2 & A3 & A4).
    assert (Hn : nFrames s1 = nFrames s) by reflexivity.
    rewrite Hn in A3, A4.
    set (p := for_range count (first + 1) _ (s1, c1)) in *.
    split; [subst c1; lia|]. split; [|split].
    + rewrite A2 at 1. subst s1.
      destruct s as [nf b mvs d root c1' alert c2 f]. destruct b. reflexivity.
    + intros mrk Hmrk. destruct (Z.eq_dec mrk first) as [-> | Hne].
      * rewrite A4 by lia. subst s1. cbn. rewrite !array_set_eq. reflexivity.
      * apply A3. lia.
    + intros mrk Hmrk. rewrite A4 by lia. subst s1. cbn.
      rewrite array_set_eq, array_set_neq by lia. reflexivity.
Qed.

Lemma all_four_visible (sl : ManipulandumPacket D) :
  (count_visible sl 4 8 =? 4)
  = visible sl 8 && visible sl 9 && visible sl 10 && visible sl 11.
Proof.
  cbn [count_visible]. change (8 + 1) with 9. change (9 + 1) with 10.
  change (10 + 1) with 11.
  destruct (visible sl 8), (visible sl 9), (visible sl 10), (visible sl 11); reflexivity.
Qed.

(** X25.  The visibility channels of the frame that a slice fills.  Each of the 20
    markers gets its plot level when one of the two tracker units sees it
    (marker number + 1 for the manipulandum markers 0 to 7, + 3 for the frame
    markers 8 to 11, + 5 for the wrist markers 12 to 19) and the missing
    sentinel otherwise; the manipulandum channel holds 10 when the low bit of
    the manipulandum flag is set, the frame channel 30 when the four frame
    markers are all visible, the wrist channel 50 when at least three of the
    eight wrist markers are visible, and the missing sentinel otherwise. *)
Theorem slice_visibility_channels (sl : ManipulandumPacket D) (s : State D) :
  let n := nFrames s in
  let b := buf (slice_visibility sl s) in
  (forall mrk, 0 <= mrk < CODA_MARKERS ->
     MarkerVisibility b n mrk
     = if visible sl mrk
       then of_int (mrk + (if mrk <? 8 then 1 else if mrk <? 12 then 3 else 5))
       else MISSING_DOUBLE)
  /\ ManipulandumVisibility b n
     = (if negb (Z.land (manipulandumVisibility sl) 1 =? 0)
        then of_int 10 else MISSING_DOUBLE)
  /\ FrameVisibility b n
     = (if visible sl 8 && visible sl 9 && visible sl 10 && visible sl 11
        then of_int 30 else MISSING_DOUBLE)
  /\ WristVisibility b n
     = (if 3 <=? count_visible sl 8 12 then of_int 50 else MISSING_DOUBLE).
Proof.
  cbv zeta. unfold slice_visibility. cbv zeta. unfold mark_markers.
  change (Z.to_nat (MANIPULANDUM_LAST_MARKER - MANIPULANDUM_FIRST_MARKER + 1)) with 8%nat.
  change (Z.to_nat (FRAME_LAST_MARKER - FRAME_FIRST_MARKER + 1)) with 4%nat.
  change (Z.to_nat (WRIST_LAST_MARKER - WRIST_FIRST_MARKER + 1)) with 8%nat.
  destruct (mark_loop_spec sl 1 8 MANIPULANDUM_FIRST_MARKER s 0) as (_ & A2 & A3 & A4).
  cbv zeta in A2, A3, A4.
  match goal with
  | |- context [fst (for_range 8%nat MANIPULANDUM_FIRST_MARKER ?body (s, 0))] =>
      set (p1 := for_range 8%nat MANIPULANDUM_FIRST_MARKER body (s, 0)) in *
  end.
  assert (N1 : nFrames (fst p1) = nFrames s) by (rewrite A2; reflexivity).
  set (s2 := store_ManipulandumVisibility (nFrames s) _ (fst p1)).
  assert (N2 : nFrames s2 = nFrames s) by exact N1.
  destruct (mark_loop_spec sl 3 4 FRAME_FIRST_MARKER s2 0) as (B1 & B2 & B3 & B4).
  cbv zeta in B1, B2, B3, B4. rewrite N2 in B3, B4.
  match goal with
  | |- context [for_range 4%nat FRAME_FIRST_MARKER ?body (s2, 0)] =>
      destruct (for_range 4%nat FRAME_FIRST_MARKER body (s2, 0)) as [s3 count3]
  end.
  cbn [fst snd] in B1, B2, B3, B4.
  assert (N3 : nFrames s3 = nFrames s) by (rewrite B2; exact N2).
  set (s4 := store_FrameVisibility (nFrames s) _ s3).
  assert (N4 : nFrames s4 = nFrames s) by exact N3.
  destruct (mark_loop_spec sl 5 8 WRIST_FIRST_MARKER s4 0) as (C1 & C2 & C3 & C4).
  cbv zeta in C1, C2, C3, C4. rewrite N4 in C3, C4.
  match goal with
  | |- context [for_range 8%nat WRIST_FIRST_MARKER ?body (s4, 0)] =>
      destruct (for_range 8%nat WRIST_FIRST_MARKER body (s4, 0)) as [s5 count5]
  end.
  cbn [fst snd] in C1, C2, C3, C4.
  split; [|split; [|split]].
  - intros mrk Hmrk. unfold CODA_MARKERS in Hmrk.
    change (MarkerVisibility (buf s5) (nFrames s) mrk
            = if visible sl mrk
              then of_int (mrk + (if mrk <? 8 then 1 else if mrk <? 12 then 3 else 5))
              else MISSING_DOUBLE).
    unfold MANIPULANDUM_FIRST_MARKER, FRAME_FIRST_MARKER, WRIST_FIRST_MARKER in *.
    destruct (Z.ltb_spec mrk 8) as [H8 | H8].
    + rewrite C4 by lia.
      change (MarkerVisibility (buf s4)) with (MarkerVisibility (buf s3)).
      rewrite B4 by lia.
      change (MarkerVisibility (buf s2)) with (MarkerVisibility (buf (fst p1))).
      apply A3. lia.
    + destruct (Z.ltb_spec mrk 12) as [H12 | H12].
      * rewrite C4 by lia.
        change (MarkerVisibility (buf s4)) with (MarkerVisibility (buf s3)).
        apply B3. lia.
      * apply C3. lia.
  - change (ManipulandumVisibility (buf s5) (nFrames s)
            = (if negb (Z.land (manipulandumVisibility sl) 1 =? 0)
               then of_int 10 else MISSING_DOUBLE)).
    rewrite C2. change (ManipulandumVisibility (buf s3) (nFrames s)
                        = (if negb (Z.land (manipulandumVisibility sl) 1 =? 0)
                           then of_int 10 else MISSING_DOUBLE)).
    rewrite B2. subst s2. cbn. apply array_set_eq.
  - change (FrameVisibility (buf s5) (nFrames s)
            = (if visible sl 8 && visible sl 9 && visible sl 10 && visible sl 11
               then of_int 30 else MISSING_DOUBLE)).
    rewrite C2. subst s4. cbn. rewrite array_set_eq.
    rewrite B1, <- all_four_visible. reflexivity.
  - cbn. rewrite array_set_eq. rewrite C1. rewrite Z.geb_leb. reflexivity.
Qed.

Lemma string_length_append (s1 s2 : string) :
  String.length (s1 ++ s2) = (String.length s1 + String.length s2)%nat.
Proof. induction s1 as [|c s1 IH]; cbn; [reflexivity | rewrite IH; reflexivity]. Qed.

(** The length of the string after the loop of [visibility_string] has run
    [count] times from marker [first]: one character per marker, and two
    blanks before markers 8 and 12. *)
Lemma visibility_loop_length (visibility : Z) (count : nat) (first : Z) (str : string) :
  Z.of_nat (String.length
              (for_range count first
                 (fun mrk str =>
                    let str := if (mrk =? 8) || (mrk =? 12) then (str ++ "  ")%string
                               else str in
                    if marker_bit visibility mrk then (str ++ "u")%string
                    else (str ++ "m")%string)
                 str))
  = Z.of_nat (String.length str) + Z.of_nat count
    + (if (first <=? 8) && (8 <? first + Z.of_nat count) then 2 else 0)
    + (if (first <=? 12) && (12 <? first + Z.of_nat count) then 2 else 0).
Proof.
  revert first str. induction count as [|count IH]; intros first str; cbn [for_range].
  - destruct (Z.leb_spec first 8), (Z.ltb_spec 8 (first + Z.of_nat 0)),
      (Z.leb_spec first 12), (Z.ltb_spec 12 (first + Z.of_nat 0)); cbn [andb]; lia.
  - rewrite IH. cbv zeta.
    assert (Hstep : forall (b : bool) (str1 : string),
              String.length (if b then (str1 ++ "u")%string else (str1 ++ "m")%string)
              = S (String.length str1)).
    { intros b str1. destruct b; rewrite string_length_append; cbn; lia. }
    rewrite Hstep.
    assert (Hgap : Z.of_nat (String.length
                      (if (first =? 8) || (first =? 12) then (str ++ "  ")%string else str))
                   = Z.of_nat (String.length str)
                     + (if (first =? 8) || (first =? 12) then 2 else 0)).
    { destruct ((first =? 8) || (first =? 12)); [|lia].
      rewrite string_length_append. cbn [String.length]. lia. }
    rewrite Nat2Z.inj_succ, Hgap.
    destruct (Z.eqb_spec first 8), (Z.eqb_spec first 12),
      (Z.leb_spec (first + 1) 8), (Z.ltb_spec 8 (first + 1 + Z.of_nat count)),
      (Z.leb_spec (first + 1) 12), (Z.ltb_spec 12 (first + 1 + Z.of_nat count)),
      (Z.leb_spec first 8), (Z.ltb_spec 8 (first + Z.of_nat (S count))),
      (Z.leb_spec first 12), (Z.ltb_spec 12 (first + Z.of_nat (S count)));
      cbn [andb orb]; lia.
Qed.

Lemma target_string_length (n feedback : Z) (str : string) :
  String.length (target_string n feedback str) = (String.length str + Z.to_nat n)%nat.
Proof.
  unfold target_string.
  assert (H : forall count first (p : string * Z),
            String.length
              (fst (for_range count first
                      (fun (_ : Z) (p0 : string * Z) =>
                         let '(str0, bit) := p0 in
                         (if negb (Z.land bit feedback =? 0)
                          then (str0 ++ "u")%string else (str0 ++ "m")%string,
                          Z.shiftl bit 1))
                      p))
            = (String.length (fst p) + count)%nat).
  { induction count as [|count IH]; intros first [str0 bit]; cbn [for_range fst].
    - lia.
    - rewrite IH. cbn [fst].
      destruct (negb (Z.land bit feedback =? 0)); rewrite string_length_append; cbn; lia. }
  rewrite H. reflexivity.
Qed.

(** X26.  The strings that the status display is built from have fixed lengths,
    whatever the telemetry holds: a marker visibility string has 24
    characters (one per marker and two gaps of two blanks), which leaves room
    in its 32-byte buffer, and the target state string has 25 (10 and 13
    targets around the line break). *)
Theorem status_strings_length (visibility horizontal vertical : Z) :
  String.length (visibility_string visibility) = 24%nat
  /\ String.length
       (target_string 13 vertical (target_string 10 horizontal "" ++ crlf)) = 25%nat.
Proof.
  split.
  - apply Nat2Z.inj. unfold visibility_string.
    etransitivity;
      [exact (visibility_loop_length visibility (Z.to_nat CODA_MARKERS) 0 "") | reflexivity].
  - rewrite target_string_length, string_length_append, target_string_length.
    reflexivity.
Qed.

End VisibilityFacts.

(* ================================================================== *)
(** * The center of pressure recorded by a slice *)

Section CenterOfPressureFacts.
Context {consts : Constants R} {codec : GripPackets.Codec R}.
Import VectorsMixin DexAnalogMixin GripPackets GripMMI ExactReal.
Local Open Scope Z_scope.

(** What the blocks other than the center-of-pressure block leave alone: the
    frame count, the center-of-pressure channel, its accumulators and the
    smoothing constant. *)
Definition cop_part (s : State R) :=
  (nFrames s, CenterOfPressure (buf s), filteredCoP (dex s), filterConstant (dex s)).

Ltac split_tests :=
  repeat match goal with
         | |- context [if ?c then _ else _] => destruct c
         end.

Lemma slice_pose_cop sl (s : State R) : cop_part (slice_pose sl s) = cop_part s.
Proof.
  unfold slice_pose. destruct (negb (manipulandumVisibility sl =? 0)); cbn; [|reflexivity].
  reflexivity.
Qed.

Lemma slice_grip_force_cop sl (s : State R) : cop_part (slice_grip_force sl s) = cop_part s.
Proof. reflexivity. Qed.

Lemma slice_normal_forces_cop sl (s : State R) :
  cop_part (slice_normal_forces sl s) = cop_part s.
Proof.
  unfold slice_normal_forces, FilterNormalForce. cbn. split_tests; reflexivity.
Qed.

Lemma slice_load_force_cop sl (s : State R) : cop_part (slice_load_force sl s) = cop_part s.
Proof. reflexivity. Qed.

Lemma slice_acceleration_cop sl (s : State R) :
  cop_part (slice_acceleration sl s) = cop_part s.
Proof. reflexivity. Qed.

Lemma mark_markers_cop sl first last offset (s : State R) :
  cop_part (fst (mark_markers sl first last offset s)) = cop_part s.
Proof.
  unfold mark_markers.
  apply (for_range_invariant (fun p : State R * Z => cop_part (fst p) = cop_part s)).
  - intros mrk [s' count] H. cbn [fst] in *. rewrite <- H.
    split_tests; reflexivity.
  - reflexivity.
Qed.

Lemma slice_visibility_cop sl (s : State R) : cop_part (slice_visibility sl s) = cop_part s.
Proof.
  unfold slice_visibility. cbv zeta.
  pose proof (mark_markers_cop sl MANIPULANDUM_FIRST_MARKER MANIPULANDUM_LAST_MARKER 1 s)
    as A.
  set (s1 := fst (mark_markers sl MANIPULANDUM_FIRST_MARKER MANIPULANDUM_LAST_MARKER 1 s))
    in *.
  set (s2 := store_ManipulandumVisibility (nFrames s) _ s1).
  assert (B : cop_part s2 = cop_part s) by exact A.
  pose proof (mark_markers_cop sl FRAME_FIRST_MARKER FRAME_LAST_MARKER 3 s2) as C.
  destruct (mark_markers sl FRAME_FIRST_MARKER FRAME_LAST_MARKER 3 s2) as [s3 count3].
  cbn [fst] in C.
  set (s4 := store_FrameVisibility (nFrames s) _ s3).
  assert (E : cop_part s4 = cop_part s) by (rewrite <- B, <- C; reflexivity).
  pose proof (mark_markers_cop sl WRIST_FIRST_MARKER WRIST_LAST_MARKER 5 s4) as F.
  destruct (mark_markers sl WRIST_FIRST_MARKER WRIST_LAST_MARKER 5 s4) as [s5 count5].
  cbn [fst] in F. rewrite <- E, <- F. reflexivity.
Qed.

Lemma dle_true (a b : R) : (a <= b)%R -> dle a b = true.
Proof.
  intros H. cbv [dle R_DoubleOps]. destruct (Rle_dec a b); [reflexivity | contradiction].
Qed.

Lemma dle_false (a b : R) : (b < a)%R -> dle a b = false.
Proof.
  intros H. cbv [dle R_DoubleOps]. destruct (Rle_dec a b); [lra | reflexivity].
Qed.

(** The body of the center-of-pressure loop of a slice, for frame [n]. *)
Definition cop_body (sl : ManipulandumPacket R) (n : Z) (ati : Z) (s : State R)
    : State R :=
  let '(cop, cop_distance) :=
    ComputeCoP (force (ft sl ati)) (torque (ft sl ati)) (dlit COP_MIN_GRIP) in
  let s := store_CenterOfPressure ati n cop s in
  if (cop_distance >=? dlit 0.0)%dbl then
    let '(d, filtered, _) := FilterCoP (dex s) ati (CenterOfPressure (buf s) ati n) in
    store_CenterOfPressure ati n filtered (set_dex d s)
  else s.

Lemma slice_center_of_pressure_loop sl (s : State R) :
  slice_center_of_pressure sl s
  = for_range (Z.to_nat N_FORCE_TRANSDUCERS) 0 (cop_body sl (nFrames s)) s.
Proof. reflexivity. Qed.

(** The point where the force of sensor [ati] is applied, from its torque. *)
Definition cop_sample (sl : ManipulandumPacket R) (ati : Z) : Vector3 R :=
  mkVector3 0%R
    (- vZ (torque (ft sl ati)) / vX (force (ft sl ati)))%R
    (- vY (torque (ft sl ati)) / vX (force (ft sl ati)))%R.

Lemma cop_body_below sl n ati (s : State R) :
  (Rabs (vX (force (ft sl ati))) <= / 2)%R ->
  cop_body sl n ati s = store_CenterOfPressure ati n missingVector s.
Proof.
  intros Hle. unfold cop_body, ComputeCoP.
  change (dfabs (vX (force (ft sl ati)))) with (Rabs (vX (force (ft sl ati)))).
  rewrite dlt_false
    by (unfold dlit, COP_MIN_GRIP; cbn [R_DoubleOps]; rewrite Q2R_half; exact Hle).
  rewrite dle_false; [reflexivity|].
  unfold dlit, of_int; cbn [R_DoubleOps]. rewrite Q2R_0. lra.
Qed.

(** What one turn of the loop leaves in the center-of-pressure channel and in
    the accumulators. *)
Definition cop_after (sl : ManipulandumPacket R) (ati : Z) (k : R) (old : Vector3 R)
    : Vector3 R * Vector3 R :=
  if Rlt_dec (/ 2) (Rabs (vX (force (ft sl ati)))) then
    (filter_vector k old (cop_sample sl ati), filter_vector k old (cop_sample sl ati))
  else (missingVector, old).

Lemma cop_body_spec sl n ati (s : State R) :
  let s' := cop_body sl n ati s in
  let after := cop_after sl ati (filterConstant (dex s)) (filteredCoP (dex s) ati) in
  nFrames s' = nFrames s
  /\ filterConstant (dex s') = filterConstant (dex s)
  /\ (forall a j, CenterOfPressure (buf s') a j
                  = if (a =? ati) && (j =? n) then fst after
                    else CenterOfPressure (buf s) a j)
  /\ (forall a, filteredCoP (dex s') a
                = if a =? ati then snd after else filteredCoP (dex s) a).
Proof.
  cbv zeta. unfold cop_after, cop_body, ComputeCoP.
  change (dfabs (vX (force (ft sl ati)))) with (Rabs (vX (force (ft sl ati)))).
  assert (Hcop : mkVector3 (dlit 0.0)
                   (- vZ (torque (ft sl ati)) / vX (force (ft sl ati)))%dbl
                   (- vY (torque (ft sl ati)) / vX (force (ft sl ati)))%dbl
                 = cop_sample sl ati).
  { unfold cop_sample, dlit. cbn [R_DoubleOps]. rewrite Q2R_0. reflexivity. }
  destruct (Rlt_dec (/ 2) (Rabs (vX (force (ft sl ati))))) as [Hgt | Hle].
  - rewrite dlt_true
      by (unfold dlit, COP_MIN_GRIP; cbn [R_DoubleOps]; rewrite Q2R_half; exact Hgt).
    rewrite dle_true
      by (unfold dlit; cbn [R_DoubleOps]; rewrite Q2R_0; apply sqrt_pos).
    rewrite Hcop. generalize (cop_sample sl ati) as cop. intros cop.
    destruct s as [nF b mvs d pr pc al hc fm]. destruct b. destruct d.
    cbn -[filter_vector]. unfold array_set. rewrite !Z.eqb_refl.
    change (CopyVector (filter_vector filterConstant0 (filteredCoP0 ati) cop))
      with (filter_vector filterConstant0 (filteredCoP0 ati) cop).
    repeat split; intros;
      repeat match goal with
             | |- context [?x =? ?y] => destruct (Z.eqb_spec x y); try subst
             end; reflexivity.
  - apply Rnot_lt_le in Hle.
    rewrite dlt_false
      by (unfold dlit, COP_MIN_GRIP; cbn [R_DoubleOps]; rewrite Q2R_half; exact Hle).
    rewrite dle_false
      by (unfold dlit, of_int; cbn [R_DoubleOps]; rewrite Q2R_0; lra).
    destruct s as [nF b mvs d pr pc al hc fm]. destruct b. destruct d.
    cbn. unfold array_set.
    repeat split; intros;
      repeat match goal with
             | |- context [?x =? ?y] => destruct (Z.eqb_spec x y); try subst
             end; reflexivity.
Qed.

Lemma cop_loop_spec sl n (count : nat) :
  forall first (s : State R),
  let s' := for_range count first (cop_body sl n) s in
  nFrames s' = nFrames s
  /\ filterConstant (dex s') = filterConstant (dex s)
  /\ (forall a j, CenterOfPressure (buf s') a j
                  = if (first <=? a) && (a <? first + Z.of_nat count) && (j =? n)
                    then fst (cop_after sl a (filterConstant (dex s))
                                (filteredCoP (dex s) a))
                    else CenterOfPressure (buf s) a j)
  /\ (forall a, filteredCoP (dex s') a
                = if (first <=? a) && (a <? first + Z.of_nat count)
                  then snd (cop_after sl a (filterConstant (dex s))
                              (filteredCoP (dex s) a))
                  else filteredCoP (dex s) a).
Proof.
  induction count as [|count IH]; intros first s; cbn [for_range].
  - cbv zeta. split; [reflexivity|]. split; [reflexivity|].
    split; [intros a j | intros a];
      replace ((first <=? a) && (a <? first + Z.of_nat 0)) with false
        by (symmetry; apply andb_false_iff;
            destruct (Z.leb_spec first a); [right; apply Z.ltb_ge; lia | left; reflexivity]);
      reflexivity.
  - destruct (cop_body_spec sl n first s) as (Hn & Hk & Hc & Hf).
    destruct (IH (first + 1) (cop_body sl n first s)) as (Hn' & Hk' & Hc' & Hf').
    cbv zeta in *. repeat split.
    + congruence.
    + congruence.
    + intros a j. rewrite Hc', Hk, !Hf, Hc.
      destruct (Z.eqb_spec a first) as [-> | Hne].
      * replace (first + 1 <=? first) with false by (symmetry; apply Z.leb_gt; lia).
        rewrite Z.leb_refl.
        replace (first <? first + Z.of_nat (S count)) with true
          by (symmetry; apply Z.ltb_lt; lia).
        cbn [andb]. reflexivity.
      * cbn [andb].
        replace (first <=? a) with (first + 1 <=? a)
          by (destruct (Z.leb_spec (first + 1) a), (Z.leb_spec first a); lia || reflexivity).
        replace (a <? first + Z.of_nat (S count)) with (a <? first + 1 + Z.of_nat count)
          by (f_equal; lia).
        reflexivity.
    + intros a. rewrite Hf', Hk, !Hf.
      destruct (Z.eqb_spec a first) as [-> | Hne].
      * replace (first + 1 <=? first) with false by (symmetry; apply Z.leb_gt; lia).
        rewrite Z.leb_refl.
        replace (first <? first + Z.of_nat (S count)) with true
          by (symmetry; apply Z.ltb_lt; lia).
        cbn [andb]. reflexivity.
      * replace (first <=? a) with (first + 1 <=? a)
          by (destruct (Z.leb_spec (first + 1) a), (Z.leb_spec first a); lia || reflexivity).
        replace (a <? first + Z.of_nat (S count)) with (a <? first + 1 + Z.of_nat count)
          by (f_equal; lia).
        reflexivity.
Qed.

(** X27.  The center of pressure of a sensor, as a slice of a packet records it, over
    exact reals.  When the normal force of the sensor is at most 0.5 in
    absolute value, the frame holds the missing value for that sensor and the
    smoothing accumulator of the sensor is left as it was: the sample does not
    enter the filter.  When it is above 0.5, the point computed from the
    torque is smoothed into the accumulator, and the frame holds the smoothed
    point. *)
Theorem center_of_pressure_needs_grip (rt : GripRealtimeDataInfo R)
    (slice ati : Z) (s : State R) :
  0 <= ati < N_FORCE_TRANSDUCERS ->
  let sl := dataSlice rt slice in
  let s' := decode_slice rt slice s in
  let old := filteredCoP (dex s) ati in
  ((Rabs (vX (force (ft sl ati))) <= / 2)%R ->
     CenterOfPressure (buf s') ati (nFrames s) = missingVector
     /\ filteredCoP (dex s') ati = old)
  /\ ((/ 2 < Rabs (vX (force (ft sl ati))))%R ->
      let cop := mkVector3 0%R
                   (- vZ (torque (ft sl ati)) / vX (force (ft sl ati)))%R
                   (- vY (torque (ft sl ati)) / vX (force (ft sl ati)))%R in
      let filtered := filter_vector (filterConstant (dex s)) old cop in
      CenterOfPressure (buf s') ati (nFrames s) = filtered
      /\ filteredCoP (dex s') ati = filtered).
Proof.
  intros Hati sl s' old.
  set (s4 := slice_load_force sl (slice_normal_forces sl (slice_grip_force sl
               (slice_pose sl s)))).
  assert (H4 : cop_part s4 = cop_part s).
  { unfold s4. rewrite slice_load_force_cop, slice_normal_forces_cop,
      slice_grip_force_cop, slice_pose_cop. reflexivity. }
  set (s5 := slice_center_of_pressure sl s4).
  assert (H' : (CenterOfPressure (buf s'), filteredCoP (dex s'))
               = (CenterOfPressure (buf s5), filteredCoP (dex s5))).
  { pose proof (slice_visibility_cop sl (slice_acceleration sl s5)) as Hv.
    rewrite slice_acceleration_cop in Hv.
    exact (f_equal (fun p => (snd (fst (fst p)), snd (fst p))) Hv). }
  assert (Hc' : CenterOfPressure (buf s') = CenterOfPressure (buf s5))
    by exact (f_equal fst H').
  assert (Hf' : filteredCoP (dex s') = filteredCoP (dex s5))
    by exact (f_equal snd H').
  assert (Hn4 : nFrames s4 = nFrames s)
    by exact (f_equal (fun p => fst (fst (fst p))) H4).
  assert (Hf4 : filteredCoP (dex s4) = filteredCoP (dex s))
    by exact (f_equal (fun p => snd (fst p)) H4).
  assert (Hk4 : filterConstant (dex s4) = filterConstant (dex s))
    by exact (f_equal snd H4).
  clear H' H4. clearbody s'.
  destruct (cop_loop_spec sl (nFrames s4) (Z.to_nat N_FORCE_TRANSDUCERS) 0 s4)
    as (_ & _ & Hc & Hf).
  cbv zeta in Hc, Hf. rewrite <- slice_center_of_pressure_loop in Hc, Hf.
  fold s5 in Hc, Hf. clearbody s5. clearbody s4.
  assert (Hin : (0 <=? ati) && (ati <? 0 + Z.of_nat (Z.to_nat N_FORCE_TRANSDUCERS)) = true).
  { apply andb_true_iff. split; [apply Z.leb_le | apply Z.ltb_lt]; lia. }
  specialize (Hc ati (nFrames s)). specialize (Hf ati).
  rewrite Hin, Hn4, Hk4, Hf4 in Hc. rewrite Hin, Hk4, Hf4 in Hf.
  rewrite Z.eqb_refl in Hc. cbn [andb] in Hc.
  rewrite Hc', Hf', Hc, Hf. fold old. unfold cop_after.
  split.
  - intros Hle. destruct (Rlt_dec (/ 2) (Rabs (vX (force (ft sl ati))))); [lra|].
    split; reflexivity.
  - intros Hgt. destruct (Rlt_dec (/ 2) (Rabs (vX (force (ft sl ati))))); [|lra].
    split; reflexivity.
Qed.

End CenterOfPressureFacts.

Section SliceSample.
Import VectorsMixin DexAnalogMixin GripPackets GripMMI ExactReal.
Local Open Scope R_scope.

(** One packet arriving with no gap after the previous one, into empty
    buffers: its ten slices are recorded. *)
Lemma ingest_packet_within_buffers_witness :
  nFrames (ingest_packet (Sample.sample_rt 5 1) 5 (Sample.sample_state 0)) = 10%Z.
Proof.
  destruct (ingest_packet_within_buffers (Sample.sample_rt 5 1) 5 (Sample.sample_state 0))
    as (_ & _ & _ & H).
  - reflexivity.
  - rewrite H; [reflexivity|].
    apply dlt_false. cbn. unfold PACKET_STREAM_BREAK_THRESHOLD, Q2R. cbn. lra.
Defined.

(** A slice with a normal force of 2 and torque (0, 6, -8) on sensor 0, into
    a filter with constant 100 and accumulators at 0: the frame holds the
    point (0, 4, -3) smoothed into the zero vector. *)
Lemma center_of_pressure_needs_grip_witness :
  CenterOfPressure
    (buf (decode_slice (Sample.sample_rt 5 1) 0 (Sample.sample_state 0))) 0%Z 0%Z
  = filter_vector 100 (mkVector3 0 0 0) (mkVector3 0 (- -8 / 2) (- 6 / 2)).
Proof.
  destruct (center_of_pressure_needs_grip (Sample.sample_rt 5 1) 0 (ati := 0%Z)
              (Sample.sample_state 0)) as [_ H].
  - cbn. lia.
  - cbv zeta in H. refine (proj1 (H _)). cbn. rewrite Rabs_pos_eq; lra.
Defined.

End SliceSample.
